(** * WooCommerce MCP gateway: method dispatch, credential resolution and
      JSON-RPC envelope

    Shallow embedding of [src/index.ts] (the JSON-RPC over HTTP entry point) and
    of [src/sse-server.ts] (the stdio / SSE entry point) together with the
    properties of the dispatcher that the specification states.

    Conventions of the embedding.
    - JavaScript values that travel through the gateway are JSON documents: they
      are embedded as [JsValue].  Numbers are the integers ([Z]); strings are
      byte strings (the UTF-8 encoding, which is what [Buffer.from] produces).
    - Objects are association lists in insertion order; a property is read from
      its first binding.
    - An [async] function is a tree of upstream calls ([Prog]): each axios call
      is a node whose continuation receives the settled promise.  A tree is run
      against an upstream store, an explicit state machine. *)

From Stdlib Require Import String Ascii List ZArith NArith Bool Lia DecimalString.
Import ListNotations.
Open Scope string_scope.

Set Implicit Arguments.
Set Warnings "-register-all".

(** ** JavaScript values *)

Module Js.

Inductive JsValue : Type :=
| JUndefined
| JNull
| JBool (b : bool)
| JNum (n : Z)
| JStr (s : string)
| JArr (items : list JsValue)
| JObj (fields : list (string * JsValue)).

(** An exception value.  [new Error(msg)] and a [TypeError] have no
    [response] property ([JUndefined]); an axios rejection carries the HTTP
    response when the upstream answered. *)
Record JsError : Type := mkError {
  message : string;
  response : JsValue
}.

Definition Error (msg : string) : JsError := mkError msg JUndefined.

Definition Result (A : Type) : Type := (JsError + A)%type.

(** ToBoolean *)
Definition truthy (v : JsValue) : bool :=
  match v with
  | JUndefined | JNull => false
  | JBool b => b
  | JNum n => negb (n =? 0)%Z
  | JStr s => negb (s =? "")
  | JArr _ | JObj _ => true
  end.

(** [a || b] *)
Definition js_or (a b : JsValue) : JsValue := if truthy a then a else b.

(** [a && b] *)
Definition js_and (a b : JsValue) : JsValue := if truthy a then b else a.

Definition nullish (v : JsValue) : bool :=
  match v with
  | JUndefined | JNull => true
  | _ => false
  end.

Fixpoint lookup (k : string) (fs : list (string * JsValue)) : option JsValue :=
  match fs with
  | [] => None
  | (k', v) :: rest => if k' =? k then Some v else lookup k rest
  end.

(** [v.k] for a [v] that is not nullish: a missing property, and any of the
    gateway's property names on a primitive or an array, reads [undefined]. *)
Definition prop (v : JsValue) (k : string) : JsValue :=
  match v with
  | JObj fs => match lookup k fs with Some x => x | None => JUndefined end
  | _ => JUndefined
  end.

Definition type_name (v : JsValue) : string :=
  match v with
  | JNull => "null"
  | _ => "undefined"
  end.

(** [v.k] in general: reading a property of [undefined] or [null] throws. *)
Definition member (v : JsValue) (k : string) : Result JsValue :=
  if nullish v
  then inl (Error ("Cannot read properties of " ++ type_name v
                   ++ " (reading '" ++ k ++ "')"))
  else inr (prop v k).

(** [v?.k] *)
Definition opt_member (v : JsValue) (k : string) : JsValue :=
  if nullish v then JUndefined else prop v k.

(** [a === b].  The two operands always come from different documents (a
    request and an upstream response), so two arrays or two objects are never
    the same reference. *)
Definition strict_equals (a b : JsValue) : bool :=
  match a, b with
  | JUndefined, JUndefined => true
  | JNull, JNull => true
  | JBool x, JBool y => Bool.eqb x y
  | JNum x, JNum y => (x =? y)%Z
  | JStr x, JStr y => (x =? y)
  | _, _ => false
  end.

Definition string_of_Z (n : Z) : string := NilZero.string_of_int (Z.to_int n).

(** ToString, as a template literal and [String(v)] apply it. *)
Fixpoint to_string (v : JsValue) : string :=
  match v with
  | JUndefined => "undefined"
  | JNull => "null"
  | JBool true => "true"
  | JBool false => "false"
  | JNum n => string_of_Z n
  | JStr s => s
  | JArr items =>
      (fix join (l : list JsValue) : string :=
         match l with
         | [] => ""
         | x :: rest =>
             let head := match x with
                         | JUndefined | JNull => ""
                         | _ => to_string x
                         end in
             match rest with
             | [] => head
             | _ => head ++ "," ++ join rest
             end
         end) items
  | JObj _ => "[object Object]"
  end.

Fixpoint chars_from (i : nat) (s : string) : list (string * JsValue) :=
  match s with
  | EmptyString => []
  | String c rest =>
      (string_of_Z (Z.of_nat i), JStr (String c EmptyString)) :: chars_from (S i) rest
  end.

Fixpoint items_from (i : nat) (l : list JsValue) : list (string * JsValue) :=
  match l with
  | [] => []
  | x :: rest => (string_of_Z (Z.of_nat i), x) :: items_from (S i) rest
  end.

(** The own enumerable properties that [{...v}] copies and that
    [Object.entries(v)] lists. *)
Definition own_entries (v : JsValue) : list (string * JsValue) :=
  match v with
  | JObj fs => fs
  | JArr items => items_from 0 items
  | JStr s => chars_from 0 s
  | _ => []
  end.

(** [o[k] = v] on the fields of an object: an existing property keeps its
    place, a new one goes last. *)
Fixpoint set_field (k : string) (v : JsValue) (fs : list (string * JsValue))
  : list (string * JsValue) :=
  match fs with
  | [] => [(k, v)]
  | (k', v') :: rest =>
      if k' =? k then (k', v) :: rest else (k', v') :: set_field k v rest
  end.

(** [{...fs, ...extra}] *)
Definition assign (fs extra : list (string * JsValue)) : list (string * JsValue) :=
  fold_left (fun acc kv => set_field (fst kv) (snd kv) acc) extra fs.

End Js.
Export Js.

(** ** Byte-level encodings used when a request is built *)

Module Encoding.

Definition base64_alphabet : string :=
  "ABCDEFGHIJKLMNOPQRSTUVWXYZabcdefghijklmnopqrstuvwxyz0123456789+/".

Definition base64_digit (n : N) : ascii :=
  match String.get (N.to_nat n) base64_alphabet with
  | Some c => c
  | None => "="%char
  end.

(** [Buffer.from(s).toString("base64")]: three bytes give four digits, the
    last group is padded with [=]. *)
Fixpoint base64 (s : string) : string :=
  match s with
  | EmptyString => EmptyString
  | String a EmptyString =>
      let x := N_of_ascii a in
      String (base64_digit (x / 4))
        (String (base64_digit ((x mod 4) * 16)) "==")
  | String a (String b EmptyString) =>
      let x := N_of_ascii a in
      let y := N_of_ascii b in
      String (base64_digit (x / 4))
        (String (base64_digit ((x mod 4) * 16 + y / 16))
           (String (base64_digit ((y mod 16) * 4)) "="))
  | String a (String b (String c rest)) =>
      let x := N_of_ascii a in
      let y := N_of_ascii b in
      let z := N_of_ascii c in
      String (base64_digit (x / 4))
        (String (base64_digit ((x mod 4) * 16 + y / 16))
           (String (base64_digit ((y mod 16) * 4 + z / 64))
              (String (base64_digit (z mod 64)) (base64 rest))))
  end%N.

(** The value of a base64 digit, and the decoding that the upstream applies
    to the token of an [Authorization: Basic] header. *)
Definition base64_value (c : ascii) : option N :=
  let n := N_of_ascii c in
  (if (65 <=? n) && (n <=? 90) then Some (n - 65)
   else if (97 <=? n) && (n <=? 122) then Some (n - 71)
   else if (48 <=? n) && (n <=? 57) then Some (n + 4)
   else if n =? 43 then Some 62
   else if n =? 47 then Some 63
   else None)%N.

Definition is_pad (c : ascii) : bool := (N_of_ascii c =? 61)%N.

Fixpoint base64_decode (s : string) : option string :=
  match s with
  | EmptyString => Some EmptyString
  | String a (String b (String c (String d rest))) =>
      match base64_value a, base64_value b with
      | Some x, Some y =>
          let b1 := ascii_of_N (x * 4 + y / 16) in
          if is_pad c && is_pad d then
            match rest with
            | EmptyString => Some (String b1 EmptyString)
            | _ => None
            end
          else
            match base64_value c with
            | Some z =>
                let b2 := ascii_of_N ((y mod 16) * 16 + z / 4) in
                if is_pad d then
                  match rest with
                  | EmptyString => Some (String b1 (String b2 EmptyString))
                  | _ => None
                  end
                else
                  match base64_value d, base64_decode rest with
                  | Some w, Some tail =>
                      Some (String b1 (String b2
                              (String (ascii_of_N ((z mod 4) * 64 + w)) tail)))
                  | _, _ => None
                  end
            | None => None
            end
      | _, _ => None
      end
  | _ => None
  end%N.

Definition hex_digit (n : N) : ascii :=
  match String.get (N.to_nat n) "0123456789ABCDEF" with
  | Some c => c
  | None => "0"%char
  end.

Definition is_form_safe (c : ascii) : bool :=
  let n := N_of_ascii c in
  ((48 <=? n) && (n <=? 57) || (65 <=? n) && (n <=? 90)
   || (97 <=? n) && (n <=? 122)
   || (n =? 42) || (n =? 45) || (n =? 46) || (n =? 95))%N.

(** The application/x-www-form-urlencoded byte serializer. *)
Fixpoint form_encode (s : string) : string :=
  match s with
  | EmptyString => EmptyString
  | String c rest =>
      if is_form_safe c then String c (form_encode rest)
      else if (N_of_ascii c =? 32)%N then String "+" (form_encode rest)
      else String "%"
             (String (hex_digit (N_of_ascii c / 16))
                (String (hex_digit (N_of_ascii c mod 16)) (form_encode rest)))
  end.

(** [URLSearchParams.prototype.toString] on the appended pairs. *)
Fixpoint search_params_to_string (ps : list (string * string)) : string :=
  match ps with
  | [] => ""
  | (k, v) :: rest =>
      let pair := form_encode k ++ "=" ++ form_encode v in
      match rest with
      | [] => pair
      | _ => pair ++ "&" ++ search_params_to_string rest
      end
  end.

End Encoding.
Export Encoding.


(** ** The HTTP client and asynchronous programs *)

Module Axios.

Inductive Verb : Type := GET | POST | PUT | DELETE.

(** The configuration given to [axios.create]. *)
Record AxiosInstance : Type := mkInstance {
  baseURL : string;
  default_params : list (string * JsValue);
  headers : list (string * string);
  auth : option (JsValue * JsValue)
}.

(** One call [client.get(url, {params})], [client.post(url, data)],
    [client.put(url, data)] or [client.delete(url, {params})]. *)
Record AxiosRequest : Type := mkRequest {
  verb : Verb;
  url : string;
  query : option (list (string * JsValue));
  body : option JsValue
}.

(** Of the response only [data] is read. *)
Record AxiosResponse : Type := mkResponse { data : JsValue }.

Inductive Settled : Type :=
| Resolved (r : AxiosResponse)
| Rejected (e : JsError).

(** An [async] function body: it returns, throws, awaits an upstream call, or
    pushes a payload to the subscribers of an SSE channel (the time stamp of
    the payload is left out). *)
Inductive Prog (A : Type) : Type :=
| Ret (a : A)
| Throw (e : JsError)
| Call (c : AxiosInstance) (r : AxiosRequest) (k : Settled -> Prog A)
| Broadcast (channel kind : string) (payload : JsValue) (k : Prog A).

Arguments Ret {A} a.
Arguments Throw {A} e.
Arguments Call {A} c r k.
Arguments Broadcast {A} channel kind payload k.

Fixpoint bind {A B : Type} (p : Prog A) (f : A -> Prog B) : Prog B :=
  match p with
  | Ret a => f a
  | Throw e => Throw e
  | Call c r k => Call c r (fun s => bind (k s) f)
  | Broadcast ch kd pl k => Broadcast ch kd pl (bind k f)
  end.

(** [try { p } catch (error) { h(error) }] *)
Fixpoint try_catch {A : Type} (p : Prog A) (h : JsError -> Prog A) : Prog A :=
  match p with
  | Ret a => Ret a
  | Throw e => h e
  | Call c r k => Call c r (fun s => try_catch (k s) h)
  | Broadcast ch kd pl k => Broadcast ch kd pl (try_catch k h)
  end.

(** [await client.verb(...)]: a rejected promise is thrown at the await. *)
Definition await (c : AxiosInstance) (r : AxiosRequest) : Prog AxiosResponse :=
  Call c r (fun s => match s with
                     | Resolved x => Ret x
                     | Rejected e => Throw e
                     end).

Definition lift {A : Type} (r : Result A) : Prog A :=
  match r with
  | inl e => Throw e
  | inr a => Ret a
  end.

(** The upstream store: a state machine that settles each call. *)
Record Upstream : Type := mkUpstream {
  store : Type;
  serve : AxiosInstance -> AxiosRequest -> store -> store * Settled
}.

Inductive Event : Type :=
| Requested (c : AxiosInstance) (r : AxiosRequest)
| Pushed (channel kind : string) (payload : JsValue).

(** Running a program: the calls it made, in order, the final state of the
    upstream and what the promise settled to. *)
Fixpoint run (U : Upstream) {A : Type} (p : Prog A) (s : store U)
  : list Event * store U * Result A :=
  match p with
  | Ret a => ([], s, inr a)
  | Throw e => ([], s, inl e)
  | Call c r k =>
      let '(s1, out) := serve U c r s in
      let '(tr, s2, res) := run U (k out) s1 in
      (Requested c r :: tr, s2, res)
  | Broadcast ch kd pl k =>
      let '(tr, s1, res) := run U k s in
      (Pushed ch kd pl :: tr, s1, res)
  end.

(** Every call the program can make, whatever the upstream answers, goes
    through a client and sends a request that satisfy [P]. *)
Fixpoint all_calls {A : Type} (P : AxiosInstance -> AxiosRequest -> Prop)
  (p : Prog A) : Prop :=
  match p with
  | Ret _ => True
  | Throw _ => True
  | Call c r k => P c r /\ forall s, all_calls P (k s)
  | Broadcast _ _ _ k => all_calls P k
  end.

(** A rejected call ends the program at once with the error [h] makes of the
    rejection: nothing is called again. *)
Fixpoint fail_stop {A : Type} (h : JsError -> JsError) (p : Prog A) : Prop :=
  match p with
  | Ret _ => True
  | Throw _ => True
  | Call _ _ k =>
      (forall e, k (Rejected e) = Throw (h e))
      /\ forall x, fail_stop h (k (Resolved x))
  | Broadcast _ _ _ k => fail_stop h k
  end.

End Axios.
Export Axios.

Declare Scope prog_scope.
Delimit Scope prog_scope with prog.
Notation "x <- p ;; q" := (bind p (fun x => q))
  (at level 61, p at next level, right associativity) : prog_scope.
Notation "'check' v 'or_throw' msg ;; q" :=
  (if truthy v then q else Throw (Error msg))
  (at level 61, v at next level, msg at next level, right associativity) : prog_scope.
Notation "p .[ k ]" := (prop p k) (at level 1, left associativity, format "p .[ k ]") : prog_scope.

(** ** [src/index.ts] *)

Module Index.

Open Scope prog_scope.

(** The process-wide defaults, read once from the environment
    ([process.env.X || ""]). *)
Record Env : Type := mkEnv {
  DEFAULT_SITE_URL : string;
  DEFAULT_USERNAME : string;
  DEFAULT_PASSWORD : string;
  DEFAULT_CONSUMER_KEY : string;
  DEFAULT_CONSUMER_SECRET : string
}.

Definition wpMethods : list string :=
  [ "create_post"; "get_posts"; "update_post"; "get_post_meta";
    "update_post_meta"; "create_post_meta"; "delete_post_meta" ].

Definition wooMethods : list string :=
  [ "get_products"; "get_product"; "create_product"; "update_product";
    "delete_product"; "get_orders"; "get_order"; "create_order";
    "update_order"; "delete_order"; "get_customers"; "get_customer";
    "create_customer"; "update_customer"; "delete_customer";
    "get_sales_report"; "get_products_report"; "get_orders_report";
    "get_categories_report"; "get_customers_report"; "get_stock_report";
    "get_coupons_report"; "get_taxes_report";
    "get_shipping_zones"; "get_shipping_zone"; "create_shipping_zone";
    "update_shipping_zone"; "delete_shipping_zone"; "get_shipping_methods";
    "get_shipping_zone_methods"; "create_shipping_zone_method";
    "update_shipping_zone_method"; "delete_shipping_zone_method";
    "get_shipping_zone_locations"; "update_shipping_zone_locations";
    "get_tax_classes"; "create_tax_class"; "delete_tax_class";
    "get_tax_rates"; "get_tax_rate"; "create_tax_rate"; "update_tax_rate";
    "delete_tax_rate";
    "get_coupons"; "get_coupon"; "create_coupon"; "update_coupon";
    "delete_coupon";
    "get_order_notes"; "get_order_note"; "create_order_note";
    "delete_order_note";
    "get_order_refunds"; "get_order_refund"; "create_order_refund";
    "delete_order_refund";
    "get_product_variations"; "get_product_variation";
    "create_product_variation"; "update_product_variation";
    "delete_product_variation";
    "get_product_attributes"; "get_product_attribute";
    "create_product_attribute"; "update_product_attribute";
    "delete_product_attribute";
    "get_attribute_terms"; "get_attribute_term"; "create_attribute_term";
    "update_attribute_term"; "delete_attribute_term";
    "get_product_categories"; "get_product_category";
    "create_product_category"; "update_product_category";
    "delete_product_category";
    "get_product_tags"; "get_product_tag"; "create_product_tag";
    "update_product_tag"; "delete_product_tag";
    "get_product_reviews"; "get_product_review"; "create_product_review";
    "update_product_review"; "delete_product_review";
    "get_payment_gateways"; "get_payment_gateway"; "update_payment_gateway";
    "get_settings"; "get_setting_options"; "update_setting_option";
    "get_system_status"; "get_system_status_tools"; "run_system_status_tool";
    "get_data"; "get_continents"; "get_countries"; "get_currencies";
    "get_current_currency";
    "get_product_meta"; "update_product_meta"; "create_product_meta";
    "delete_product_meta";
    "get_order_meta"; "update_order_meta"; "create_order_meta";
    "delete_order_meta";
    "get_customer_meta"; "update_customer_meta"; "create_customer_meta";
    "delete_customer_meta" ].

(** [names.includes(method)]: [method] is whatever the request carried. *)
Definition includes (names : list string) (method : JsValue) : bool :=
  existsb (fun name => strict_equals (JStr name) method) names.

(** [const r = await client.get(url, config); return r.data;] and the like. *)
Definition client_get (c : AxiosInstance) (url : string)
  (q : option (list (string * JsValue))) : Prog JsValue :=
  r <- await c (mkRequest GET url q None);; Ret (data r).

Definition client_post (c : AxiosInstance) (url : string) (d : JsValue)
  : Prog JsValue :=
  r <- await c (mkRequest POST url None (Some d));; Ret (data r).

Definition client_put (c : AxiosInstance) (url : string) (d : option JsValue)
  : Prog JsValue :=
  r <- await c (mkRequest PUT url None d);; Ret (data r).

Definition client_delete (c : AxiosInstance) (url : string)
  (q : list (string * JsValue)) : Prog JsValue :=
  r <- await c (mkRequest DELETE url (Some q) None);; Ret (data r).

(** [{ per_page: params.perPage || 10, page: params.page || 1 }] *)
Definition paging (params : JsValue) : list (string * JsValue) :=
  [ ("per_page", js_or params.["perPage"] (JNum 10));
    ("page", js_or params.["page"] (JNum 1)) ].

(** [{ period: params.period || "month", date_min: params.dateMin || "",
       date_max: params.dateMax || "" }] *)
Definition period (params : JsValue) : list (string * JsValue) :=
  [ ("period", js_or params.["period"] (JStr "month"));
    ("date_min", js_or params.["dateMin"] (JStr ""));
    ("date_max", js_or params.["dateMax"] (JStr "")) ].

(** [{ ...fields, ...params.filters }] *)
Definition with_filters (fields : list (string * JsValue)) (params : JsValue)
  : list (string * JsValue) :=
  assign fields (own_entries params.["filters"]).

(** [(meta) => meta.key === key], applied to one entry. *)
Definition key_matches (key entry : JsValue) : Result bool :=
  match member entry "key" with
  | inl e => inl e
  | inr k => inr (strict_equals k key)
  end.

(** [entries.findIndex((meta) => meta.key === key)]; [None] is [-1]. *)
Fixpoint findIndex (key : JsValue) (entries : list JsValue) : Result (option nat) :=
  match entries with
  | [] => inr None
  | entry :: rest =>
      match key_matches key entry with
      | inl e => inl e
      | inr true => inr (Some 0)
      | inr false =>
          match findIndex key rest with
          | inl e => inl e
          | inr (Some i) => inr (Some (S i))
          | inr None => inr None
          end
      end
  end.

(** [entries.filter((meta) => meta.key === key)] when [keep] is [true],
    [entries.filter((meta) => meta.key !== key)] when it is [false]. *)
Fixpoint filter_by_key (keep : bool) (key : JsValue) (entries : list JsValue)
  : Result (list JsValue) :=
  match entries with
  | [] => inr []
  | entry :: rest =>
      match key_matches key entry with
      | inl e => inl e
      | inr b =>
          match filter_by_key keep key rest with
          | inl e => inl e
          | inr kept => inr (if Bool.eqb b keep then entry :: kept else kept)
          end
      end
  end.

(** The receiver of an array method: anything but an array has no such
    method, and the call throws. *)
Definition as_array (what : string) (v : JsValue) : Result (list JsValue) :=
  match v with
  | JArr items => inr items
  | _ => inl (Error (what ++ " is not a function"))
  end.

(** [entries[i].value = v] *)
Fixpoint set_value_at (i : nat) (v : JsValue) (entries : list JsValue)
  : Result (list JsValue) :=
  match entries, i with
  | [], _ => inl (Error "Cannot set properties of undefined (setting 'value')")
  | JObj fs :: rest, O => inr (JObj (set_field "value" v fs) :: rest)
  | _ :: _, O => inl (Error "Cannot create property 'value'")
  | entry :: rest, S j =>
      match set_value_at j v rest with
      | inl e => inl e
      | inr rest' => inr (entry :: rest')
      end
  end.

(** The three [get_*_meta] cases after their check of the id. *)
Definition read_meta (c : AxiosInstance) (url what : string) (params : JsValue)
  : Prog JsValue :=
  r <- await c (mkRequest GET url None None);;
  stored <- lift (member (data r) "meta_data");;
  let metaData := js_or stored (JArr []) in
  if truthy params.["metaKey"]
  then
    entries <- lift (as_array (what ++ ".filter") metaData);;
    kept <- lift (filter_by_key true params.["metaKey"] entries);;
    Ret (JArr kept)
  else Ret metaData.

(** The three [create_*_meta] / [update_*_meta] cases after their checks. *)
Definition write_meta (c : AxiosInstance) (url what : string) (params : JsValue)
  : Prog JsValue :=
  r <- await c (mkRequest GET url None None);;
  stored <- lift (member (data r) "meta_data");;
  let metaData := js_or stored (JArr []) in
  entries <- lift (as_array (what ++ ".findIndex") metaData);;
  existing <- lift (findIndex params.["metaKey"] entries);;
  updated <- lift (match existing with
                   | Some i => set_value_at i params.["metaValue"] entries
                   | None =>
                       inr (entries ++ [JObj [ ("key", params.["metaKey"]);
                                               ("value", params.["metaValue"]) ]])%list
                   end);;
  w <- await c (mkRequest PUT url None
                  (Some (JObj [ ("meta_data", JArr updated) ])));;
  lift (member (data w) "meta_data").

(** The three [delete_*_meta] cases after their checks. *)
Definition remove_meta (c : AxiosInstance) (url what : string) (params : JsValue)
  : Prog JsValue :=
  r <- await c (mkRequest GET url None None);;
  stored <- lift (member (data r) "meta_data");;
  let current := js_or stored (JArr []) in
  entries <- lift (as_array (what ++ ".filter") current);;
  updated <- lift (filter_by_key false params.["metaKey"] entries);;
  w <- await c (mkRequest PUT url None
                  (Some (JObj [ ("meta_data", JArr updated) ])));;
  lift (member (data w) "meta_data").

Definition Case : Type := AxiosInstance -> JsValue -> Prog JsValue.

(** *** The [switch (method)] of [handleWooCommerceRequest]

    Each row is one [case] label with its body, in the order of the source;
    labels that share a body have one row each. *)

Definition post_cases : list (string * Case) :=
  [ ("create_post", fun client params =>
       if negb (truthy params.["title"]) || negb (truthy params.["content"])
       then Throw (Error "Title and content are required for creating a post")
       else client_post client "/posts"
              (JObj [ ("title", params.["title"]);
                      ("content", params.["content"]);
                      ("status", js_or params.["status"] (JStr "draft")) ]));
    ("get_posts", fun client params =>
       client_get client "/posts" (Some (paging params)));
    ("update_post", fun client params =>
       check params.["postId"] or_throw "Post ID is required for updating a post";;
       let updateData :=
         ((if truthy params.["title"] then [("title", params.["title"])] else [])
          ++ (if truthy params.["content"] then [("content", params.["content"])] else [])
          ++ (if truthy params.["status"] then [("status", params.["status"])] else []))%list in
       client_post client ("/posts/" ++ to_string params.["postId"]) (JObj updateData)) ].

Definition product_cases : list (string * Case) :=
  [ ("get_products", fun client params =>
       client_get client "/products" (Some (with_filters (paging params) params)));
    ("get_product", fun client params =>
       check params.["productId"] or_throw "Product ID is required";;
       client_get client ("/products/" ++ to_string params.["productId"]) None);
    ("create_product", fun client params =>
       check params.["productData"] or_throw "Product data is required for creating a product";;
       client_post client "/products" params.["productData"]);
    ("update_product", fun client params =>
       check params.["productId"] or_throw "Product ID is required for updating a product";;
       check params.["productData"] or_throw "Product data is required for updating a product";;
       client_put client ("/products/" ++ to_string params.["productId"])
         (Some params.["productData"]));
    ("delete_product", fun client params =>
       check params.["productId"] or_throw "Product ID is required for deleting a product";;
       client_delete client ("/products/" ++ to_string params.["productId"])
         [ ("force", js_or params.["force"] (JBool false)) ]) ].

Definition order_cases : list (string * Case) :=
  [ ("get_orders", fun client params =>
       client_get client "/orders" (Some (with_filters (paging params) params)));
    ("get_order", fun client params =>
       check params.["orderId"] or_throw "Order ID is required";;
       client_get client ("/orders/" ++ to_string params.["orderId"]) None);
    ("create_order", fun client params =>
       check params.["orderData"] or_throw "Order data is required for creating an order";;
       client_post client "/orders" params.["orderData"]);
    ("update_order", fun client params =>
       check params.["orderId"] or_throw "Order ID is required for updating an order";;
       check params.["orderData"] or_throw "Order data is required for updating an order";;
       client_put client ("/orders/" ++ to_string params.["orderId"])
         (Some params.["orderData"]));
    ("delete_order", fun client params =>
       check params.["orderId"] or_throw "Order ID is required for deleting an order";;
       client_delete client ("/orders/" ++ to_string params.["orderId"])
         [ ("force", js_or params.["force"] (JBool false)) ]) ].

Definition customer_cases : list (string * Case) :=
  [ ("get_customers", fun client params =>
       client_get client "/customers" (Some (with_filters (paging params) params)));
    ("get_customer", fun client params =>
       check params.["customerId"] or_throw "Customer ID is required";;
       client_get client ("/customers/" ++ to_string params.["customerId"]) None);
    ("create_customer", fun client params =>
       check params.["customerData"] or_throw "Customer data is required for creating a customer";;
       client_post client "/customers" params.["customerData"]);
    ("update_customer", fun client params =>
       check params.["customerId"] or_throw "Customer ID is required for updating a customer";;
       check params.["customerData"] or_throw "Customer data is required for updating a customer";;
       client_put client ("/customers/" ++ to_string params.["customerId"])
         (Some params.["customerData"]));
    ("delete_customer", fun client params =>
       check params.["customerId"] or_throw "Customer ID is required for deleting a customer";;
       client_delete client ("/customers/" ++ to_string params.["customerId"])
         [ ("force", js_or params.["force"] (JBool false)) ]) ].

Definition report_cases : list (string * Case) :=
  [ ("get_sales_report", fun client params =>
       client_get client "/reports/sales" (Some (with_filters (period params) params)));
    ("get_products_report", fun client params =>
       client_get client "/reports/products"
         (Some (with_filters (period params ++ paging params)%list params)));
    ("get_orders_report", fun client params =>
       client_get client "/reports/orders"
         (Some (with_filters (period params ++ paging params)%list params)));
    ("get_categories_report", fun client params =>
       client_get client "/reports/categories"
         (Some (with_filters (paging params) params)));
    ("get_customers_report", fun client params =>
       client_get client "/reports/customers"
         (Some (with_filters (paging params) params)));
    ("get_stock_report", fun client params =>
       client_get client "/reports/stock"
         (Some (with_filters (paging params) params)));
    ("get_coupons_report", fun client params =>
       client_get client "/reports/coupons"
         (Some (with_filters (period params ++ paging params)%list params)));
    ("get_taxes_report", fun client params =>
       client_get client "/reports/taxes"
         (Some (with_filters (period params ++ paging params)%list params))) ].

Definition shipping_cases : list (string * Case) :=
  [ ("get_shipping_zones", fun client params =>
       client_get client "/shipping/zones" (Some (with_filters [] params)));
    ("get_shipping_zone", fun client params =>
       check params.["zoneId"] or_throw "Zone ID is required";;
       client_get client ("/shipping/zones/" ++ to_string params.["zoneId"]) None);
    ("create_shipping_zone", fun client params =>
       check params.["zoneData"] or_throw "Zone data is required for creating a shipping zone";;
       client_post client "/shipping/zones" params.["zoneData"]);
    ("update_shipping_zone", fun client params =>
       check params.["zoneId"] or_throw "Zone ID is required for updating a shipping zone";;
       check params.["zoneData"] or_throw "Zone data is required for updating a shipping zone";;
       client_put client ("/shipping/zones/" ++ to_string params.["zoneId"])
         (Some params.["zoneData"]));
    ("delete_shipping_zone", fun client params =>
       check params.["zoneId"] or_throw "Zone ID is required for deleting a shipping zone";;
       client_delete client ("/shipping/zones/" ++ to_string params.["zoneId"])
         [ ("force", js_or params.["force"] (JBool true)) ]);
    ("get_shipping_methods", fun client params =>
       client_get client "/shipping_methods" None);
    ("get_shipping_zone_methods", fun client params =>
       check params.["zoneId"] or_throw "Zone ID is required";;
       client_get client
         ("/shipping/zones/" ++ to_string params.["zoneId"] ++ "/methods") None);
    ("create_shipping_zone_method", fun client params =>
       check params.["zoneId"] or_throw "Zone ID is required";;
       check params.["methodData"] or_throw "Method data is required for creating a shipping method";;
       client_post client
         ("/shipping/zones/" ++ to_string params.["zoneId"] ++ "/methods")
         params.["methodData"]);
    ("update_shipping_zone_method", fun client params =>
       check params.["zoneId"] or_throw "Zone ID is required";;
       check params.["instanceId"] or_throw "Method instance ID is required";;
       check params.["methodData"] or_throw "Method data is required for updating a shipping method";;
       client_put client
         ("/shipping/zones/" ++ to_string params.["zoneId"] ++ "/methods/"
          ++ to_string params.["instanceId"])
         (Some params.["methodData"]));
    ("delete_shipping_zone_method", fun client params =>
       check params.["zoneId"] or_throw "Zone ID is required";;
       check params.["instanceId"] or_throw "Method instance ID is required";;
       client_delete client
         ("/shipping/zones/" ++ to_string params.["zoneId"] ++ "/methods/"
          ++ to_string params.["instanceId"])
         [ ("force", js_or params.["force"] (JBool true)) ]);
    ("get_shipping_zone_locations", fun client params =>
       check params.["zoneId"] or_throw "Zone ID is required";;
       client_get client
         ("/shipping/zones/" ++ to_string params.["zoneId"] ++ "/locations") None);
    ("update_shipping_zone_locations", fun client params =>
       check params.["zoneId"] or_throw "Zone ID is required";;
       check params.["locations"] or_throw "Locations data is required";;
       client_put client
         ("/shipping/zones/" ++ to_string params.["zoneId"] ++ "/locations")
         (Some params.["locations"])) ].

Definition tax_cases : list (string * Case) :=
  [ ("get_tax_classes", fun client params =>
       client_get client "/taxes/classes" None);
    ("create_tax_class", fun client params =>
       check params.["taxClassData"] or_throw "Tax class data is required";;
       client_post client "/taxes/classes" params.["taxClassData"]);
    ("delete_tax_class", fun client params =>
       check params.["slug"] or_throw "Tax class slug is required";;
       client_delete client ("/taxes/classes/" ++ to_string params.["slug"])
         [ ("force", js_or params.["force"] (JBool true)) ]);
    ("get_tax_rates", fun client params =>
       client_get client "/taxes" (Some (with_filters (paging params) params)));
    ("get_tax_rate", fun client params =>
       check params.["rateId"] or_throw "Tax rate ID is required";;
       client_get client ("/taxes/" ++ to_string params.["rateId"]) None);
    ("create_tax_rate", fun client params =>
       check params.["taxRateData"] or_throw "Tax rate data is required";;
       client_post client "/taxes" params.["taxRateData"]);
    ("update_tax_rate", fun client params =>
       check params.["rateId"] or_throw "Tax rate ID is required";;
       check params.["taxRateData"] or_throw "Tax rate data is required";;
       client_put client ("/taxes/" ++ to_string params.["rateId"])
         (Some params.["taxRateData"]));
    ("delete_tax_rate", fun client params =>
       check params.["rateId"] or_throw "Tax rate ID is required";;
       client_delete client ("/taxes/" ++ to_string params.["rateId"])
         [ ("force", js_or params.["force"] (JBool true)) ]) ].

Definition coupon_cases : list (string * Case) :=
  [ ("get_coupons", fun client params =>
       client_get client "/coupons" (Some (with_filters (paging params) params)));
    ("get_coupon", fun client params =>
       check params.["couponId"] or_throw "Coupon ID is required";;
       client_get client ("/coupons/" ++ to_string params.["couponId"]) None);
    ("create_coupon", fun client params =>
       check params.["couponData"] or_throw "Coupon data is required";;
       client_post client "/coupons" params.["couponData"]);
    ("update_coupon", fun client params =>
       check params.["couponId"] or_throw "Coupon ID is required";;
       check params.["couponData"] or_throw "Coupon data is required";;
       client_put client ("/coupons/" ++ to_string params.["couponId"])
         (Some params.["couponData"]));
    ("delete_coupon", fun client params =>
       check params.["couponId"] or_throw "Coupon ID is required";;
       client_delete client ("/coupons/" ++ to_string params.["couponId"])
         [ ("force", js_or params.["force"] (JBool true)) ]) ].

Definition order_note_cases : list (string * Case) :=
  [ ("get_order_notes", fun client params =>
       check params.["orderId"] or_throw "Order ID is required";;
       client_get client ("/orders/" ++ to_string params.["orderId"] ++ "/notes")
         (Some (with_filters (paging params) params)));
    ("get_order_note", fun client params =>
       check params.["orderId"] or_throw "Order ID is required";;
       check params.["noteId"] or_throw "Note ID is required";;
       client_get client
         ("/orders/" ++ to_string params.["orderId"] ++ "/notes/"
          ++ to_string params.["noteId"]) None);
    ("create_order_note", fun client params =>
       check params.["orderId"] or_throw "Order ID is required";;
       check params.["noteData"] or_throw "Note data is required";;
       client_post client ("/orders/" ++ to_string params.["orderId"] ++ "/notes")
         params.["noteData"]);
    ("delete_order_note", fun client params =>
       check params.["orderId"] or_throw "Order ID is required";;
       check params.["noteId"] or_throw "Note ID is required";;
       client_delete client
         ("/orders/" ++ to_string params.["orderId"] ++ "/notes/"
          ++ to_string params.["noteId"])
         [ ("force", js_or params.["force"] (JBool true)) ]) ].

Definition order_refund_cases : list (string * Case) :=
  [ ("get_order_refunds", fun client params =>
       check params.["orderId"] or_throw "Order ID is required";;
       client_get client ("/orders/" ++ to_string params.["orderId"] ++ "/refunds")
         (Some (with_filters (paging params) params)));
    ("get_order_refund", fun client params =>
       check params.["orderId"] or_throw "Order ID is required";;
       check params.["refundId"] or_throw "Refund ID is required";;
       client_get client
         ("/orders/" ++ to_string params.["orderId"] ++ "/refunds/"
          ++ to_string params.["refundId"]) None);
    ("create_order_refund", fun client params =>
       check params.["orderId"] or_throw "Order ID is required";;
       check params.["refundData"] or_throw "Refund data is required";;
       client_post client ("/orders/" ++ to_string params.["orderId"] ++ "/refunds")
         params.["refundData"]);
    ("delete_order_refund", fun client params =>
       check params.["orderId"] or_throw "Order ID is required";;
       check params.["refundId"] or_throw "Refund ID is required";;
       client_delete client
         ("/orders/" ++ to_string params.["orderId"] ++ "/refunds/"
          ++ to_string params.["refundId"])
         [ ("force", js_or params.["force"] (JBool true)) ]) ].

Definition variation_cases : list (string * Case) :=
  [ ("get_product_variations", fun client params =>
       check params.["productId"] or_throw "Product ID is required";;
       client_get client
         ("/products/" ++ to_string params.["productId"] ++ "/variations")
         (Some (with_filters (paging params) params)));
    ("get_product_variation", fun client params =>
       check params.["productId"] or_throw "Product ID is required";;
       check params.["variationId"] or_throw "Variation ID is required";;
       client_get client
         ("/products/" ++ to_string params.["productId"] ++ "/variations/"
          ++ to_string params.["variationId"]) None);
    ("create_product_variation", fun client params =>
       check params.["productId"] or_throw "Product ID is required";;
       check params.["variationData"] or_throw "Variation data is required";;
       client_post client
         ("/products/" ++ to_string params.["productId"] ++ "/variations")
         params.["variationData"]);
    ("update_product_variation", fun client params =>
       check params.["productId"] or_throw "Product ID is required";;
       check params.["variationId"] or_throw "Variation ID is required";;
       check params.["variationData"] or_throw "Variation data is required";;
       client_put client
         ("/products/" ++ to_string params.["productId"] ++ "/variations/"
          ++ to_string params.["variationId"])
         (Some params.["variationData"]));
    ("delete_product_variation", fun client params =>
       check params.["productId"] or_throw "Product ID is required";;
       check params.["variationId"] or_throw "Variation ID is required";;
       client_delete client
         ("/products/" ++ to_string params.["productId"] ++ "/variations/"
          ++ to_string params.["variationId"])
         [ ("force", js_or params.["force"] (JBool true)) ]) ].

Definition attribute_cases : list (string * Case) :=
  [ ("get_product_attributes", fun client params =>
       client_get client "/products/attributes"
         (Some (with_filters (paging params) params)));
    ("get_product_attribute", fun client params =>
       check params.["attributeId"] or_throw "Attribute ID is required";;
       client_get client
         ("/products/attributes/" ++ to_string params.["attributeId"]) None);
    ("create_product_attribute", fun client params =>
       check params.["attributeData"] or_throw "Attribute data is required";;
       client_post client "/products/attributes" params.["attributeData"]);
    ("update_product_attribute", fun client params =>
       check params.["attributeId"] or_throw "Attribute ID is required";;
       check params.["attributeData"] or_throw "Attribute data is required";;
       client_put client
         ("/products/attributes/" ++ to_string params.["attributeId"])
         (Some params.["attributeData"]));
    ("delete_product_attribute", fun client params =>
       check params.["attributeId"] or_throw "Attribute ID is required";;
       client_delete client
         ("/products/attributes/" ++ to_string params.["attributeId"])
         [ ("force", js_or params.["force"] (JBool true)) ]) ].

Definition attribute_term_cases : list (string * Case) :=
  [ ("get_attribute_terms", fun client params =>
       check params.["attributeId"] or_throw "Attribute ID is required";;
       client_get client
         ("/products/attributes/" ++ to_string params.["attributeId"] ++ "/terms")
         (Some (with_filters (paging params) params)));
    ("get_attribute_term", fun client params =>
       check params.["attributeId"] or_throw "Attribute ID is required";;
       check params.["termId"] or_throw "Term ID is required";;
       client_get client
         ("/products/attributes/" ++ to_string params.["attributeId"] ++ "/terms/"
          ++ to_string params.["termId"]) None);
    ("create_attribute_term", fun client params =>
       check params.["attributeId"] or_throw "Attribute ID is required";;
       check params.["termData"] or_throw "Term data is required";;
       client_post client
         ("/products/attributes/" ++ to_string params.["attributeId"] ++ "/terms")
         params.["termData"]);
    ("update_attribute_term", fun client params =>
       check params.["attributeId"] or_throw "Attribute ID is required";;
       check params.["termId"] or_throw "Term ID is required";;
       check params.["termData"] or_throw "Term data is required";;
       client_put client
         ("/products/attributes/" ++ to_string params.["attributeId"] ++ "/terms/"
          ++ to_string params.["termId"])
         (Some params.["termData"]));
    ("delete_attribute_term", fun client params =>
       check params.["attributeId"] or_throw "Attribute ID is required";;
       check params.["termId"] or_throw "Term ID is required";;
       client_delete client
         ("/products/attributes/" ++ to_string params.["attributeId"] ++ "/terms/"
          ++ to_string params.["termId"])
         [ ("force", js_or params.["force"] (JBool true)) ]) ].

Definition category_cases : list (string * Case) :=
  [ ("get_product_categories", fun client params =>
       client_get client "/products/categories"
         (Some (with_filters (paging params) params)));
    ("get_product_category", fun client params =>
       check params.["categoryId"] or_throw "Category ID is required";;
       client_get client
         ("/products/categories/" ++ to_string params.["categoryId"]) None);
    ("create_product_category", fun client params =>
       check params.["categoryData"] or_throw "Category data is required";;
       client_post client "/products/categories" params.["categoryData"]);
    ("update_product_category", fun client params =>
       check params.["categoryId"] or_throw "Category ID is required";;
       check params.["categoryData"] or_throw "Category data is required";;
       client_put client
         ("/products/categories/" ++ to_string params.["categoryId"])
         (Some params.["categoryData"]));
    ("delete_product_category", fun client params =>
       check params.["categoryId"] or_throw "Category ID is required";;
       client_delete client
         ("/products/categories/" ++ to_string params.["categoryId"])
         [ ("force", js_or params.["force"] (JBool true)) ]) ].

Definition tag_cases : list (string * Case) :=
  [ ("get_product_tags", fun client params =>
       client_get client "/products/tags"
         (Some (with_filters (paging params) params)));
    ("get_product_tag", fun client params =>
       check params.["tagId"] or_throw "Tag ID is required";;
       client_get client ("/products/tags/" ++ to_string params.["tagId"]) None);
    ("create_product_tag", fun client params =>
       check params.["tagData"] or_throw "Tag data is required";;
       client_post client "/products/tags" params.["tagData"]);
    ("update_product_tag", fun client params =>
       check params.["tagId"] or_throw "Tag ID is required";;
       check params.["tagData"] or_throw "Tag data is required";;
       client_put client ("/products/tags/" ++ to_string params.["tagId"])
         (Some params.["tagData"]));
    ("delete_product_tag", fun client params =>
       check params.["tagId"] or_throw "Tag ID is required";;
       client_delete client ("/products/tags/" ++ to_string params.["tagId"])
         [ ("force", js_or params.["force"] (JBool true)) ]) ].

(** [params.productId ? `/products/${params.productId}/reviews/${params.reviewId}`
                      : `/products/reviews/${params.reviewId}`] *)
Definition review_path (params : JsValue) : string :=
  if truthy params.["productId"]
  then "/products/" ++ to_string params.["productId"] ++ "/reviews/"
       ++ to_string params.["reviewId"]
  else "/products/reviews/" ++ to_string params.["reviewId"].

Definition review_cases : list (string * Case) :=
  [ ("get_product_reviews", fun client params =>
       let reviewsParams :=
         if truthy params.["productId"]
         then "/products/" ++ to_string params.["productId"] ++ "/reviews"
         else "/products/reviews" in
       client_get client reviewsParams
         (Some (with_filters (paging params) params)));
    ("get_product_review", fun client params =>
       check params.["reviewId"] or_throw "Review ID is required";;
       client_get client (review_path params) None);
    ("create_product_review", fun client params =>
       check params.["productId"] or_throw "Product ID is required";;
       check params.["reviewData"] or_throw "Review data is required";;
       client_post client
         ("/products/" ++ to_string params.["productId"] ++ "/reviews")
         params.["reviewData"]);
    ("update_product_review", fun client params =>
       check params.["reviewId"] or_throw "Review ID is required";;
       check params.["reviewData"] or_throw "Review data is required";;
       client_put client (review_path params) (Some params.["reviewData"]));
    ("delete_product_review", fun client params =>
       check params.["reviewId"] or_throw "Review ID is required";;
       client_delete client (review_path params)
         [ ("force", js_or params.["force"] (JBool true)) ]) ].

Definition store_cases : list (string * Case) :=
  [ ("get_payment_gateways", fun client params =>
       client_get client "/payment_gateways" None);
    ("get_payment_gateway", fun client params =>
       check params.["gatewayId"] or_throw "Gateway ID is required";;
       client_get client ("/payment_gateways/" ++ to_string params.["gatewayId"]) None);
    ("update_payment_gateway", fun client params =>
       check params.["gatewayId"] or_throw "Gateway ID is required";;
       check params.["gatewayData"] or_throw "Gateway data is required";;
       client_put client ("/payment_gateways/" ++ to_string params.["gatewayId"])
         (Some params.["gatewayData"]));
    ("get_settings", fun client params =>
       client_get client "/settings" None);
    ("get_setting_options", fun client params =>
       check params.["group"] or_throw "Settings group is required";;
       client_get client ("/settings/" ++ to_string params.["group"]) None);
    ("update_setting_option", fun client params =>
       check params.["group"] or_throw "Settings group is required";;
       check params.["id"] or_throw "Setting ID is required";;
       check params.["settingData"] or_throw "Setting data is required";;
       client_put client
         ("/settings/" ++ to_string params.["group"] ++ "/" ++ to_string params.["id"])
         (Some params.["settingData"]));
    ("get_system_status", fun client params =>
       client_get client "/system_status" None);
    ("get_system_status_tools", fun client params =>
       client_get client "/system_status/tools" None);
    ("run_system_status_tool", fun client params =>
       check params.["toolId"] or_throw "Tool ID is required";;
       client_put client ("/system_status/tools/" ++ to_string params.["toolId"]) None);
    ("get_data", fun client params => client_get client "/data" None);
    ("get_continents", fun client params => client_get client "/data/continents" None);
    ("get_countries", fun client params => client_get client "/data/countries" None);
    ("get_currencies", fun client params => client_get client "/data/currencies" None);
    ("get_current_currency", fun client params =>
       client_get client "/data/currencies/current" None) ].

Definition post_meta_cases : list (string * Case) :=
  [ ("get_post_meta", fun client params =>
       check params.["postId"] or_throw "Post ID is required";;
       let metaEndpoint :=
         if truthy params.["metaKey"]
         then "/posts/" ++ to_string params.["postId"] ++ "/meta/"
              ++ to_string params.["metaKey"]
         else "/posts/" ++ to_string params.["postId"] ++ "/meta" in
       client_get client metaEndpoint None);
    ("create_post_meta", fun client params =>
       check params.["postId"] or_throw "Post ID is required";;
       check params.["metaKey"] or_throw "Meta key is required";;
       if strict_equals params.["metaValue"] JUndefined
       then Throw (Error "Meta value is required")
       else client_post client ("/posts/" ++ to_string params.["postId"] ++ "/meta")
              (JObj [ ("key", params.["metaKey"]); ("value", params.["metaValue"]) ]));
    ("update_post_meta", fun client params =>
       check params.["postId"] or_throw "Post ID is required";;
       check params.["metaId"] or_throw "Meta ID is required";;
       if strict_equals params.["metaValue"] JUndefined
       then Throw (Error "Meta value is required")
       else client_put client
              ("/posts/" ++ to_string params.["postId"] ++ "/meta/"
               ++ to_string params.["metaId"])
              (Some (JObj [ ("value", params.["metaValue"]) ])));
    ("delete_post_meta", fun client params =>
       check params.["postId"] or_throw "Post ID is required";;
       check params.["metaId"] or_throw "Meta ID is required";;
       client_delete client
         ("/posts/" ++ to_string params.["postId"] ++ "/meta/"
          ++ to_string params.["metaId"])
         [ ("force", js_or params.["force"] (JBool true)) ]) ].

Definition upsert_product_meta : Case := fun client params =>
  check params.["productId"] or_throw "Product ID is required";;
  check params.["metaKey"] or_throw "Meta key is required";;
  if strict_equals params.["metaValue"] JUndefined
  then Throw (Error "Meta value is required")
  else write_meta client ("/products/" ++ to_string params.["productId"])
         "metaData" params.

Definition remove_product_meta : Case := fun client params =>
  check params.["productId"] or_throw "Product ID is required";;
  check params.["metaKey"] or_throw "Meta key is required";;
  remove_meta client ("/products/" ++ to_string params.["productId"])
    "currentMetaData" params.

Definition product_meta_cases : list (string * Case) :=
  [ ("get_product_meta", fun client params =>
       check params.["productId"] or_throw "Product ID is required";;
       read_meta client ("/products/" ++ to_string params.["productId"])
         "productMetaData" params);
    ("create_product_meta", upsert_product_meta);
    ("update_product_meta", upsert_product_meta);
    ("delete_product_meta", remove_product_meta) ].

Definition upsert_order_meta : Case := fun client params =>
  check params.["orderId"] or_throw "Order ID is required";;
  check params.["metaKey"] or_throw "Meta key is required";;
  if strict_equals params.["metaValue"] JUndefined
  then Throw (Error "Meta value is required")
  else write_meta client ("/orders/" ++ to_string params.["orderId"])
         "orderMeta" params.

Definition remove_order_meta : Case := fun client params =>
  check params.["orderId"] or_throw "Order ID is required";;
  check params.["metaKey"] or_throw "Meta key is required";;
  remove_meta client ("/orders/" ++ to_string params.["orderId"])
    "currentOrderMeta" params.

Definition order_meta_cases : list (string * Case) :=
  [ ("get_order_meta", fun client params =>
       check params.["orderId"] or_throw "Order ID is required";;
       read_meta client ("/orders/" ++ to_string params.["orderId"])
         "orderMetaData" params);
    ("create_order_meta", upsert_order_meta);
    ("update_order_meta", upsert_order_meta);
    ("delete_order_meta", remove_order_meta) ].

Definition upsert_customer_meta : Case := fun client params =>
  check params.["customerId"] or_throw "Customer ID is required";;
  check params.["metaKey"] or_throw "Meta key is required";;
  if strict_equals params.["metaValue"] JUndefined
  then Throw (Error "Meta value is required")
  else write_meta client ("/customers/" ++ to_string params.["customerId"])
         "customerMeta" params.

Definition remove_customer_meta : Case := fun client params =>
  check params.["customerId"] or_throw "Customer ID is required";;
  check params.["metaKey"] or_throw "Meta key is required";;
  remove_meta client ("/customers/" ++ to_string params.["customerId"])
    "currentCustomerMeta" params.

Definition customer_meta_cases : list (string * Case) :=
  [ ("get_customer_meta", fun client params =>
       check params.["customerId"] or_throw "Customer ID is required";;
       read_meta client ("/customers/" ++ to_string params.["customerId"])
         "customerMetaData" params);
    ("create_customer_meta", upsert_customer_meta);
    ("update_customer_meta", upsert_customer_meta);
    ("delete_customer_meta", remove_customer_meta) ].

Definition cases : list (string * Case) :=
  (post_cases ++ product_cases ++ order_cases ++ customer_cases
   ++ report_cases ++ shipping_cases ++ tax_cases ++ coupon_cases
   ++ order_note_cases ++ order_refund_cases ++ variation_cases
   ++ attribute_cases ++ attribute_term_cases ++ category_cases ++ tag_cases
   ++ review_cases ++ store_cases ++ post_meta_cases ++ product_meta_cases
   ++ order_meta_cases ++ customer_meta_cases)%list.

(** The body of the first [case] whose label is strictly equal to [method]. *)
Fixpoint select (method : JsValue) (rows : list (string * Case)) : option Case :=
  match rows with
  | [] => None
  | (label, body) :: rest =>
      if strict_equals (JStr label) method then Some body else select method rest
  end.

(** *** Credential resolution and client construction *)

Record Credentials : Type := mkCredentials {
  siteUrl : JsValue;
  username : JsValue;
  password : JsValue;
  consumerKey : JsValue;
  consumerSecret : JsValue
}.

(** [params.<field> || DEFAULT_<FIELD>], for a [params] that is not nullish. *)
Definition resolve (env : Env) (params : JsValue) : Credentials :=
  {| siteUrl := js_or params.["siteUrl"] (JStr (DEFAULT_SITE_URL env));
     username := js_or params.["username"] (JStr (DEFAULT_USERNAME env));
     password := js_or params.["password"] (JStr (DEFAULT_PASSWORD env));
     consumerKey := js_or params.["consumerKey"] (JStr (DEFAULT_CONSUMER_KEY env));
     consumerSecret :=
       js_or params.["consumerSecret"] (JStr (DEFAULT_CONSUMER_SECRET env)) |}.

(** The five fields: the name of the request parameter, the resolved value
    and the default each falls back to. *)
Definition credential_fields
  : list (string * (Credentials -> JsValue) * (Env -> string)) :=
  [ ("siteUrl", siteUrl, DEFAULT_SITE_URL);
    ("username", username, DEFAULT_USERNAME);
    ("password", password, DEFAULT_PASSWORD);
    ("consumerKey", consumerKey, DEFAULT_CONSUMER_KEY);
    ("consumerSecret", consumerSecret, DEFAULT_CONSUMER_SECRET) ].

Definition wordpress_client (cr : Credentials) : AxiosInstance :=
  {| baseURL := to_string (siteUrl cr) ++ "/wp-json/wp/v2";
     default_params := [];
     headers :=
       [ ("Authorization",
          "Basic " ++ base64 (to_string (username cr) ++ ":" ++ to_string (password cr)));
         ("Content-Type", "application/json") ];
     auth := None |}.

Definition woocommerce_client (cr : Credentials) : AxiosInstance :=
  {| baseURL := to_string (siteUrl cr) ++ "/wp-json/wc/v3";
     default_params :=
       [ ("consumer_key", consumerKey cr); ("consumer_secret", consumerSecret cr) ];
     headers := [ ("Content-Type", "application/json") ];
     auth := None |}.

(** The messages of the three credential errors. *)
Definition site_url_missing : string :=
  "WordPress site URL not provided in environment variables or request parameters".

Definition content_credentials_missing : string :=
  "WordPress credentials not provided in environment variables or request parameters".

Definition store_credentials_missing : string :=
  "WooCommerce API credentials not provided in environment variables or request parameters".

(** The [if (wpMethods.includes(method)) ... else if (wooMethods.includes(method))
    ... else ...] that assigns [client]. *)
Definition create_client (cr : Credentials) (method : JsValue) : Result AxiosInstance :=
  if includes wpMethods method then
    if negb (truthy (username cr)) || negb (truthy (password cr))
    then inl (Error content_credentials_missing)
    else inr (wordpress_client cr)
  else if includes wooMethods method then
    if negb (truthy (consumerKey cr)) || negb (truthy (consumerSecret cr))
    then inl (Error store_credentials_missing)
    else inr (woocommerce_client cr)
  else inl (Error ("Unknown method: " ++ to_string method)).

(** *** Error normalisation *)

Definition isAxiosError (error : JsError) : bool :=
  negb (strict_equals (response error) JUndefined).

(** [new Error(`API error: ${error.response?.data?.message || error.message}`)] *)
Definition api_error (error : JsError) : JsError :=
  Error ("API error: "
         ++ to_string (js_or (opt_member (opt_member (response error) "data") "message")
                         (JStr (message error)))).

Definition normalise (error : JsError) : JsError :=
  if isAxiosError error then api_error error else error.

(** *** [handleWooCommerceRequest] *)

Definition handleWooCommerceRequest (env : Env) (method params : JsValue)
  : Prog JsValue :=
  try_catch
    (_ <- lift (member params "siteUrl");;
     let cr := resolve env params in
     check (siteUrl cr) or_throw site_url_missing;;
     client <- lift (create_client cr method);;
     match select method cases with
     | Some body => body client params
     | None => Throw (Error ("Unknown method: " ++ to_string method))
     end)
    (fun error => Throw (normalise error)).

(** *** The [/message] endpoint *)

Inductive Reply : Type :=
| Success (result : JsValue)
| Failure (code : Z) (msg : string) (detail : option string).

Record JsonRpcResponse : Type := mkReply {
  reply_id : JsValue;
  reply : Reply
}.

(** [request = req.body; if (request.jsonrpc !== "2.0") throw ...] *)
Definition check_version (request : JsValue) : Result unit :=
  match member request "jsonrpc" with
  | inl e => inl e
  | inr v =>
      if strict_equals v (JStr "2.0") then inr tt
      else inl (Error "Invalid JSON-RPC version")
  end.

Definition parse_error (error : JsError) : JsonRpcResponse :=
  {| reply_id := JNull;
     reply := Failure (-32700) "Parse error" (Some (message error)) |}.

Section Message.

(** What [handleMcpInitialization] and [handleListTools] return: two constants
    built from the [MCP_CAPABILITIES] table. *)
Variable initialization : JsValue.
Variable tools : JsValue.
Variable env : Env.

Definition post_message (req_body : JsValue) : Prog JsonRpcResponse :=
  let request := req_body in
  match check_version request with
  | inl error => Ret (parse_error error)
  | inr _ =>
      try_catch
        (result <-
           (if strict_equals request.["method"] (JStr "initialize")
            then Ret initialization
            else if strict_equals request.["method"] (JStr "tools/list")
            then Ret tools
            else handleWooCommerceRequest env request.["method"] request.["params"]);;
         Ret {| reply_id := request.["id"]; reply := Success result |})
        (fun error =>
           Ret {| reply_id := request.["id"];
                  reply := Failure (-32000) (message error) None |})
  end.

End Message.

End Index.

(** ** [src/sse-server.ts] *)

Module SseServer.

Import Index.
Open Scope prog_scope.

(** The client for the store API and the client for the content API: both
    are built for every request, with HTTP Basic authentication. *)
Definition store_client (cr : Credentials) : AxiosInstance :=
  {| baseURL := to_string (siteUrl cr) ++ "/wp-json/wc/v3";
     default_params := [];
     headers := [ ("Content-Type", "application/json") ];
     auth := Some (consumerKey cr, consumerSecret cr) |}.

Definition wpClient (cr : Credentials) : AxiosInstance :=
  {| baseURL := to_string (siteUrl cr) ++ "/wp-json/wp/v2";
     default_params := [];
     headers := [ ("Content-Type", "application/json") ];
     auth := if truthy (js_and (username cr) (password cr))
             then Some (username cr, password cr)
             else None |}.

(** [if (params.perPage) q.append("per_page", params.perPage);
     if (params.page) q.append("page", params.page);] *)
Definition page_params (params : JsValue) : list (string * string) :=
  ((if truthy params.["perPage"]
    then [ ("per_page", to_string params.["perPage"]) ] else [])
   ++ (if truthy params.["page"]
       then [ ("page", to_string params.["page"]) ] else []))%list.

(** [if (params.filters) Object.entries(params.filters).forEach(([key, value]) =>
       { if (value !== undefined && value !== null) q.append(key, String(value)); })] *)
Definition filter_params (params : JsValue) : list (string * string) :=
  if truthy params.["filters"]
  then flat_map (fun kv => if nullish (snd kv) then []
                           else [ (fst kv, to_string (snd kv)) ])
         (own_entries params.["filters"])
  else [].

(** [const r = await client.post(url, data); broadcastSSE(channel, {type, data:
    r.data, timestamp}); return r.data;] and the same with [put]. *)
Definition send_and_broadcast (c : AxiosInstance) (v : Verb) (url : string)
  (d : JsValue) (channel kind : string) : Prog JsValue :=
  r <- await c (mkRequest v url None (Some d));;
  Broadcast channel kind (data r) (Ret (data r)).

Definition cases : list (string * Case) :=
  [ ("get_products", fun client params =>
       client_get client
         ("/products?" ++ search_params_to_string
                            (page_params params ++ filter_params params)%list) None);
    ("get_product", fun client params =>
       check params.["productId"] or_throw "Product ID is required";;
       client_get client ("/products/" ++ to_string params.["productId"]) None);
    ("create_product", fun client params =>
       check params.["productData"] or_throw "Product data is required";;
       send_and_broadcast client POST "/products" params.["productData"]
         "products" "product_created");
    ("update_product", fun client params =>
       check params.["productId"] or_throw "Product ID is required";;
       check params.["productData"] or_throw "Product data is required";;
       send_and_broadcast client PUT
         ("/products/" ++ to_string params.["productId"]) params.["productData"]
         "products" "product_updated");
    ("get_orders", fun client params =>
       client_get client
         ("/orders?" ++ search_params_to_string
                          (page_params params ++ filter_params params)%list) None);
    ("get_order", fun client params =>
       check params.["orderId"] or_throw "Order ID is required";;
       client_get client ("/orders/" ++ to_string params.["orderId"]) None);
    ("create_order", fun client params =>
       check params.["orderData"] or_throw "Order data is required";;
       send_and_broadcast client POST "/orders" params.["orderData"]
         "orders" "order_created");
    ("update_order", fun client params =>
       check params.["orderId"] or_throw "Order ID is required";;
       check params.["orderData"] or_throw "Order data is required";;
       send_and_broadcast client PUT
         ("/orders/" ++ to_string params.["orderId"]) params.["orderData"]
         "orders" "order_updated");
    ("get_customers", fun client params =>
       client_get client
         ("/customers?" ++ search_params_to_string (page_params params)) None);
    ("get_system_status", fun client params =>
       client_get client "/system_status" None) ].

Definition handleWooCommerceRequest (env : Env) (method params : JsValue)
  : Prog JsValue :=
  try_catch
    (_ <- lift (member params "siteUrl");;
     let cr := resolve env params in
     check (siteUrl cr) or_throw site_url_missing;;
     let client := store_client cr in
     match select method cases with
     | Some body => body client params
     | None => Throw (Error ("Unknown method: " ++ to_string method))
     end)
    (fun error => Throw (normalise error)).

Section Stdio.

(** [JSON.parse]: the document, or the [SyntaxError] it throws. *)
Variable JSON_parse : string -> Result JsValue.
Variable env : Env.

(** [request = JSON.parse(line); if (request.jsonrpc !== "2.0") throw ...] *)
Definition read_request (line : string) : Result JsValue :=
  match JSON_parse line with
  | inl e => inl e
  | inr request =>
      match check_version request with
      | inl e => inl e
      | inr _ => inr request
      end
  end.

(** The [rl.on("line", ...)] handler of [startMcpServer]: the response it
    prints. *)
Definition on_line (line : string) : Prog JsonRpcResponse :=
  match read_request line with
  | inl error => Ret (parse_error error)
  | inr request =>
      try_catch
        (result <- handleWooCommerceRequest env request.["method"] request.["params"];;
         Ret {| reply_id := request.["id"]; reply := Success result |})
        (fun error =>
           Ret {| reply_id := request.["id"];
                  reply := Failure (-32000) (message error) None |})
  end.

End Stdio.

End SseServer.

(** ** A small upstream store, to run the dispatcher against

    It holds one entity.  A [GET] answers with the entity, a [PUT] merges the
    fields of the body into the entity and answers with the result; anything
    else is refused with a 404 whose body carries a [message]. *)

Module Sample.

Definition not_found : JsError :=
  {| message := "Request failed with status code 404";
     response :=
       JObj [ ("status", JNum 404);
              ("data", JObj [ ("code", JStr "woocommerce_rest_invalid_id");
                              ("message", JStr "Invalid ID.") ]) ] |}.


(** An upstream that refuses every call. *)
Definition refusing : Upstream :=
  {| store := unit;
     serve := fun _ _ s => (s, Rejected not_found) |}.

Definition env : Index.Env :=
  {| Index.DEFAULT_SITE_URL := "https://b.com";
     Index.DEFAULT_USERNAME := "admin";
     Index.DEFAULT_PASSWORD := "hunter2";
     Index.DEFAULT_CONSUMER_KEY := "ck_1";
     Index.DEFAULT_CONSUMER_SECRET := "cs_1" |}.

(** No default at all. *)
Definition bare : Index.Env :=
  {| Index.DEFAULT_SITE_URL := "";
     Index.DEFAULT_USERNAME := "";
     Index.DEFAULT_PASSWORD := "";
     Index.DEFAULT_CONSUMER_KEY := "";
     Index.DEFAULT_CONSUMER_SECRET := "" |}.

(** The site URL only. *)
Definition site_only : Index.Env :=
  {| Index.DEFAULT_SITE_URL := "https://b.com";
     Index.DEFAULT_USERNAME := "";
     Index.DEFAULT_PASSWORD := "";
     Index.DEFAULT_CONSUMER_KEY := "";
     Index.DEFAULT_CONSUMER_SECRET := "" |}.




(** Every id a [delete_*] case asks for, and [force: false]. *)
Definition all_ids : JsValue :=
  JObj [ ("productId", JNum 1); ("orderId", JNum 2); ("customerId", JNum 3);
         ("zoneId", JNum 4); ("instanceId", JNum 5); ("slug", JStr "reduced");
         ("rateId", JNum 6); ("couponId", JNum 7); ("noteId", JNum 8);
         ("refundId", JNum 9); ("variationId", JNum 10);
         ("attributeId", JNum 11); ("termId", JNum 12);
         ("categoryId", JNum 13); ("tagId", JNum 14); ("reviewId", JNum 15);
         ("postId", JNum 16); ("metaId", JNum 17); ("force", JBool false) ].


End Sample.

(** ** Families of operations the properties speak about *)

Module Families.


(** The deletions of shipping zones, shipping zone methods, tax classes, tax
    rates, coupons, order notes, order refunds, product variations, attributes,
    attribute terms, categories, tags, reviews and post meta. *)
Definition forced_deletes : list string :=
  [ "delete_shipping_zone"; "delete_shipping_zone_method"; "delete_tax_class";
    "delete_tax_rate"; "delete_coupon"; "delete_order_note";
    "delete_order_refund"; "delete_product_variation";
    "delete_product_attribute"; "delete_attribute_term";
    "delete_product_category"; "delete_product_tag"; "delete_product_review";
    "delete_post_meta" ].

Definition soft_deletes : list string :=
  [ "delete_product"; "delete_order"; "delete_customer" ].


(** What a request of the [case] labelled [label] does with [force]: a
    [DELETE] carries [params.force || true] in a forced deletion and
    [params.force || false] in a soft one, and the deletions send nothing but
    a [DELETE]. *)
Definition force_rule (label : string) (params : JsValue) (r : AxiosRequest) : Prop :=
  (verb r = DELETE ->
   (Index.includes forced_deletes (JStr label) = true
    /\ query r = Some [ ("force", js_or (prop params "force") (JBool true)) ])
   \/ (Index.includes soft_deletes (JStr label) = true
       /\ query r = Some [ ("force", js_or (prop params "force") (JBool false)) ]))
  /\ (Index.includes (forced_deletes ++ soft_deletes) (JStr label) = true ->
      verb r = DELETE).

End Families.

(** ** The capabilities table and the two protocol methods of [src/index.ts] *)

Module Capabilities.

(** [MCP_CAPABILITIES.tools]: one entry per tool, in the order of the
    source, with its description and, for fifteen of them, its input
    schema. *)
Definition tools : JsValue :=
  JObj
    [ ("create_post", JObj [ ("description", JStr "Create a new WordPress post") ]);
      ("get_posts", JObj [ ("description", JStr "Retrieve WordPress posts") ]);
      ("update_post", JObj [ ("description", JStr "Update an existing WordPress post") ]);
      ("get_post_meta", JObj [ ("description", JStr "Get post metadata") ]);
      ("update_post_meta", JObj [ ("description", JStr "Update post metadata") ]);
      ("create_post_meta", JObj [ ("description", JStr "Create post metadata") ]);
      ("delete_post_meta", JObj [ ("description", JStr "Delete post metadata") ]);
      ("get_products", JObj
        [ ("description", JStr "Retrieve a list of products");
          ("inputSchema", JObj
            [ ("type", JStr "object");
              ("properties", JObj
                [ ("perPage", JObj
                    [ ("type", JStr "number");
                      ("description", JStr "Number of products to retrieve (max 100)") ]);
                  ("page", JObj [ ("type", JStr "number"); ("description", JStr "Page number") ]);
                  ("search", JObj [ ("type", JStr "string"); ("description", JStr "Search term") ]);
                  ("category", JObj
                    [ ("type", JStr "string");
                      ("description", JStr "Product category ID") ]);
                  ("tag", JObj
                    [ ("type", JStr "string");
                      ("description", JStr "Product tag ID") ]);
                  ("status", JObj
                    [ ("type", JStr "string");
                      ("enum", JArr
                        [ JStr "draft";
                          JStr "pending";
                          JStr "private";
                          JStr "publish" ]) ]);
                  ("type", JObj
                    [ ("type", JStr "string");
                      ("enum", JArr
                        [ JStr "simple";
                          JStr "grouped";
                          JStr "external";
                          JStr "variable" ]) ]);
                  ("sku", JObj [ ("type", JStr "string"); ("description", JStr "Product SKU") ]);
                  ("featured", JObj
                    [ ("type", JStr "boolean");
                      ("description", JStr "Limit to featured products") ]);
                  ("siteUrl", JObj
                    [ ("type", JStr "string");
                      ("description", JStr "WordPress site URL") ]);
                  ("consumerKey", JObj
                    [ ("type", JStr "string");
                      ("description", JStr "WooCommerce consumer key") ]);
                  ("consumerSecret", JObj
                    [ ("type", JStr "string");
                      ("description", JStr "WooCommerce consumer secret") ]) ]) ]) ]);
      ("get_product", JObj
        [ ("description", JStr "Get a single product by ID");
          ("inputSchema", JObj
            [ ("type", JStr "object");
              ("properties", JObj
                [ ("productId", JObj
                    [ ("type", JStr "number");
                      ("description", JStr "Product ID");
                      ("required", JBool true) ]);
                  ("siteUrl", JObj
                    [ ("type", JStr "string");
                      ("description", JStr "WordPress site URL") ]);
                  ("consumerKey", JObj
                    [ ("type", JStr "string");
                      ("description", JStr "WooCommerce consumer key") ]);
                  ("consumerSecret", JObj
                    [ ("type", JStr "string");
                      ("description", JStr "WooCommerce consumer secret") ]) ]);
              ("required", JArr [ JStr "productId" ]) ]) ]);
      ("create_product", JObj
        [ ("description", JStr "Create a new product");
          ("inputSchema", JObj
            [ ("type", JStr "object");
              ("properties", JObj
                [ ("productData", JObj
                    [ ("type", JStr "object");
                      ("description", JStr "Product data object");
                      ("properties", JObj
                        [ ("name", JObj
                            [ ("type", JStr "string");
                              ("description", JStr "Product name") ]);
                          ("type", JObj
                            [ ("type", JStr "string");
                              ("enum", JArr
                                [ JStr "simple";
                                  JStr "grouped";
                                  JStr "external";
                                  JStr "variable" ]);
                              ("description", JStr "Product type") ]);
                          ("regular_price", JObj
                            [ ("type", JStr "string");
                              ("description", JStr "Product regular price") ]);
                          ("sale_price", JObj
                            [ ("type", JStr "string");
                              ("description", JStr "Product sale price") ]);
                          ("description", JObj
                            [ ("type", JStr "string");
                              ("description", JStr "Product description") ]);
                          ("short_description", JObj
                            [ ("type", JStr "string");
                              ("description", JStr "Product short description") ]);
                          ("sku", JObj
                            [ ("type", JStr "string");
                              ("description", JStr "Product SKU") ]);
                          ("manage_stock", JObj
                            [ ("type", JStr "boolean");
                              ("description", JStr "Enable stock management") ]);
                          ("stock_quantity", JObj
                            [ ("type", JStr "number");
                              ("description", JStr "Stock quantity") ]);
                          ("stock_status", JObj
                            [ ("type", JStr "string");
                              ("enum", JArr
                                [ JStr "instock";
                                  JStr "outofstock";
                                  JStr "onbackorder" ]);
                              ("description", JStr "Stock status") ]);
                          ("weight", JObj
                            [ ("type", JStr "string");
                              ("description", JStr "Product weight") ]);
                          ("dimensions", JObj
                            [ ("type", JStr "object");
                              ("properties", JObj
                                [ ("length", JObj
                                    [ ("type", JStr "string");
                                      ("description", JStr "Product length") ]);
                                  ("width", JObj
                                    [ ("type", JStr "string");
                                      ("description", JStr "Product width") ]);
                                  ("height", JObj
                                    [ ("type", JStr "string");
                                      ("description", JStr "Product height") ]) ]) ]);
                          ("categories", JObj
                            [ ("type", JStr "array");
                              ("items", JObj
                                [ ("type", JStr "object");
                                  ("properties", JObj
                                    [ ("id", JObj
                                        [ ("type", JStr "number");
                                          ("description", JStr "Category ID") ]) ]) ]);
                              ("description", JStr "Product categories") ]);
                          ("tags", JObj
                            [ ("type", JStr "array");
                              ("items", JObj
                                [ ("type", JStr "object");
                                  ("properties", JObj
                                    [ ("id", JObj
                                        [ ("type", JStr "number");
                                          ("description", JStr "Tag ID") ]) ]) ]);
                              ("description", JStr "Product tags") ]);
                          ("images", JObj
                            [ ("type", JStr "array");
                              ("items", JObj
                                [ ("type", JStr "object");
                                  ("properties", JObj
                                    [ ("src", JObj
                                        [ ("type", JStr "string");
                                          ("description", JStr "Image URL") ]);
                                      ("alt", JObj
                                        [ ("type", JStr "string");
                                          ("description", JStr "Image alt text") ]) ]) ]);
                              ("description", JStr "Product images") ]);
                          ("attributes", JObj
                            [ ("type", JStr "array");
                              ("items", JObj
                                [ ("type", JStr "object");
                                  ("properties", JObj
                                    [ ("id", JObj
                                        [ ("type", JStr "number");
                                          ("description", JStr "Attribute ID") ]);
                                      ("name", JObj
                                        [ ("type", JStr "string");
                                          ("description", JStr "Attribute name") ]);
                                      ("options", JObj
                                        [ ("type", JStr "array");
                                          ("items", JObj [ ("type", JStr "string") ]);
                                          ("description", JStr "Attribute options") ]) ]) ]);
                              ("description", JStr "Product attributes") ]) ]);
                      ("required", JArr [ JStr "name"; JStr "type" ]) ]);
                  ("siteUrl", JObj
                    [ ("type", JStr "string");
                      ("description", JStr "WordPress site URL") ]);
                  ("consumerKey", JObj
                    [ ("type", JStr "string");
                      ("description", JStr "WooCommerce consumer key") ]);
                  ("consumerSecret", JObj
                    [ ("type", JStr "string");
                      ("description", JStr "WooCommerce consumer secret") ]) ]);
              ("required", JArr [ JStr "productData" ]) ]) ]);
      ("update_product", JObj
        [ ("description", JStr "Update an existing product");
          ("inputSchema", JObj
            [ ("type", JStr "object");
              ("properties", JObj
                [ ("productId", JObj
                    [ ("type", JStr "number");
                      ("description", JStr "Product ID to update");
                      ("required", JBool true) ]);
                  ("productData", JObj
                    [ ("type", JStr "object");
                      ("description", JStr "Product data to update");
                      ("properties", JObj
                        [ ("name", JObj
                            [ ("type", JStr "string");
                              ("description", JStr "Product name") ]);
                          ("type", JObj
                            [ ("type", JStr "string");
                              ("enum", JArr
                                [ JStr "simple";
                                  JStr "grouped";
                                  JStr "external";
                                  JStr "variable" ]);
                              ("description", JStr "Product type") ]);
                          ("regular_price", JObj
                            [ ("type", JStr "string");
                              ("description", JStr "Product regular price") ]);
                          ("sale_price", JObj
                            [ ("type", JStr "string");
                              ("description", JStr "Product sale price") ]);
                          ("description", JObj
                            [ ("type", JStr "string");
                              ("description", JStr "Product description") ]);
                          ("short_description", JObj
                            [ ("type", JStr "string");
                              ("description", JStr "Product short description") ]);
                          ("sku", JObj
                            [ ("type", JStr "string");
                              ("description", JStr "Product SKU") ]);
                          ("stock_status", JObj
                            [ ("type", JStr "string");
                              ("enum", JArr
                                [ JStr "instock";
                                  JStr "outofstock";
                                  JStr "onbackorder" ]);
                              ("description", JStr "Stock status") ]) ]) ]);
                  ("siteUrl", JObj
                    [ ("type", JStr "string");
                      ("description", JStr "WordPress site URL") ]);
                  ("consumerKey", JObj
                    [ ("type", JStr "string");
                      ("description", JStr "WooCommerce consumer key") ]);
                  ("consumerSecret", JObj
                    [ ("type", JStr "string");
                      ("description", JStr "WooCommerce consumer secret") ]) ]);
              ("required", JArr [ JStr "productId"; JStr "productData" ]) ]) ]);
      ("delete_product", JObj
        [ ("description", JStr "Delete a product");
          ("inputSchema", JObj
            [ ("type", JStr "object");
              ("properties", JObj
                [ ("productId", JObj
                    [ ("type", JStr "number");
                      ("description", JStr "Product ID to delete");
                      ("required", JBool true) ]);
                  ("force", JObj
                    [ ("type", JStr "boolean");
                      ("description", JStr "Whether to bypass trash and force deletion") ]);
                  ("siteUrl", JObj
                    [ ("type", JStr "string");
                      ("description", JStr "WordPress site URL") ]);
                  ("consumerKey", JObj
                    [ ("type", JStr "string");
                      ("description", JStr "WooCommerce consumer key") ]);
                  ("consumerSecret", JObj
                    [ ("type", JStr "string");
                      ("description", JStr "WooCommerce consumer secret") ]) ]);
              ("required", JArr [ JStr "productId" ]) ]) ]);
      ("get_product_meta", JObj [ ("description", JStr "Get product metadata") ]);
      ("create_product_meta", JObj [ ("description", JStr "Create/update product metadata") ]);
      ("update_product_meta", JObj [ ("description", JStr "Update product metadata") ]);
      ("delete_product_meta", JObj [ ("description", JStr "Delete product metadata") ]);
      ("get_product_categories", JObj [ ("description", JStr "Retrieve product categories") ]);
      ("get_product_category", JObj [ ("description", JStr "Get a single product category") ]);
      ("create_product_category", JObj [ ("description", JStr "Create a new product category") ]);
      ("update_product_category", JObj [ ("description", JStr "Update a product category") ]);
      ("delete_product_category", JObj [ ("description", JStr "Delete a product category") ]);
      ("get_product_tags", JObj [ ("description", JStr "Retrieve product tags") ]);
      ("get_product_tag", JObj [ ("description", JStr "Get a single product tag") ]);
      ("create_product_tag", JObj [ ("description", JStr "Create a new product tag") ]);
      ("update_product_tag", JObj [ ("description", JStr "Update a product tag") ]);
      ("delete_product_tag", JObj [ ("description", JStr "Delete a product tag") ]);
      ("get_product_attributes", JObj [ ("description", JStr "Retrieve product attributes") ]);
      ("get_product_attribute", JObj [ ("description", JStr "Get a single product attribute") ]);
      ("create_product_attribute", JObj [ ("description", JStr "Create a new product attribute") ]);
      ("update_product_attribute", JObj [ ("description", JStr "Update a product attribute") ]);
      ("delete_product_attribute", JObj [ ("description", JStr "Delete a product attribute") ]);
      ("get_attribute_terms", JObj [ ("description", JStr "Retrieve attribute terms") ]);
      ("get_attribute_term", JObj [ ("description", JStr "Get a single attribute term") ]);
      ("create_attribute_term", JObj [ ("description", JStr "Create a new attribute term") ]);
      ("update_attribute_term", JObj [ ("description", JStr "Update an attribute term") ]);
      ("delete_attribute_term", JObj [ ("description", JStr "Delete an attribute term") ]);
      ("get_product_variations", JObj [ ("description", JStr "Retrieve product variations") ]);
      ("get_product_variation", JObj [ ("description", JStr "Get a single product variation") ]);
      ("create_product_variation", JObj [ ("description", JStr "Create a new product variation") ]);
      ("update_product_variation", JObj [ ("description", JStr "Update a product variation") ]);
      ("delete_product_variation", JObj [ ("description", JStr "Delete a product variation") ]);
      ("get_product_reviews", JObj [ ("description", JStr "Retrieve product reviews") ]);
      ("get_product_review", JObj [ ("description", JStr "Get a single product review") ]);
      ("create_product_review", JObj [ ("description", JStr "Create a new product review") ]);
      ("update_product_review", JObj [ ("description", JStr "Update a product review") ]);
      ("delete_product_review", JObj [ ("description", JStr "Delete a product review") ]);
      ("get_orders", JObj
        [ ("description", JStr "Retrieve a list of orders");
          ("inputSchema", JObj
            [ ("type", JStr "object");
              ("properties", JObj
                [ ("perPage", JObj
                    [ ("type", JStr "number");
                      ("description", JStr "Number of orders to retrieve (max 100)") ]);
                  ("page", JObj [ ("type", JStr "number"); ("description", JStr "Page number") ]);
                  ("search", JObj [ ("type", JStr "string"); ("description", JStr "Search term") ]);
                  ("status", JObj
                    [ ("type", JStr "string");
                      ("enum", JArr
                        [ JStr "pending";
                          JStr "processing";
                          JStr "on-hold";
                          JStr "completed";
                          JStr "cancelled";
                          JStr "refunded";
                          JStr "failed";
                          JStr "trash" ]) ]);
                  ("customer", JObj [ ("type", JStr "number"); ("description", JStr "Customer ID") ]);
                  ("product", JObj [ ("type", JStr "number"); ("description", JStr "Product ID") ]);
                  ("after", JObj
                    [ ("type", JStr "string");
                      ("description", JStr "Limit to orders created after date (ISO8601)") ]);
                  ("before", JObj
                    [ ("type", JStr "string");
                      ("description", JStr "Limit to orders created before date (ISO8601)") ]);
                  ("siteUrl", JObj
                    [ ("type", JStr "string");
                      ("description", JStr "WordPress site URL") ]);
                  ("consumerKey", JObj
                    [ ("type", JStr "string");
                      ("description", JStr "WooCommerce consumer key") ]);
                  ("consumerSecret", JObj
                    [ ("type", JStr "string");
                      ("description", JStr "WooCommerce consumer secret") ]) ]) ]) ]);
      ("get_order", JObj
        [ ("description", JStr "Get a single order by ID");
          ("inputSchema", JObj
            [ ("type", JStr "object");
              ("properties", JObj
                [ ("orderId", JObj
                    [ ("type", JStr "number");
                      ("description", JStr "Order ID");
                      ("required", JBool true) ]);
                  ("siteUrl", JObj
                    [ ("type", JStr "string");
                      ("description", JStr "WordPress site URL") ]);
                  ("consumerKey", JObj
                    [ ("type", JStr "string");
                      ("description", JStr "WooCommerce consumer key") ]);
                  ("consumerSecret", JObj
                    [ ("type", JStr "string");
                      ("description", JStr "WooCommerce consumer secret") ]) ]);
              ("required", JArr [ JStr "orderId" ]) ]) ]);
      ("create_order", JObj
        [ ("description", JStr "Create a new order");
          ("inputSchema", JObj
            [ ("type", JStr "object");
              ("properties", JObj
                [ ("orderData", JObj
                    [ ("type", JStr "object");
                      ("description", JStr "Order data object");
                      ("properties", JObj
                        [ ("status", JObj
                            [ ("type", JStr "string");
                              ("enum", JArr
                                [ JStr "pending";
                                  JStr "processing";
                                  JStr "on-hold";
                                  JStr "completed";
                                  JStr "cancelled";
                                  JStr "refunded";
                                  JStr "failed" ]);
                              ("description", JStr "Order status") ]);
                          ("customer_id", JObj
                            [ ("type", JStr "number");
                              ("description", JStr "Customer ID") ]);
                          ("billing", JObj
                            [ ("type", JStr "object");
                              ("properties", JObj
                                [ ("first_name", JObj
                                    [ ("type", JStr "string");
                                      ("description", JStr "First name") ]);
                                  ("last_name", JObj
                                    [ ("type", JStr "string");
                                      ("description", JStr "Last name") ]);
                                  ("company", JObj
                                    [ ("type", JStr "string");
                                      ("description", JStr "Company name") ]);
                                  ("address_1", JObj
                                    [ ("type", JStr "string");
                                      ("description", JStr "Address line 1") ]);
                                  ("address_2", JObj
                                    [ ("type", JStr "string");
                                      ("description", JStr "Address line 2") ]);
                                  ("city", JObj
                                    [ ("type", JStr "string");
                                      ("description", JStr "City") ]);
                                  ("state", JObj
                                    [ ("type", JStr "string");
                                      ("description", JStr "State") ]);
                                  ("postcode", JObj
                                    [ ("type", JStr "string");
                                      ("description", JStr "Postal code") ]);
                                  ("country", JObj
                                    [ ("type", JStr "string");
                                      ("description", JStr "Country code") ]);
                                  ("email", JObj
                                    [ ("type", JStr "string");
                                      ("description", JStr "Email address") ]);
                                  ("phone", JObj
                                    [ ("type", JStr "string");
                                      ("description", JStr "Phone number") ]) ]) ]);
                          ("shipping", JObj
                            [ ("type", JStr "object");
                              ("properties", JObj
                                [ ("first_name", JObj
                                    [ ("type", JStr "string");
                                      ("description", JStr "First name") ]);
                                  ("last_name", JObj
                                    [ ("type", JStr "string");
                                      ("description", JStr "Last name") ]);
                                  ("company", JObj
                                    [ ("type", JStr "string");
                                      ("description", JStr "Company name") ]);
                                  ("address_1", JObj
                                    [ ("type", JStr "string");
                                      ("description", JStr "Address line 1") ]);
                                  ("address_2", JObj
                                    [ ("type", JStr "string");
                                      ("description", JStr "Address line 2") ]);
                                  ("city", JObj
                                    [ ("type", JStr "string");
                                      ("description", JStr "City") ]);
                                  ("state", JObj
                                    [ ("type", JStr "string");
                                      ("description", JStr "State") ]);
                                  ("postcode", JObj
                                    [ ("type", JStr "string");
                                      ("description", JStr "Postal code") ]);
                                  ("country", JObj
                                    [ ("type", JStr "string");
                                      ("description", JStr "Country code") ]) ]) ]);
                          ("line_items", JObj
                            [ ("type", JStr "array");
                              ("items", JObj
                                [ ("type", JStr "object");
                                  ("properties", JObj
                                    [ ("product_id", JObj
                                        [ ("type", JStr "number");
                                          ("description", JStr "Product ID") ]);
                                      ("variation_id", JObj
                                        [ ("type", JStr "number");
                                          ("description", JStr "Variation ID") ]);
                                      ("quantity", JObj
                                        [ ("type", JStr "number");
                                          ("description", JStr "Quantity") ]) ]);
                                  ("required", JArr [ JStr "product_id"; JStr "quantity" ]) ]);
                              ("description", JStr "Order line items") ]);
                          ("shipping_lines", JObj
                            [ ("type", JStr "array");
                              ("items", JObj
                                [ ("type", JStr "object");
                                  ("properties", JObj
                                    [ ("method_id", JObj
                                        [ ("type", JStr "string");
                                          ("description", JStr "Shipping method ID") ]);
                                      ("method_title", JObj
                                        [ ("type", JStr "string");
                                          ("description", JStr "Shipping method title") ]);
                                      ("total", JObj
                                        [ ("type", JStr "string");
                                          ("description", JStr "Shipping total") ]) ]) ]);
                              ("description", JStr "Shipping lines") ]) ]) ]);
                  ("siteUrl", JObj
                    [ ("type", JStr "string");
                      ("description", JStr "WordPress site URL") ]);
                  ("consumerKey", JObj
                    [ ("type", JStr "string");
                      ("description", JStr "WooCommerce consumer key") ]);
                  ("consumerSecret", JObj
                    [ ("type", JStr "string");
                      ("description", JStr "WooCommerce consumer secret") ]) ]);
              ("required", JArr [ JStr "orderData" ]) ]) ]);
      ("update_order", JObj
        [ ("description", JStr "Update an existing order");
          ("inputSchema", JObj
            [ ("type", JStr "object");
              ("properties", JObj
                [ ("orderId", JObj
                    [ ("type", JStr "number");
                      ("description", JStr "Order ID to update");
                      ("required", JBool true) ]);
                  ("orderData", JObj
                    [ ("type", JStr "object");
                      ("description", JStr "Order data to update");
                      ("properties", JObj
                        [ ("status", JObj
                            [ ("type", JStr "string");
                              ("enum", JArr
                                [ JStr "pending";
                                  JStr "processing";
                                  JStr "on-hold";
                                  JStr "completed";
                                  JStr "cancelled";
                                  JStr "refunded";
                                  JStr "failed" ]);
                              ("description", JStr "Order status") ]);
                          ("customer_note", JObj
                            [ ("type", JStr "string");
                              ("description", JStr "Customer note") ]) ]) ]);
                  ("siteUrl", JObj
                    [ ("type", JStr "string");
                      ("description", JStr "WordPress site URL") ]);
                  ("consumerKey", JObj
                    [ ("type", JStr "string");
                      ("description", JStr "WooCommerce consumer key") ]);
                  ("consumerSecret", JObj
                    [ ("type", JStr "string");
                      ("description", JStr "WooCommerce consumer secret") ]) ]);
              ("required", JArr [ JStr "orderId"; JStr "orderData" ]) ]) ]);
      ("delete_order", JObj
        [ ("description", JStr "Delete an order");
          ("inputSchema", JObj
            [ ("type", JStr "object");
              ("properties", JObj
                [ ("orderId", JObj
                    [ ("type", JStr "number");
                      ("description", JStr "Order ID to delete");
                      ("required", JBool true) ]);
                  ("force", JObj
                    [ ("type", JStr "boolean");
                      ("description", JStr "Whether to bypass trash and force deletion") ]);
                  ("siteUrl", JObj
                    [ ("type", JStr "string");
                      ("description", JStr "WordPress site URL") ]);
                  ("consumerKey", JObj
                    [ ("type", JStr "string");
                      ("description", JStr "WooCommerce consumer key") ]);
                  ("consumerSecret", JObj
                    [ ("type", JStr "string");
                      ("description", JStr "WooCommerce consumer secret") ]) ]);
              ("required", JArr [ JStr "orderId" ]) ]) ]);
      ("get_order_meta", JObj [ ("description", JStr "Get order metadata") ]);
      ("create_order_meta", JObj [ ("description", JStr "Create/update order metadata") ]);
      ("update_order_meta", JObj [ ("description", JStr "Update order metadata") ]);
      ("delete_order_meta", JObj [ ("description", JStr "Delete order metadata") ]);
      ("get_order_notes", JObj [ ("description", JStr "Retrieve order notes") ]);
      ("get_order_note", JObj [ ("description", JStr "Get a single order note") ]);
      ("create_order_note", JObj [ ("description", JStr "Create a new order note") ]);
      ("delete_order_note", JObj [ ("description", JStr "Delete an order note") ]);
      ("get_order_refunds", JObj [ ("description", JStr "Retrieve order refunds") ]);
      ("get_order_refund", JObj [ ("description", JStr "Get a single order refund") ]);
      ("create_order_refund", JObj [ ("description", JStr "Create a new order refund") ]);
      ("delete_order_refund", JObj [ ("description", JStr "Delete an order refund") ]);
      ("get_customers", JObj
        [ ("description", JStr "Retrieve a list of customers");
          ("inputSchema", JObj
            [ ("type", JStr "object");
              ("properties", JObj
                [ ("perPage", JObj
                    [ ("type", JStr "number");
                      ("description", JStr "Number of customers to retrieve (max 100)") ]);
                  ("page", JObj [ ("type", JStr "number"); ("description", JStr "Page number") ]);
                  ("search", JObj [ ("type", JStr "string"); ("description", JStr "Search term") ]);
                  ("email", JObj
                    [ ("type", JStr "string");
                      ("description", JStr "Customer email") ]);
                  ("role", JObj
                    [ ("type", JStr "string");
                      ("description", JStr "Customer role") ]);
                  ("orderby", JObj
                    [ ("type", JStr "string");
                      ("enum", JArr
                        [ JStr "id";
                          JStr "include";
                          JStr "name";
                          JStr "registered_date" ]) ]);
                  ("order", JObj
                    [ ("type", JStr "string");
                      ("enum", JArr [ JStr "asc"; JStr "desc" ]) ]);
                  ("siteUrl", JObj
                    [ ("type", JStr "string");
                      ("description", JStr "WordPress site URL") ]);
                  ("consumerKey", JObj
                    [ ("type", JStr "string");
                      ("description", JStr "WooCommerce consumer key") ]);
                  ("consumerSecret", JObj
                    [ ("type", JStr "string");
                      ("description", JStr "WooCommerce consumer secret") ]) ]) ]) ]);
      ("get_customer", JObj
        [ ("description", JStr "Get a single customer by ID");
          ("inputSchema", JObj
            [ ("type", JStr "object");
              ("properties", JObj
                [ ("customerId", JObj
                    [ ("type", JStr "number");
                      ("description", JStr "Customer ID");
                      ("required", JBool true) ]);
                  ("siteUrl", JObj
                    [ ("type", JStr "string");
                      ("description", JStr "WordPress site URL") ]);
                  ("consumerKey", JObj
                    [ ("type", JStr "string");
                      ("description", JStr "WooCommerce consumer key") ]);
                  ("consumerSecret", JObj
                    [ ("type", JStr "string");
                      ("description", JStr "WooCommerce consumer secret") ]) ]);
              ("required", JArr [ JStr "customerId" ]) ]) ]);
      ("create_customer", JObj
        [ ("description", JStr "Create a new customer");
          ("inputSchema", JObj
            [ ("type", JStr "object");
              ("properties", JObj
                [ ("customerData", JObj
                    [ ("type", JStr "object");
                      ("description", JStr "Customer data object");
                      ("properties", JObj
                        [ ("email", JObj
                            [ ("type", JStr "string");
                              ("description", JStr "Customer email address") ]);
                          ("first_name", JObj
                            [ ("type", JStr "string");
                              ("description", JStr "Customer first name") ]);
                          ("last_name", JObj
                            [ ("type", JStr "string");
                              ("description", JStr "Customer last name") ]);
                          ("username", JObj
                            [ ("type", JStr "string");
                              ("description", JStr "Customer username") ]);
                          ("password", JObj
                            [ ("type", JStr "string");
                              ("description", JStr "Customer password") ]);
                          ("billing", JObj
                            [ ("type", JStr "object");
                              ("properties", JObj
                                [ ("first_name", JObj
                                    [ ("type", JStr "string");
                                      ("description", JStr "First name") ]);
                                  ("last_name", JObj
                                    [ ("type", JStr "string");
                                      ("description", JStr "Last name") ]);
                                  ("company", JObj
                                    [ ("type", JStr "string");
                                      ("description", JStr "Company name") ]);
                                  ("address_1", JObj
                                    [ ("type", JStr "string");
                                      ("description", JStr "Address line 1") ]);
                                  ("address_2", JObj
                                    [ ("type", JStr "string");
                                      ("description", JStr "Address line 2") ]);
                                  ("city", JObj
                                    [ ("type", JStr "string");
                                      ("description", JStr "City") ]);
                                  ("state", JObj
                                    [ ("type", JStr "string");
                                      ("description", JStr "State") ]);
                                  ("postcode", JObj
                                    [ ("type", JStr "string");
                                      ("description", JStr "Postal code") ]);
                                  ("country", JObj
                                    [ ("type", JStr "string");
                                      ("description", JStr "Country code") ]);
                                  ("email", JObj
                                    [ ("type", JStr "string");
                                      ("description", JStr "Email address") ]);
                                  ("phone", JObj
                                    [ ("type", JStr "string");
                                      ("description", JStr "Phone number") ]) ]) ]);
                          ("shipping", JObj
                            [ ("type", JStr "object");
                              ("properties", JObj
                                [ ("first_name", JObj
                                    [ ("type", JStr "string");
                                      ("description", JStr "First name") ]);
                                  ("last_name", JObj
                                    [ ("type", JStr "string");
                                      ("description", JStr "Last name") ]);
                                  ("company", JObj
                                    [ ("type", JStr "string");
                                      ("description", JStr "Company name") ]);
                                  ("address_1", JObj
                                    [ ("type", JStr "string");
                                      ("description", JStr "Address line 1") ]);
                                  ("address_2", JObj
                                    [ ("type", JStr "string");
                                      ("description", JStr "Address line 2") ]);
                                  ("city", JObj
                                    [ ("type", JStr "string");
                                      ("description", JStr "City") ]);
                                  ("state", JObj
                                    [ ("type", JStr "string");
                                      ("description", JStr "State") ]);
                                  ("postcode", JObj
                                    [ ("type", JStr "string");
                                      ("description", JStr "Postal code") ]);
                                  ("country", JObj
                                    [ ("type", JStr "string");
                                      ("description", JStr "Country code") ]) ]) ]) ]);
                      ("required", JArr [ JStr "email" ]) ]);
                  ("siteUrl", JObj
                    [ ("type", JStr "string");
                      ("description", JStr "WordPress site URL") ]);
                  ("consumerKey", JObj
                    [ ("type", JStr "string");
                      ("description", JStr "WooCommerce consumer key") ]);
                  ("consumerSecret", JObj
                    [ ("type", JStr "string");
                      ("description", JStr "WooCommerce consumer secret") ]) ]);
              ("required", JArr [ JStr "customerData" ]) ]) ]);
      ("update_customer", JObj
        [ ("description", JStr "Update an existing customer");
          ("inputSchema", JObj
            [ ("type", JStr "object");
              ("properties", JObj
                [ ("customerId", JObj
                    [ ("type", JStr "number");
                      ("description", JStr "Customer ID to update");
                      ("required", JBool true) ]);
                  ("customerData", JObj
                    [ ("type", JStr "object");
                      ("description", JStr "Customer data to update");
                      ("properties", JObj
                        [ ("email", JObj
                            [ ("type", JStr "string");
                              ("description", JStr "Customer email address") ]);
                          ("first_name", JObj
                            [ ("type", JStr "string");
                              ("description", JStr "Customer first name") ]);
                          ("last_name", JObj
                            [ ("type", JStr "string");
                              ("description", JStr "Customer last name") ]);
                          ("username", JObj
                            [ ("type", JStr "string");
                              ("description", JStr "Customer username") ]) ]) ]);
                  ("siteUrl", JObj
                    [ ("type", JStr "string");
                      ("description", JStr "WordPress site URL") ]);
                  ("consumerKey", JObj
                    [ ("type", JStr "string");
                      ("description", JStr "WooCommerce consumer key") ]);
                  ("consumerSecret", JObj
                    [ ("type", JStr "string");
                      ("description", JStr "WooCommerce consumer secret") ]) ]);
              ("required", JArr [ JStr "customerId"; JStr "customerData" ]) ]) ]);
      ("delete_customer", JObj
        [ ("description", JStr "Delete a customer");
          ("inputSchema", JObj
            [ ("type", JStr "object");
              ("properties", JObj
                [ ("customerId", JObj
                    [ ("type", JStr "number");
                      ("description", JStr "Customer ID to delete");
                      ("required", JBool true) ]);
                  ("force", JObj
                    [ ("type", JStr "boolean");
                      ("description", JStr "Whether to bypass trash and force deletion") ]);
                  ("reassign", JObj
                    [ ("type", JStr "number");
                      ("description", JStr "User ID to reassign posts to") ]);
                  ("siteUrl", JObj
                    [ ("type", JStr "string");
                      ("description", JStr "WordPress site URL") ]);
                  ("consumerKey", JObj
                    [ ("type", JStr "string");
                      ("description", JStr "WooCommerce consumer key") ]);
                  ("consumerSecret", JObj
                    [ ("type", JStr "string");
                      ("description", JStr "WooCommerce consumer secret") ]) ]);
              ("required", JArr [ JStr "customerId" ]) ]) ]);
      ("get_customer_meta", JObj [ ("description", JStr "Get customer metadata") ]);
      ("create_customer_meta", JObj [ ("description", JStr "Create/update customer metadata") ]);
      ("update_customer_meta", JObj [ ("description", JStr "Update customer metadata") ]);
      ("delete_customer_meta", JObj [ ("description", JStr "Delete customer metadata") ]);
      ("get_shipping_zones", JObj [ ("description", JStr "Retrieve shipping zones") ]);
      ("get_shipping_zone", JObj [ ("description", JStr "Get a single shipping zone") ]);
      ("create_shipping_zone", JObj [ ("description", JStr "Create a new shipping zone") ]);
      ("update_shipping_zone", JObj [ ("description", JStr "Update a shipping zone") ]);
      ("delete_shipping_zone", JObj [ ("description", JStr "Delete a shipping zone") ]);
      ("get_shipping_methods", JObj [ ("description", JStr "Retrieve shipping methods") ]);
      ("get_shipping_zone_methods", JObj [ ("description", JStr "Get shipping methods for a zone") ]);
      ("create_shipping_zone_method", JObj [ ("description", JStr "Create a new shipping method for a zone") ]);
      ("update_shipping_zone_method", JObj [ ("description", JStr "Update a shipping method for a zone") ]);
      ("delete_shipping_zone_method", JObj [ ("description", JStr "Delete a shipping method from a zone") ]);
      ("get_shipping_zone_locations", JObj [ ("description", JStr "Get locations for a shipping zone") ]);
      ("update_shipping_zone_locations", JObj [ ("description", JStr "Update locations for a shipping zone") ]);
      ("get_tax_classes", JObj [ ("description", JStr "Retrieve tax classes") ]);
      ("create_tax_class", JObj [ ("description", JStr "Create a new tax class") ]);
      ("delete_tax_class", JObj [ ("description", JStr "Delete a tax class") ]);
      ("get_tax_rates", JObj [ ("description", JStr "Retrieve tax rates") ]);
      ("get_tax_rate", JObj [ ("description", JStr "Get a single tax rate") ]);
      ("create_tax_rate", JObj [ ("description", JStr "Create a new tax rate") ]);
      ("update_tax_rate", JObj [ ("description", JStr "Update a tax rate") ]);
      ("delete_tax_rate", JObj [ ("description", JStr "Delete a tax rate") ]);
      ("get_coupons", JObj [ ("description", JStr "Retrieve coupons") ]);
      ("get_coupon", JObj [ ("description", JStr "Get a single coupon") ]);
      ("create_coupon", JObj [ ("description", JStr "Create a new coupon") ]);
      ("update_coupon", JObj [ ("description", JStr "Update a coupon") ]);
      ("delete_coupon", JObj [ ("description", JStr "Delete a coupon") ]);
      ("get_payment_gateways", JObj [ ("description", JStr "Retrieve payment gateways") ]);
      ("get_payment_gateway", JObj [ ("description", JStr "Get a single payment gateway") ]);
      ("update_payment_gateway", JObj [ ("description", JStr "Update a payment gateway") ]);
      ("get_sales_report", JObj [ ("description", JStr "Retrieve sales reports") ]);
      ("get_products_report", JObj [ ("description", JStr "Retrieve products reports") ]);
      ("get_orders_report", JObj [ ("description", JStr "Retrieve orders reports") ]);
      ("get_categories_report", JObj [ ("description", JStr "Retrieve categories reports") ]);
      ("get_customers_report", JObj [ ("description", JStr "Retrieve customers reports") ]);
      ("get_stock_report", JObj [ ("description", JStr "Retrieve stock reports") ]);
      ("get_coupons_report", JObj [ ("description", JStr "Retrieve coupons reports") ]);
      ("get_taxes_report", JObj [ ("description", JStr "Retrieve taxes reports") ]);
      ("get_settings", JObj [ ("description", JStr "Retrieve all settings") ]);
      ("get_setting_options", JObj [ ("description", JStr "Retrieve options for a setting") ]);
      ("update_setting_option", JObj [ ("description", JStr "Update a setting option") ]);
      ("get_system_status", JObj [ ("description", JStr "Retrieve system status") ]);
      ("get_system_status_tools", JObj [ ("description", JStr "Retrieve system status tools") ]);
      ("run_system_status_tool", JObj [ ("description", JStr "Run a system status tool") ]);
      ("get_data", JObj [ ("description", JStr "Retrieve store data") ]);
      ("get_continents", JObj [ ("description", JStr "Retrieve continents data") ]);
      ("get_countries", JObj [ ("description", JStr "Retrieve countries data") ]);
      ("get_currencies", JObj [ ("description", JStr "Retrieve currencies data") ]);
      ("get_current_currency", JObj [ ("description", JStr "Get the current currency") ]) ].

Definition MCP_CAPABILITIES : JsValue :=
  JObj [ ("experimental", JObj []); ("prompts", JObj []); ("resources", JObj []);
         ("tools", tools) ].

Definition handleMcpInitialization : JsValue :=
  JObj [ ("protocolVersion", JStr "2024-11-05");
         ("capabilities", MCP_CAPABILITIES);
         ("serverInfo", JObj [ ("name", JStr "woocommerce-mcp-server");
                               ("version", JStr "1.0.0") ]) ].

(** [(tool as any).inputSchema || { type: "object", properties: {} }] *)
Definition default_schema : JsValue :=
  JObj [ ("type", JStr "object"); ("properties", JObj []) ].

(** [Object.entries(MCP_CAPABILITIES.tools).map(([name, tool]) => ({name,
    description: tool.description, inputSchema: tool.inputSchema || {...}}))] *)
Definition describe (entry : string * JsValue) : JsValue :=
  JObj [ ("name", JStr (fst entry));
         ("description", prop (snd entry) "description");
         ("inputSchema", js_or (prop (snd entry) "inputSchema") default_schema) ].

Definition handleListTools : JsValue :=
  JObj [ ("tools",
          JArr (map describe (own_entries (prop MCP_CAPABILITIES "tools")))) ].

(** The [/message] endpoint with its two protocol methods in place. *)
Definition message (env : Index.Env) (req_body : JsValue)
  : Prog Index.JsonRpcResponse :=
  Index.post_message handleMcpInitialization handleListTools env req_body.

End Capabilities.

(** ** The parameter checks of the [case]s of [src/index.ts]

    The checks that open each [case]: [if (!params.f) throw new Error(msg)]
    is [Present f], [if (params.f === undefined) throw new Error(msg)] is
    [Defined f]; a [case] runs them in the order of its row. *)

Module Validation.

Inductive Guard : Type :=
| Present (field : string)
| Defined (field : string).

Definition holds (params : JsValue) (g : Guard) : bool :=
  match g with
  | Present f => truthy (prop params f)
  | Defined f => negb (strict_equals (prop params f) JUndefined)
  end.

Definition field_of (g : Guard) : string :=
  match g with
  | Present f => f
  | Defined f => f
  end.

Definition guards : list (string * list (Guard * string)) :=
  [ ("create_post",
       [ (Present "title", "Title and content are required for creating a post");
         (Present "content", "Title and content are required for creating a post") ]);
    ("get_posts", []);
    ("update_post",
       [ (Present "postId", "Post ID is required for updating a post") ]);
    ("get_products", []);
    ("get_product", [ (Present "productId", "Product ID is required") ]);
    ("create_product",
       [ (Present "productData", "Product data is required for creating a product") ]);
    ("update_product",
       [ (Present "productId", "Product ID is required for updating a product");
         (Present "productData", "Product data is required for updating a product") ]);
    ("delete_product",
       [ (Present "productId", "Product ID is required for deleting a product") ]);
    ("get_orders", []);
    ("get_order", [ (Present "orderId", "Order ID is required") ]);
    ("create_order",
       [ (Present "orderData", "Order data is required for creating an order") ]);
    ("update_order",
       [ (Present "orderId", "Order ID is required for updating an order");
         (Present "orderData", "Order data is required for updating an order") ]);
    ("delete_order",
       [ (Present "orderId", "Order ID is required for deleting an order") ]);
    ("get_customers", []);
    ("get_customer", [ (Present "customerId", "Customer ID is required") ]);
    ("create_customer",
       [ (Present "customerData", "Customer data is required for creating a customer") ]);
    ("update_customer",
       [ (Present "customerId", "Customer ID is required for updating a customer");
         (Present "customerData", "Customer data is required for updating a customer") ]);
    ("delete_customer",
       [ (Present "customerId", "Customer ID is required for deleting a customer") ]);
    ("get_sales_report", []);
    ("get_products_report", []);
    ("get_orders_report", []);
    ("get_categories_report", []);
    ("get_customers_report", []);
    ("get_stock_report", []);
    ("get_coupons_report", []);
    ("get_taxes_report", []);
    ("get_shipping_zones", []);
    ("get_shipping_zone", [ (Present "zoneId", "Zone ID is required") ]);
    ("create_shipping_zone",
       [ (Present "zoneData", "Zone data is required for creating a shipping zone") ]);
    ("update_shipping_zone",
       [ (Present "zoneId", "Zone ID is required for updating a shipping zone");
         (Present "zoneData", "Zone data is required for updating a shipping zone") ]);
    ("delete_shipping_zone",
       [ (Present "zoneId", "Zone ID is required for deleting a shipping zone") ]);
    ("get_shipping_methods", []);
    ("get_shipping_zone_methods", [ (Present "zoneId", "Zone ID is required") ]);
    ("create_shipping_zone_method",
       [ (Present "zoneId", "Zone ID is required");
         (Present "methodData", "Method data is required for creating a shipping method") ]);
    ("update_shipping_zone_method",
       [ (Present "zoneId", "Zone ID is required");
         (Present "instanceId", "Method instance ID is required");
         (Present "methodData", "Method data is required for updating a shipping method") ]);
    ("delete_shipping_zone_method",
       [ (Present "zoneId", "Zone ID is required");
         (Present "instanceId", "Method instance ID is required") ]);
    ("get_shipping_zone_locations", [ (Present "zoneId", "Zone ID is required") ]);
    ("update_shipping_zone_locations",
       [ (Present "zoneId", "Zone ID is required");
         (Present "locations", "Locations data is required") ]);
    ("get_tax_classes", []);
    ("create_tax_class",
       [ (Present "taxClassData", "Tax class data is required") ]);
    ("delete_tax_class", [ (Present "slug", "Tax class slug is required") ]);
    ("get_tax_rates", []);
    ("get_tax_rate", [ (Present "rateId", "Tax rate ID is required") ]);
    ("create_tax_rate", [ (Present "taxRateData", "Tax rate data is required") ]);
    ("update_tax_rate",
       [ (Present "rateId", "Tax rate ID is required");
         (Present "taxRateData", "Tax rate data is required") ]);
    ("delete_tax_rate", [ (Present "rateId", "Tax rate ID is required") ]);
    ("get_coupons", []);
    ("get_coupon", [ (Present "couponId", "Coupon ID is required") ]);
    ("create_coupon", [ (Present "couponData", "Coupon data is required") ]);
    ("update_coupon",
       [ (Present "couponId", "Coupon ID is required");
         (Present "couponData", "Coupon data is required") ]);
    ("delete_coupon", [ (Present "couponId", "Coupon ID is required") ]);
    ("get_order_notes", [ (Present "orderId", "Order ID is required") ]);
    ("get_order_note",
       [ (Present "orderId", "Order ID is required");
         (Present "noteId", "Note ID is required") ]);
    ("create_order_note",
       [ (Present "orderId", "Order ID is required");
         (Present "noteData", "Note data is required") ]);
    ("delete_order_note",
       [ (Present "orderId", "Order ID is required");
         (Present "noteId", "Note ID is required") ]);
    ("get_order_refunds", [ (Present "orderId", "Order ID is required") ]);
    ("get_order_refund",
       [ (Present "orderId", "Order ID is required");
         (Present "refundId", "Refund ID is required") ]);
    ("create_order_refund",
       [ (Present "orderId", "Order ID is required");
         (Present "refundData", "Refund data is required") ]);
    ("delete_order_refund",
       [ (Present "orderId", "Order ID is required");
         (Present "refundId", "Refund ID is required") ]);
    ("get_product_variations", [ (Present "productId", "Product ID is required") ]);
    ("get_product_variation",
       [ (Present "productId", "Product ID is required");
         (Present "variationId", "Variation ID is required") ]);
    ("create_product_variation",
       [ (Present "productId", "Product ID is required");
         (Present "variationData", "Variation data is required") ]);
    ("update_product_variation",
       [ (Present "productId", "Product ID is required");
         (Present "variationId", "Variation ID is required");
         (Present "variationData", "Variation data is required") ]);
    ("delete_product_variation",
       [ (Present "productId", "Product ID is required");
         (Present "variationId", "Variation ID is required") ]);
    ("get_product_attributes", []);
    ("get_product_attribute",
       [ (Present "attributeId", "Attribute ID is required") ]);
    ("create_product_attribute",
       [ (Present "attributeData", "Attribute data is required") ]);
    ("update_product_attribute",
       [ (Present "attributeId", "Attribute ID is required");
         (Present "attributeData", "Attribute data is required") ]);
    ("delete_product_attribute",
       [ (Present "attributeId", "Attribute ID is required") ]);
    ("get_attribute_terms",
       [ (Present "attributeId", "Attribute ID is required") ]);
    ("get_attribute_term",
       [ (Present "attributeId", "Attribute ID is required");
         (Present "termId", "Term ID is required") ]);
    ("create_attribute_term",
       [ (Present "attributeId", "Attribute ID is required");
         (Present "termData", "Term data is required") ]);
    ("update_attribute_term",
       [ (Present "attributeId", "Attribute ID is required");
         (Present "termId", "Term ID is required");
         (Present "termData", "Term data is required") ]);
    ("delete_attribute_term",
       [ (Present "attributeId", "Attribute ID is required");
         (Present "termId", "Term ID is required") ]);
    ("get_product_categories", []);
    ("get_product_category", [ (Present "categoryId", "Category ID is required") ]);
    ("create_product_category",
       [ (Present "categoryData", "Category data is required") ]);
    ("update_product_category",
       [ (Present "categoryId", "Category ID is required");
         (Present "categoryData", "Category data is required") ]);
    ("delete_product_category",
       [ (Present "categoryId", "Category ID is required") ]);
    ("get_product_tags", []);
    ("get_product_tag", [ (Present "tagId", "Tag ID is required") ]);
    ("create_product_tag", [ (Present "tagData", "Tag data is required") ]);
    ("update_product_tag",
       [ (Present "tagId", "Tag ID is required");
         (Present "tagData", "Tag data is required") ]);
    ("delete_product_tag", [ (Present "tagId", "Tag ID is required") ]);
    ("get_product_reviews", []);
    ("get_product_review", [ (Present "reviewId", "Review ID is required") ]);
    ("create_product_review",
       [ (Present "productId", "Product ID is required");
         (Present "reviewData", "Review data is required") ]);
    ("update_product_review",
       [ (Present "reviewId", "Review ID is required");
         (Present "reviewData", "Review data is required") ]);
    ("delete_product_review", [ (Present "reviewId", "Review ID is required") ]);
    ("get_payment_gateways", []);
    ("get_payment_gateway", [ (Present "gatewayId", "Gateway ID is required") ]);
    ("update_payment_gateway",
       [ (Present "gatewayId", "Gateway ID is required");
         (Present "gatewayData", "Gateway data is required") ]);
    ("get_settings", []);
    ("get_setting_options", [ (Present "group", "Settings group is required") ]);
    ("update_setting_option",
       [ (Present "group", "Settings group is required");
         (Present "id", "Setting ID is required");
         (Present "settingData", "Setting data is required") ]);
    ("get_system_status", []);
    ("get_system_status_tools", []);
    ("run_system_status_tool", [ (Present "toolId", "Tool ID is required") ]);
    ("get_data", []);
    ("get_continents", []);
    ("get_countries", []);
    ("get_currencies", []);
    ("get_current_currency", []);
    ("get_post_meta", [ (Present "postId", "Post ID is required") ]);
    ("create_post_meta",
       [ (Present "postId", "Post ID is required");
         (Present "metaKey", "Meta key is required");
         (Defined "metaValue", "Meta value is required") ]);
    ("update_post_meta",
       [ (Present "postId", "Post ID is required");
         (Present "metaId", "Meta ID is required");
         (Defined "metaValue", "Meta value is required") ]);
    ("delete_post_meta",
       [ (Present "postId", "Post ID is required");
         (Present "metaId", "Meta ID is required") ]);
    ("get_product_meta", [ (Present "productId", "Product ID is required") ]);
    ("create_product_meta",
       [ (Present "productId", "Product ID is required");
         (Present "metaKey", "Meta key is required");
         (Defined "metaValue", "Meta value is required") ]);
    ("update_product_meta",
       [ (Present "productId", "Product ID is required");
         (Present "metaKey", "Meta key is required");
         (Defined "metaValue", "Meta value is required") ]);
    ("delete_product_meta",
       [ (Present "productId", "Product ID is required");
         (Present "metaKey", "Meta key is required") ]);
    ("get_order_meta", [ (Present "orderId", "Order ID is required") ]);
    ("create_order_meta",
       [ (Present "orderId", "Order ID is required");
         (Present "metaKey", "Meta key is required");
         (Defined "metaValue", "Meta value is required") ]);
    ("update_order_meta",
       [ (Present "orderId", "Order ID is required");
         (Present "metaKey", "Meta key is required");
         (Defined "metaValue", "Meta value is required") ]);
    ("delete_order_meta",
       [ (Present "orderId", "Order ID is required");
         (Present "metaKey", "Meta key is required") ]);
    ("get_customer_meta", [ (Present "customerId", "Customer ID is required") ]);
    ("create_customer_meta",
       [ (Present "customerId", "Customer ID is required");
         (Present "metaKey", "Meta key is required");
         (Defined "metaValue", "Meta value is required") ]);
    ("update_customer_meta",
       [ (Present "customerId", "Customer ID is required");
         (Present "metaKey", "Meta key is required");
         (Defined "metaValue", "Meta value is required") ]);
    ("delete_customer_meta",
       [ (Present "customerId", "Customer ID is required");
         (Present "metaKey", "Meta key is required") ]) ].

Fixpoint guards_in (table : list (string * list (Guard * string))) (label : string)
  : list (Guard * string) :=
  match table with
  | [] => []
  | (l, gs) :: rest => if l =? label then gs else guards_in rest label
  end.

Definition guards_of (label : string) : list (Guard * string) :=
  guards_in guards label.

(** The message of the first check that fails, if one does. *)
Fixpoint first_failure (params : JsValue) (gs : list (Guard * string))
  : option string :=
  match gs with
  | [] => None
  | (g, msg) :: rest =>
      if holds params g then first_failure params rest else Some msg
  end.

End Validation.

(** ** The HTTP side of [src/sse-server.ts]: REST endpoints and SSE registry *)

Module SseHttp.

Import Index.
Open Scope prog_scope.

(** What a handler sends with [res.json] (status 200) or
    [res.status(500).json]; the [timestamp] field is left out. *)
Record HttpReply : Type := mkHttpReply {
  status : Z;
  json : JsValue
}.

Definition succeeded (result : JsValue) : HttpReply :=
  {| status := 200;
     json := JObj [ ("success", JBool true); ("data", result) ] |}.

Definition failed (error : JsError) : HttpReply :=
  {| status := 500;
     json := JObj [ ("success", JBool false); ("error", JStr (message error)) ] |}.

(** [const { method, params } = req.body;] *)
Definition destructure (req_body : JsValue) : Result (JsValue * JsValue) :=
  if nullish req_body
  then inl (Error ("Cannot destructure property 'method' of 'req.body' as it is "
                   ++ type_name req_body ++ "."))
  else inr (req_body.["method"], req_body.["params"]).

(** [app.post("/api/woocommerce", ...)] *)
Definition api_woocommerce (env : Env) (req_body : JsValue) : Prog HttpReply :=
  try_catch
    (mp <- lift (destructure req_body);;
     result <- SseServer.handleWooCommerceRequest env (fst mp)
                 (js_or (snd mp) (JObj []));;
     Ret (succeeded result))
    (fun error => Ret (failed error)).

(** [{ perPage: 10, page: 1,
       filters: lastUpdate ? { modified_after: lastUpdate } : {} }] *)
Definition poll_params (lastUpdate : JsValue) : JsValue :=
  JObj [ ("perPage", JNum 10); ("page", JNum 1);
         ("filters", if truthy lastUpdate
                     then JObj [ ("modified_after", lastUpdate) ]
                     else JObj []) ].

(** The [switch (resource)] of the polling endpoint. *)
Definition poll_request (resource : string) (lastUpdate : JsValue)
  : Result (string * JsValue) :=
  if resource =? "orders" then inr ("get_orders", poll_params lastUpdate)
  else if resource =? "products" then inr ("get_products", poll_params lastUpdate)
  else inl (Error ("Unknown resource: " ++ resource)).

(** [app.get("/api/poll/:resource", ...)]: [resource] is the route
    parameter, [lastUpdate] is [req.query.since]. *)
Definition api_poll (env : Env) (resource : string) (lastUpdate : JsValue)
  : Prog HttpReply :=
  try_catch
    (mp <- lift (poll_request resource lastUpdate);;
     result <- SseServer.handleWooCommerceRequest env (JStr (fst mp)) (snd mp);;
     Ret (succeeded result))
    (fun error => Ret (failed error)).

(** *** [streamData] of the streaming variant of [/events/:channel] *)

(** What [streamData] writes to the response after its dispatch: the
    [data_stream] event or the [error] event (the writes themselves are taken
    to succeed). *)
Inductive StreamEvent : Type :=
| DataStream (channel method : string) (data : JsValue)
| StreamError (channel msg : string).

(** The [switch (channel)] of [streamData]. *)
Definition stream_request (channel : string) : string * JsValue :=
  if (channel =? "products") || (channel =? "woocommerce")
  then ("get_products", JObj [ ("perPage", JNum 5); ("page", JNum 1) ])
  else if channel =? "orders"
  then ("get_orders", JObj [ ("perPage", JNum 5); ("page", JNum 1) ])
  else ("get_products", JObj [ ("perPage", JNum 3); ("page", JNum 1) ]).

Definition streamData (env : Env) (channel : string) : Prog StreamEvent :=
  let mp := stream_request channel in
  try_catch
    (result <- SseServer.handleWooCommerceRequest env (JStr (fst mp)) (snd mp);;
     Ret (DataStream channel (fst mp) result))
    (fun error => Ret (StreamError channel (message error))).

(** *** The registry of SSE connections

    [sseConnections] is a [Map] from a channel name to the array of the
    responses that stay open on it.  A response object is known by its
    identity, a number here. *)

Definition Response : Type := nat.

Definition Registry : Type := list (string * list Response).

Fixpoint get (reg : Registry) (channel : string) : option (list Response) :=
  match reg with
  | [] => None
  | (name, conns) :: rest => if name =? channel then Some conns else get rest channel
  end.

Definition has (reg : Registry) (channel : string) : bool :=
  match get reg channel with
  | Some _ => true
  | None => false
  end.

(** [Map.prototype.set], and any mutation of the array held under a key. *)
Fixpoint set (channel : string) (conns : list Response) (reg : Registry) : Registry :=
  match reg with
  | [] => [ (channel, conns) ]
  | (name, old) :: rest =>
      if name =? channel then (name, conns) :: rest
      else (name, old) :: set channel conns rest
  end.

(** [if (!sseConnections.has(channel)) sseConnections.set(channel, []);
     sseConnections.get(channel)!.push(res);] *)
Definition connect (channel : string) (res : Response) (reg : Registry) : Registry :=
  let reg1 := if has reg channel then reg else set channel [] reg in
  match get reg1 channel with
  | Some conns => set channel (conns ++ [res]) reg1
  | None => reg1
  end.

(** [connections.indexOf(res)]; [None] is [-1]. *)
Fixpoint indexOf (res : Response) (conns : list Response) : option nat :=
  match conns with
  | [] => None
  | c :: rest =>
      if Nat.eqb c res then Some 0%nat
      else match indexOf res rest with
           | Some i => Some (S i)
           | None => None
           end
  end.

(** [connections.splice(index, 1)] *)
Definition splice (index : nat) (conns : list Response) : list Response :=
  firstn index conns ++ skipn (S index) conns.

(** The [req.on("close", ...)] handler. *)
Definition close (channel : string) (res : Response) (reg : Registry) : Registry :=
  match get reg channel with
  | Some conns =>
      match indexOf res conns with
      | Some index => set channel (splice index conns) reg
      | None => reg
      end
  | None => reg
  end.

Section Broadcast.

(** The responses on which [res.write] throws. *)
Variable throws : Response -> bool.

(** [connections.forEach((res, index) => { try { res.write(message) } catch
    { connections.splice(index, 1) } })]: the length is read once, [steps]
    indices are still to be visited from [index] on, an index past the end of
    the array as it is by then is passed over.  The result is the responses
    written to, in order, and the array as the loop leaves it. *)
Fixpoint forEach (steps index : nat) (conns : list Response)
  : list Response * list Response :=
  match steps with
  | O => ([], conns)
  | S n =>
      match nth_error conns index with
      | None => forEach n (S index) conns
      | Some res =>
          if throws res then forEach n (S index) (splice index conns)
          else let '(written, kept) := forEach n (S index) conns in
               (res :: written, kept)
      end
  end.

Definition broadcastSSE (channel : string) (reg : Registry)
  : list Response * Registry :=
  match get reg channel with
  | Some conns =>
      let '(written, kept) := forEach (length conns) 0 conns in
      (written, set channel kept reg)
  | None => ([], reg)
  end.

(** The same sweep told by recursion on the array: a response that takes the
    message stays; one whose write throws is dropped and its successor is
    neither written to nor dropped. *)
Fixpoint sweep (conns : list Response) : list Response * list Response :=
  match conns with
  | [] => ([], [])
  | res :: rest =>
      if throws res then
        match rest with
        | [] => ([], [])
        | next :: rest' =>
            let '(written, kept) := sweep rest' in (written, next :: kept)
        end
      else let '(written, kept) := sweep rest in (res :: written, res :: kept)
  end.

End Broadcast.

End SseHttp.

(** ** Shapes of programs and of requests the properties speak about *)

Module Shape.

(** The program makes at most [n] upstream calls, whatever the upstream
    answers. *)
Fixpoint at_most {A : Type} (p : Prog A) (n : nat) {struct p} : Prop :=
  match p with
  | Ret _ => True
  | Throw _ => True
  | Call _ _ k =>
      match n with
      | O => False
      | S m => forall s, at_most (k s) m
      end
  | Broadcast _ _ _ k => at_most k n
  end.

(** The calls among the events of a run. *)
Definition requests (events : list Event) : list (AxiosInstance * AxiosRequest) :=
  flat_map (fun e => match e with
                     | Requested c r => [ (c, r) ]
                     | Pushed _ _ _ => []
                     end) events.



(** The methods that the dispatcher of [sse-server.ts] has a [case] for, and
    those among them that are not list operations. *)
Definition sse_methods : list string :=
  [ "get_products"; "get_product"; "create_product"; "update_product";
    "get_orders"; "get_order"; "create_order"; "update_order";
    "get_customers"; "get_system_status" ].

Definition sse_single_methods : list string :=
  [ "get_product"; "create_product"; "update_product";
    "get_order"; "create_order"; "update_order"; "get_system_status" ].

(** The reports that take a period. *)
Definition periodic_reports : list string :=
  [ "get_sales_report"; "get_products_report"; "get_orders_report";
    "get_coupons_report"; "get_taxes_report" ].

(** What the query of such a report carries: the three fields of the period,
    defaulted when the request has no truthy value for them, unless [filters]
    has a field of the same name. *)
Definition period_query (params : JsValue) (q : list (string * JsValue)) : Prop :=
  let filters := own_entries (prop params "filters") in
  (lookup "period" filters = None ->
   lookup "period" q
   = Some (if truthy (prop params "period") then prop params "period"
           else JStr "month"))
  /\ (lookup "date_min" filters = None ->
      lookup "date_min" q
      = Some (if truthy (prop params "dateMin") then prop params "dateMin"
              else JStr ""))
  /\ (lookup "date_max" filters = None ->
      lookup "date_max" q
      = Some (if truthy (prop params "dateMax") then prop params "dateMax"
              else JStr ""))
  /\ (forall k v, lookup k filters = Some v -> lookup k q = Some v).

(** The operations that read an entity and write it back. *)
Definition read_modify_write : list string :=
  [ "update_product_meta"; "create_product_meta"; "delete_product_meta";
    "update_order_meta"; "create_order_meta"; "delete_order_meta";
    "update_customer_meta"; "create_customer_meta"; "delete_customer_meta" ].

(** [name.startsWith("get_")] *)
Definition is_read (name : string) : bool := String.prefix "get_" name.

(** Parameters that the input schema of a tool declares and that its [case]
    never reads. *)
Definition unused_parameters : list (string * string) :=
  [ ("get_products", "search"); ("get_products", "category");
    ("get_products", "tag"); ("get_products", "status");
    ("get_products", "type"); ("get_products", "sku");
    ("get_products", "featured");
    ("get_orders", "search"); ("get_orders", "status");
    ("get_orders", "customer"); ("get_orders", "product");
    ("get_orders", "after"); ("get_orders", "before");
    ("get_customers", "search"); ("get_customers", "email");
    ("get_customers", "role"); ("get_customers", "orderby");
    ("get_customers", "order");
    ("delete_customer", "reassign") ].

Definition unused_of (name : string) : list string :=
  map snd (filter (fun p => fst p =? name) unused_parameters).




(** What [entries] becomes when the entry with key [k] is given the value
    [v]: the first entry with that key takes the value where it stands, and
    when there is none a new entry goes last. *)
Fixpoint upsert (k : string) (v : JsValue) (entries : list JsValue) : list JsValue :=
  match entries with
  | [] => [ JObj [ ("key", JStr k); ("value", v) ] ]
  | JObj fs :: rest =>
      if strict_equals (prop (JObj fs) "key") (JStr k)
      then JObj (set_field "value" v fs) :: rest
      else JObj fs :: upsert k v rest
  | entry :: rest => entry :: upsert k v rest
  end.


(** The names of the schema of a tool as [tools/list] shows it. *)
Definition schema_of (listing : JsValue) (name : string) : JsValue :=
  match prop listing "tools" with
  | JArr tools =>
      match find (fun tool => strict_equals (prop tool "name") (JStr name)) tools with
      | Some tool => prop tool "inputSchema"
      | None => JUndefined
      end
  | _ => JUndefined
  end.

Definition strings_of (v : JsValue) : list string :=
  match v with
  | JArr items => flat_map (fun x => match x with JStr s => [ s ] | _ => [] end) items
  | _ => []
  end.

(** The names of the tools of a [tools/list] result. *)
Definition tool_names (listing : JsValue) : list string :=
  match prop listing "tools" with
  | JArr tools => strings_of (JArr (map (fun tool => prop tool "name") tools))
  | _ => []
  end.

Definition required_by_schema (listing : JsValue) (name : string) : list string :=
  strings_of (prop (schema_of listing name) "required").

(** The parameters that the schemas require, tool by tool. *)
Definition required_pairs (tools : list JsValue) : list (string * string) :=
  flat_map (fun tool =>
              map (fun f => (to_string (prop tool "name"), f))
                (strings_of (prop (prop tool "inputSchema") "required")))
    tools.

Definition declared_by_schema (listing : JsValue) (name : string) : list string :=
  map fst (own_entries (prop (schema_of listing name) "properties")).

End Shape.

(** Further sample data: an order whose meta-data has the key [x] twice, and
    the request that sets [x]. *)
Module Fixtures.



End Fixtures.

(** ** Reading a query string back

    What the upstream does with the query string that [sse-server.ts] builds:
    the parser of application/x-www-form-urlencoded. *)

Module Decoding.

Definition hex_value (c : ascii) : option N :=
  let n := N_of_ascii c in
  (if (48 <=? n) && (n <=? 57) then Some (n - 48)
   else if (65 <=? n) && (n <=? 70) then Some (n - 55)
   else if (97 <=? n) && (n <=? 102) then Some (n - 87)
   else None)%N.

(** Percent-decoding, with [+] read as a space; a [%] that is not followed
    by two hexadecimal digits stands for itself. *)
Fixpoint form_decode (s : string) : string :=
  match s with
  | EmptyString => EmptyString
  | String c rest =>
      if (N_of_ascii c =? 43)%N then String " " (form_decode rest)
      else if (N_of_ascii c =? 37)%N then
        match rest with
        | String a (String b rest') =>
            match hex_value a, hex_value b with
            | Some x, Some y => String (ascii_of_N (x * 16 + y)) (form_decode rest')
            | _, _ => String c (form_decode rest)
            end
        | _ => String c (form_decode rest)
        end
      else String c (form_decode rest)
  end.

(** [sep] does not occur in [s]. *)
Fixpoint free_of (sep : ascii) (s : string) : bool :=
  match s with
  | EmptyString => true
  | String c rest => negb (Ascii.eqb c sep) && free_of sep rest
  end.

(** The pieces of [s] between the occurrences of [sep]; [current] is the
    piece being read. *)
Fixpoint pieces (sep : ascii) (current : string) (s : string) : list string :=
  match s with
  | EmptyString => [ current ]
  | String c rest =>
      if Ascii.eqb c sep then current :: pieces sep EmptyString rest
      else pieces sep (current ++ String c EmptyString) rest
  end.

(** A piece [name=value] at its first [=]; a piece without [=] is a name
    with an empty value. *)
Fixpoint name_value (name : string) (s : string) : string * string :=
  match s with
  | EmptyString => (name, EmptyString)
  | String c rest =>
      if Ascii.eqb c "="%char then (name, rest)
      else name_value (name ++ String c EmptyString) rest
  end.

(** The pairs of a query string; empty pieces are dropped. *)
Definition parse_query (s : string) : list (string * string) :=
  flat_map (fun piece =>
              if piece =? "" then []
              else let nv := name_value EmptyString piece in
                   [ (form_decode (fst nv), form_decode (snd nv)) ])
    (pieces "&"%char EmptyString s).

End Decoding.
Export Decoding.

(** * Properties *)

Import Index.
Open Scope prog_scope.

(** ** Sanity checks of the embedding *)

Example base64_sample : base64 "user:secret" = "dXNlcjpzZWNyZXQ=".
Proof. reflexivity. Qed.

Example form_encode_sample : form_encode "a b&c" = "a+b%26c".
Proof. reflexivity. Qed.

Example to_string_number : to_string (JNum 5) = "5".
Proof. reflexivity. Qed.

Example to_string_array :
  to_string (JArr [JNum 1; JNull; JStr "a"]) = "1,,a".
Proof. reflexivity. Qed.

Example spread_overrides :
  assign [("per_page", JNum 10); ("page", JNum 1)]
         [("page", JNum 3); ("status", JStr "publish")]
  = [("per_page", JNum 10); ("page", JNum 3); ("status", JStr "publish")].
Proof. reflexivity. Qed.

(** Every name of [wpMethods] and [wooMethods] has a [case], and every [case]
    label is one of those names. *)
Example cases_cover_methods :
  forallb (fun name => match select (JStr name) cases with
                       | Some _ => true
                       | None => false
                       end) (wpMethods ++ wooMethods) = true
  /\ forallb (fun label => includes (wpMethods ++ wooMethods) (JStr label))
       (map fst cases) = true
  /\ length cases = 119%nat.
Proof. repeat split; vm_compute; reflexivity. Qed.

(** ** Values *)

Lemma truthy_string (s : string) : truthy (JStr s) = true <-> s <> "".
Proof.
  simpl. destruct (String.eqb_spec s ""); simpl; split; intros; congruence.
Qed.

Lemma strict_equals_string (v : JsValue) (s : string) :
  strict_equals v (JStr s) = true <-> v = JStr s.
Proof.
  split.
  - destruct v; simpl; try discriminate.
    intros H. apply String.eqb_eq in H. now subst.
  - intros ->. simpl. apply String.eqb_refl.
Qed.

Lemma strict_equals_string_l (v : JsValue) (s : string) :
  strict_equals (JStr s) v = true <-> v = JStr s.
Proof.
  split.
  - destruct v; simpl; try discriminate.
    intros H. apply String.eqb_eq in H. now subst.
  - intros ->. simpl. apply String.eqb_refl.
Qed.

Lemma truthy_not_nullish (v : JsValue) : truthy v = true -> nullish v = false.
Proof. destruct v; simpl; congruence. Qed.

Lemma member_present (v : JsValue) (k : string) :
  nullish v = false -> member v k = inr (prop v k).
Proof. unfold member. now intros ->. Qed.



Lemma js_or_truthy (a b : JsValue) : truthy a = true -> js_or a b = a.
Proof. unfold js_or. now intros ->. Qed.

Lemma js_or_falsy (a b : JsValue) : truthy a = false -> js_or a b = b.
Proof. unfold js_or. now intros ->. Qed.

(** ** Table look-up *)

Lemma includes_In (names : list string) (m : string) :
  includes names (JStr m) = true <-> In m names.
Proof.
  unfold includes. rewrite existsb_exists. split.
  - intros [x [Hin Heq]]. simpl in Heq. apply String.eqb_eq in Heq. now subst.
  - intros Hin. exists m. split; [assumption|]. simpl. apply String.eqb_refl.
Qed.

Lemma select_In (m : JsValue) (rows : list (string * Case)) (body : Case) :
  select m rows = Some body ->
  exists label, m = JStr label /\ In (label, body) rows.
Proof.
  induction rows as [|[label b] rest IH]; cbn [select]; [discriminate|].
  destruct (strict_equals (JStr label) m) eqn:E.
  - intros H. inversion H; subst. apply strict_equals_string_l in E.
    exists label. split; [assumption | now left].
  - intros H. destruct (IH H) as [l [Hm Hin]].
    exists l. split; [assumption | now right].
Qed.

(** ** Base64 *)

(** The test vectors of RFC 4648. *)
Example base64_rfc4648 :
  map base64 [ ""; "f"; "fo"; "foo"; "foob"; "fooba"; "foobar" ]
  = [ ""; "Zg=="; "Zm8="; "Zm9v"; "Zm9vYg=="; "Zm9vYmE="; "Zm9vYmFy" ].
Proof. reflexivity. Qed.

Lemma digit_value (n : N) :
  (n < 64)%N ->
  base64_value (base64_digit n) = Some n /\ is_pad (base64_digit n) = false.
Proof.
  intros H.
  assert (Hall : forallb (fun k => match base64_value (base64_digit k) with
                                   | Some v => (v =? k)%N
                                   | None => false
                                   end && negb (is_pad (base64_digit k)))
                   (map N.of_nat (seq 0 64)) = true) by (vm_compute; reflexivity).
  rewrite forallb_forall in Hall.
  assert (Hin : In n (map N.of_nat (seq 0 64))).
  { apply in_map_iff. exists (N.to_nat n). split; [apply N2Nat.id|].
    apply in_seq. lia. }
  specialize (Hall _ Hin). apply andb_true_iff in Hall. destruct Hall as [H1 H2].
  destruct (base64_value (base64_digit n)) as [v|]; [|discriminate].
  apply N.eqb_eq in H1. subst v. split; [reflexivity|].
  now destruct (is_pad (base64_digit n)).
Qed.

Lemma string_ind3 (P : string -> Prop) :
  P "" ->
  (forall a, P (String a "")) ->
  (forall a b, P (String a (String b ""))) ->
  (forall a b c rest, P rest -> P (String a (String b (String c rest)))) ->
  forall s, P s.
Proof.
  intros H0 H1 H2 H3.
  assert (H : forall s, P s /\ (forall a, P (String a s))
                        /\ (forall a b, P (String a (String b s)))).
  { induction s as [|c s [IH0 [IH1 IH2]]]; repeat split; auto. }
  intros s. apply H.
Qed.

Ltac Zify.zify_post_hook ::= Z.to_euclidean_division_equations.

(** The token of the [Authorization] header decodes to the bytes it was made
    from. *)
Lemma base64_round_trip (s : string) : base64_decode (base64 s) = Some s.
Proof.
  induction s as [|a|a b|a b c rest IH] using string_ind3.
  - reflexivity.
  - cbn [base64]. cbv zeta.
    pose proof (N_ascii_bounded a) as Ha.
    destruct (@digit_value (N_of_ascii a / 4)) as [V1 P1]; [lia|].
    destruct (@digit_value (N_of_ascii a mod 4 * 16)) as [V2 P2]; [lia|].
    cbn [base64_decode]. rewrite V1, V2. cbv zeta.
    change (is_pad "=") with true. cbn [andb].
    replace (N_of_ascii a / 4 * 4 + N_of_ascii a mod 4 * 16 / 16)%N
      with (N_of_ascii a) by lia.
    now rewrite ascii_N_embedding.
  - cbn [base64]. cbv zeta.
    pose proof (N_ascii_bounded a) as Ha. pose proof (N_ascii_bounded b) as Hb.
    destruct (@digit_value (N_of_ascii a / 4)) as [V1 P1]; [lia|].
    destruct (@digit_value (N_of_ascii a mod 4 * 16 + N_of_ascii b / 16))
      as [V2 P2]; [lia|].
    destruct (@digit_value (N_of_ascii b mod 16 * 4)) as [V3 P3]; [lia|].
    cbn [base64_decode]. rewrite V1, V2, V3, P3. cbv zeta.
    change (is_pad "=") with true. cbn [andb].
    replace (N_of_ascii a / 4 * 4
             + (N_of_ascii a mod 4 * 16 + N_of_ascii b / 16) / 16)%N
      with (N_of_ascii a) by lia.
    replace ((N_of_ascii a mod 4 * 16 + N_of_ascii b / 16) mod 16 * 16
             + N_of_ascii b mod 16 * 4 / 4)%N
      with (N_of_ascii b) by lia.
    now rewrite !ascii_N_embedding.
  - cbn [base64]. cbv zeta.
    pose proof (N_ascii_bounded a) as Ha. pose proof (N_ascii_bounded b) as Hb.
    pose proof (N_ascii_bounded c) as Hc.
    destruct (@digit_value (N_of_ascii a / 4)) as [V1 P1]; [lia|].
    destruct (@digit_value (N_of_ascii a mod 4 * 16 + N_of_ascii b / 16))
      as [V2 P2]; [lia|].
    destruct (@digit_value (N_of_ascii b mod 16 * 4 + N_of_ascii c / 64))
      as [V3 P3]; [lia|].
    destruct (@digit_value (N_of_ascii c mod 64)) as [V4 P4]; [lia|].
    cbn [base64_decode]. rewrite V1, V2, V3, V4, P3, P4, IH. cbv zeta. cbn [andb].
    replace (N_of_ascii a / 4 * 4
             + (N_of_ascii a mod 4 * 16 + N_of_ascii b / 16) / 16)%N
      with (N_of_ascii a) by lia.
    replace ((N_of_ascii a mod 4 * 16 + N_of_ascii b / 16) mod 16 * 16
             + (N_of_ascii b mod 16 * 4 + N_of_ascii c / 64) / 4)%N
      with (N_of_ascii b) by lia.
    replace ((N_of_ascii b mod 16 * 4 + N_of_ascii c / 64) mod 4 * 64
             + N_of_ascii c mod 64)%N
      with (N_of_ascii c) by lia.
    now rewrite !ascii_N_embedding.
Qed.

(** ** Programs *)

Section ProgramLemmas.

Context {A B : Type}.

Lemma all_calls_bind (P : AxiosInstance -> AxiosRequest -> Prop)
  (p : Prog A) (f : A -> Prog B) :
  all_calls P p -> (forall a, all_calls P (f a)) -> all_calls P (bind p f).
Proof.
  intros Hp Hf. induction p as [a|e|c r k IH|ch kd pl k IH]; simpl in *.
  - apply Hf.
  - exact I.
  - destruct Hp as [Hc Hk]. split; [exact Hc|]. intros s. apply IH, Hk.
  - apply IH, Hp.
Qed.

Lemma all_calls_try_catch (P : AxiosInstance -> AxiosRequest -> Prop)
  (p : Prog A) (h : JsError -> Prog A) :
  all_calls P p -> (forall e, all_calls P (h e)) -> all_calls P (try_catch p h).
Proof.
  intros Hp Hh. induction p as [a|e|c r k IH|ch kd pl k IH]; simpl in *.
  - exact I.
  - apply Hh.
  - destruct Hp as [Hc Hk]. split; [exact Hc|]. intros s. apply IH, Hk.
  - apply IH, Hp.
Qed.

Lemma all_calls_lift (P : AxiosInstance -> AxiosRequest -> Prop) (r : Result A) :
  all_calls P (lift r).
Proof. destruct r; exact I. Qed.

Lemma all_calls_weaken (P Q : AxiosInstance -> AxiosRequest -> Prop) (p : Prog A) :
  (forall c r, P c r -> Q c r) -> all_calls P p -> all_calls Q p.
Proof.
  intros HPQ. induction p as [a|e|c r k IH|ch kd pl k IH]; simpl; auto.
  intros [Hc Hk]. split; auto.
Qed.

Lemma fail_stop_bind (p : Prog A) (f : A -> Prog B) :
  fail_stop (fun e => e) p -> (forall a, fail_stop (fun e => e) (f a)) ->
  fail_stop (fun e => e) (bind p f).
Proof.
  intros Hp Hf. induction p as [a|e|c r k IH|ch kd pl k IH]; simpl in *.
  - apply Hf.
  - exact I.
  - destruct Hp as [Hr Hk]. split.
    + intros e. now rewrite Hr.
    + intros x. apply IH, Hk.
  - apply IH, Hp.
Qed.

Lemma fail_stop_try_catch (g : JsError -> JsError) (p : Prog A) :
  fail_stop (fun e => e) p ->
  fail_stop g (try_catch p (fun e => Throw (g e))).
Proof.
  intros Hp. induction p as [a|e|c r k IH|ch kd pl k IH]; simpl in *.
  - exact I.
  - exact I.
  - destruct Hp as [Hr Hk]. split.
    + intros e. now rewrite Hr.
    + intros x. apply IH, Hk.
  - apply IH, Hp.
Qed.

Lemma fail_stop_lift (r : Result A) : fail_stop (fun e => e) (lift r).
Proof. destruct r; exact I. Qed.

End ProgramLemmas.

Lemma all_calls_await (P : AxiosInstance -> AxiosRequest -> Prop)
  (c : AxiosInstance) (r : AxiosRequest) :
  P c r -> all_calls P (await c r).
Proof. intros H. split; [exact H|]. intros []; exact I. Qed.

Lemma fail_stop_await (c : AxiosInstance) (r : AxiosRequest) :
  fail_stop (fun e => e) (await c r).
Proof. split; [reflexivity|]. intros x. exact I. Qed.

(** What a run does with an awaited call. *)
Lemma run_await_bind (U : Upstream) (A : Type) (c : AxiosInstance)
  (r : AxiosRequest) (f : AxiosResponse -> Prog A) (h : JsError -> Prog A)
  (s : store U) :
  run U (try_catch (bind (await c r) f) h) s
  = let '(s1, out) := serve U c r s in
    let '(tr, s2, res) :=
      run U (match out with
             | Resolved x => try_catch (f x) h
             | Rejected e => h e
             end) s1 in
    (Requested c r :: tr, s2, res).
Proof.
  simpl. destruct (serve U c r s) as [s1 [x|e]]; reflexivity.
Qed.

(** Unfolding the rows of the [switch], one goal per [case]. *)
Ltac each_case tac :=
  unfold cases;
  repeat (apply Forall_app; split);
  match goal with |- Forall _ ?table => unfold table end;
  repeat (apply Forall_cons; [ tac | ]);
  apply Forall_nil.

Ltac open_case :=
  intros; cbn [snd fst];
  unfold upsert_product_meta, upsert_order_meta, upsert_customer_meta,
    remove_product_meta, remove_order_meta, remove_customer_meta,
    read_meta, write_meta, remove_meta,
    client_get, client_post, client_put, client_delete;
  cbv zeta.

(** Walks a [case] body down to its calls; [leaf] closes the obligation
    left at each call. *)
Ltac walk_calls leaf :=
  repeat first
    [ exact I
    | apply all_calls_lift
    | apply all_calls_bind; [ | intro ]
    | apply all_calls_await; leaf
    | match goal with
      | |- all_calls _ (if ?b then _ else _) => destruct b
      | |- all_calls _ (Ret _) => exact I
      | |- all_calls _ (Throw _) => exact I
      end ].

Ltac walk_fail_stop :=
  repeat first
    [ exact I
    | apply fail_stop_lift
    | apply fail_stop_await
    | apply fail_stop_bind; [ | intro ]
    | match goal with
      | |- fail_stop _ (if ?b then _ else _) => destruct b
      | |- fail_stop _ (Ret _) => exact I
      | |- fail_stop _ (Throw _) => exact I
      end ].

(** Every [case] sends its calls through the client it is given. *)
Lemma cases_use_their_client :
  Forall (fun row : string * Case =>
            forall client params,
              all_calls (fun c _ => c = client) (snd row client params))
    cases.
Proof. each_case ltac:(open_case; walk_calls ltac:(reflexivity)). Qed.

(** In every [case] a rejected call is thrown on as it is. *)
Lemma cases_fail_stop :
  Forall (fun row : string * Case =>
            forall client params,
              fail_stop (fun e => e) (snd row client params))
    cases.
Proof. each_case ltac:(open_case; walk_fail_stop). Qed.

(** *** The dispatcher as a whole *)

Lemma dispatch_all_calls (P : AxiosInstance -> AxiosRequest -> Prop)
  (env : Env) (method params : JsValue) :
  (forall label body client,
      method = JStr label -> In (label, body) cases ->
      create_client (resolve env params) method = inr client ->
      all_calls P (body client params)) ->
  all_calls P (handleWooCommerceRequest env method params).
Proof.
  intros H. unfold handleWooCommerceRequest.
  apply all_calls_try_catch; [|intros e; exact I].
  apply all_calls_bind; [apply all_calls_lift|]. intros _. cbv zeta.
  destruct (truthy (siteUrl (resolve env params))); [|exact I].
  destruct (create_client (resolve env params) method) as [e|client] eqn:Hc;
    [exact I|]. cbn [lift bind].
  destruct (select method cases) as [body|] eqn:Hs; [|exact I].
  destruct (select_In _ _ Hs) as [label [Hm Hin]].
  eapply H; eauto.
Qed.

Lemma dispatch_fail_stop (env : Env) (method params : JsValue) :
  fail_stop normalise (handleWooCommerceRequest env method params).
Proof.
  unfold handleWooCommerceRequest.
  apply fail_stop_try_catch.
  apply fail_stop_bind; [apply fail_stop_lift|]. intros _. cbv zeta.
  destruct (truthy (siteUrl (resolve env params))); [|exact I].
  apply fail_stop_bind; [apply fail_stop_lift|]. intros client.
  destruct (select method cases) as [body|] eqn:Hs; [|exact I].
  destruct (select_In _ _ Hs) as [label [Hm Hin]].
  pose proof cases_fail_stop as HF. rewrite Forall_forall in HF.
  apply (HF _ Hin).
Qed.

(** ** Meta-data: read, modify, write *)

Lemma strict_equals_undefined (v : JsValue) :
  strict_equals v JUndefined = true <-> v = JUndefined.
Proof. destruct v; simpl; split; congruence. Qed.


Lemma filter_by_key_total (keep : bool) (key : JsValue) (entries : list JsValue) :
  Forall (fun entry => nullish entry = false) entries ->
  filter_by_key keep key entries
  = inr (filter (fun entry => Bool.eqb (strict_equals entry.["key"] key) keep)
           entries).
Proof.
  induction 1 as [|entry rest Hn _ IH]; [reflexivity|].
  cbn [filter_by_key filter]. unfold key_matches.
  rewrite (member_present _ _ Hn), IH. reflexivity.
Qed.

(** [findIndex] returns the position of the first entry with the key, and
    [set_value_at] replaces the value of that entry only. *)
Example update_in_place :
  let entries := [ JObj [ ("key", JStr "x"); ("value", JNum 1) ];
                   JObj [ ("id", JNum 9); ("key", JStr "k"); ("value", JNum 2) ];
                   JObj [ ("key", JStr "k"); ("value", JNum 3) ] ] in
  findIndex (JStr "k") entries = inr (Some 1%nat)
  /\ set_value_at 1 (JStr "v") entries
     = inr [ JObj [ ("key", JStr "x"); ("value", JNum 1) ];
             JObj [ ("id", JNum 9); ("key", JStr "k"); ("value", JStr "v") ];
             JObj [ ("key", JStr "k"); ("value", JNum 3) ] ].
Proof. split; reflexivity. Qed.

(** A store method with the site URL and both store credentials resolved
    reaches its [case] with the query-authenticated client. *)
Lemma dispatch_store_method (env : Env) (m : string) (params : JsValue) (body : Case) :
  includes wpMethods (JStr m) = false ->
  includes wooMethods (JStr m) = true ->
  select (JStr m) cases = Some body ->
  nullish params = false ->
  truthy (siteUrl (resolve env params)) = true ->
  truthy (consumerKey (resolve env params)) = true ->
  truthy (consumerSecret (resolve env params)) = true ->
  handleWooCommerceRequest env (JStr m) params
  = try_catch (body (woocommerce_client (resolve env params)) params)
      (fun error => Throw (normalise error)).
Proof.
  intros Hwp Hwoo Hsel Hp Hs Hk Hc. unfold handleWooCommerceRequest.
  rewrite (member_present _ _ Hp). cbn [lift bind]. cbv zeta.
  rewrite Hs. unfold create_client. rewrite Hwp, Hwoo, Hk, Hc.
  cbn [negb orb lift bind]. rewrite Hsel. reflexivity.
Qed.





(** ** Look-up of the method and resolution of the credentials *)

Lemma includes_false (names : list string) (m : string) :
  ~ In m names -> includes names (JStr m) = false.
Proof.
  intros H. destruct (includes names (JStr m)) eqn:E; [|reflexivity].
  apply includes_In in E. contradiction.
Qed.

(** No name is both a WordPress and a WooCommerce method. *)
Lemma families_disjoint (m : string) :
  In m wooMethods -> includes wpMethods (JStr m) = false.
Proof.
  assert (H : forallb (fun name => negb (includes wpMethods (JStr name))) wooMethods
              = true) by (vm_compute; reflexivity).
  rewrite forallb_forall in H. intros Hin.
  apply H in Hin. now destruct (includes wpMethods (JStr m)).
Qed.

(** C3, as the code has it.  For a method name that is neither a WordPress
    nor a WooCommerce method and for every [params] object, the dispatcher
    makes no upstream call and fails: with [Unknown method: <name>] when the
    site URL resolves, but with the missing-site-URL error when it does
    not, because the site URL is checked before the name is looked up. *)
Theorem unknown_method_after_site_url
  (env : Env) (m : string) (params : JsValue) :
  ~ In m wpMethods -> ~ In m wooMethods -> nullish params = false ->
  handleWooCommerceRequest env (JStr m) params
  = Throw (Error (if truthy (siteUrl (resolve env params))
                  then "Unknown method: " ++ m
                  else site_url_missing)).
Proof.
  intros Hwp Hwoo Hp. unfold handleWooCommerceRequest.
  rewrite (member_present _ _ Hp). cbn [lift bind]. cbv zeta.
  destruct (truthy (siteUrl (resolve env params))); [|reflexivity].
  unfold create_client.
  rewrite (includes_false _ _ Hwp), (includes_false _ _ Hwoo). reflexivity.
Qed.

Lemma unknown_method_after_site_url_witness :
  handleWooCommerceRequest Sample.env (JStr "nonexistent_method") (JObj [])
  = Throw (Error "Unknown method: nonexistent_method").
Proof.
  refine (@unknown_method_after_site_url Sample.env "nonexistent_method"
            (JObj []) _ _ eq_refl).
  - intros H. repeat (destruct H as [H|H]; [discriminate H|]). exact H.
  - intros H. repeat (destruct H as [H|H]; [discriminate H|]). exact H.
Defined.

(** C3 as stated fails: with no site URL in the request or in the
    environment, an unknown method is answered with the missing-site-URL error,
    not with [Unknown method]. *)
Lemma unknown_method_is_not_the_first_check :
  handleWooCommerceRequest Sample.bare (JStr "nonexistent_method") (JObj [])
  = Throw (Error site_url_missing)
  /\ handleWooCommerceRequest Sample.bare (JStr "nonexistent_method") (JObj [])
     <> Throw (Error "Unknown method: nonexistent_method").
Proof.
  split; [reflexivity|]. intros H. discriminate H.
Qed.

(** C5.  Each of the five credential fields resolves to the value of the
    request when the request has one that is present and non-empty, and to the
    process-wide default otherwise. *)
Theorem request_overrides_default
  (env : Env) (params : JsValue)
  (name : string) (field : Credentials -> JsValue) (default : Env -> string) :
  In (name, field, default) credential_fields ->
  field (resolve env params)
  = (if truthy params.[name] then params.[name] else JStr (default env))
  /\ (forall s, params.[name] = JStr s -> s <> "" ->
        field (resolve env params) = JStr s)
  /\ (params.[name] = JUndefined \/ params.[name] = JStr "" ->
        field (resolve env params) = JStr (default env)).
Proof.
  intros Hin.
  assert (Hres : field (resolve env params)
                 = js_or params.[name] (JStr (default env))).
  { repeat (destruct Hin as [Hin|Hin];
            [inversion Hin; subst; reflexivity|]).
    destruct Hin. }
  rewrite Hres. unfold js_or. repeat split.
  - intros s Hs Hne. rewrite Hs. now rewrite (proj2 (truthy_string s) Hne).
  - intros [H|H]; rewrite H; reflexivity.
Qed.

(** The example of the specification: the request says [https://a.com], the
    default is [https://b.com]. *)
Lemma request_overrides_default_witness :
  DEFAULT_SITE_URL Sample.env = "https://b.com"
  /\ siteUrl (resolve Sample.env (JObj [ ("siteUrl", JStr "https://a.com") ]))
     = JStr "https://a.com".
Proof.
  split; [reflexivity|].
  refine (proj1 (proj2 (@request_overrides_default Sample.env
                          (JObj [ ("siteUrl", JStr "https://a.com") ])
                          "siteUrl" siteUrl DEFAULT_SITE_URL _))
            "https://a.com" eq_refl _).
  - left. reflexivity.
  - discriminate.
Defined.

(** *** Store credentials *)

Lemma select_get_products :
  exists body,
    select (JStr "get_products") cases = Some body
    /\ forall client params,
         body client params
         = client_get client "/products" (Some (with_filters (paging params) params)).
Proof. eexists. split; reflexivity. Qed.

(** [get_products] in the dispatcher of [sse-server.ts], once the site URL
    resolves: the call is made whatever the store credentials are. *)
Lemma sse_get_products (env : Env) (params : JsValue) (U : Upstream) (s : store U) :
  nullish params = false ->
  truthy (siteUrl (resolve env params)) = true ->
  fst (fst (run U (SseServer.handleWooCommerceRequest env (JStr "get_products")
                     params) s))
  = [ Requested (SseServer.store_client (resolve env params))
        (mkRequest GET
           ("/products?"
            ++ search_params_to_string
                 (SseServer.page_params params ++ SseServer.filter_params params))
           None None) ].
Proof.
  intros Hp Hs. unfold SseServer.handleWooCommerceRequest.
  rewrite (member_present _ _ Hp). cbn [lift bind]. cbv zeta. rewrite Hs.
  change (select (JStr "get_products") SseServer.cases)
    with (Some (fun (client : AxiosInstance) (params : JsValue) =>
                  client_get client
                    ("/products?"
                     ++ search_params_to_string
                          (SseServer.page_params params
                           ++ SseServer.filter_params params)) None)).
  unfold client_get. rewrite run_await_bind.
  destruct (serve U _ _ s) as [s1 [x|e]]; reflexivity.
Qed.

(** The store credentials in the two dispatchers.  In the dispatcher of
    [index.ts], once the site URL resolves, a WooCommerce method
    - fails with the missing-store-credentials error, before any upstream call,
      when neither the request nor the environment gives a consumer key and a
      consumer secret;
    - gets its client when the request supplies both, and when the environment
      supplies both; [get_products] then issues its call.
    The dispatcher of [sse-server.ts] has no such check: its [get_products]
    is sent with the credentials that resolved, whatever they are. *)
Theorem store_credentials_required
  (env : Env) (m : string) (params : JsValue) :
  In m wooMethods -> nullish params = false ->
  truthy (siteUrl (resolve env params)) = true ->
  (params.["consumerKey"] = JUndefined -> params.["consumerSecret"] = JUndefined ->
   DEFAULT_CONSUMER_KEY env = "" -> DEFAULT_CONSUMER_SECRET env = "" ->
   handleWooCommerceRequest env (JStr m) params
   = Throw (Error store_credentials_missing))
  /\ ((truthy params.["consumerKey"] = true /\ truthy params.["consumerSecret"] = true)
      \/ (DEFAULT_CONSUMER_KEY env <> "" /\ DEFAULT_CONSUMER_SECRET env <> "") ->
      create_client (resolve env params) (JStr m)
      = inr (woocommerce_client (resolve env params))
      /\ forall (U : Upstream) (s : store U),
           fst (fst (run U (handleWooCommerceRequest env (JStr "get_products") params) s))
           = [ Requested (woocommerce_client (resolve env params))
                 (mkRequest GET "/products"
                    (Some (with_filters (paging params) params)) None) ])
  /\ (forall (U : Upstream) (s : store U),
        fst (fst (run U (SseServer.handleWooCommerceRequest env
                           (JStr "get_products") params) s))
        = [ Requested
              {| baseURL := to_string (siteUrl (resolve env params)) ++ "/wp-json/wc/v3";
                 default_params := [];
                 headers := [ ("Content-Type", "application/json") ];
                 auth := Some (consumerKey (resolve env params),
                               consumerSecret (resolve env params)) |}
              (mkRequest GET
                 ("/products?"
                  ++ search_params_to_string
                       (SseServer.page_params params
                        ++ SseServer.filter_params params))
                 None None) ]).
Proof.
  intros Hin Hp Hs.
  cut ((params.["consumerKey"] = JUndefined -> params.["consumerSecret"] = JUndefined ->
        DEFAULT_CONSUMER_KEY env = "" -> DEFAULT_CONSUMER_SECRET env = "" ->
        handleWooCommerceRequest env (JStr m) params
        = Throw (Error store_credentials_missing))
       /\ ((truthy params.["consumerKey"] = true
            /\ truthy params.["consumerSecret"] = true)
           \/ (DEFAULT_CONSUMER_KEY env <> "" /\ DEFAULT_CONSUMER_SECRET env <> "") ->
           create_client (resolve env params) (JStr m)
           = inr (woocommerce_client (resolve env params))
           /\ forall (U : Upstream) (s : store U),
                fst (fst (run U (handleWooCommerceRequest env (JStr "get_products")
                                   params) s))
                = [ Requested (woocommerce_client (resolve env params))
                      (mkRequest GET "/products"
                         (Some (with_filters (paging params) params)) None) ])).
  { intros [H1 H2]. split; [exact H1|]. split; [exact H2|].
    intros U s. now apply sse_get_products. }
  assert (Hwp : includes wpMethods (JStr m) = false).
  { now apply families_disjoint. }
  assert (Hwoo : includes wooMethods (JStr m) = true).
  { now apply includes_In. }
  split.
  - intros Hk Hc Hdk Hdc. unfold handleWooCommerceRequest.
    rewrite (member_present _ _ Hp). cbn [lift bind]. cbv zeta. rewrite Hs.
    unfold create_client. rewrite Hwp, Hwoo.
    unfold resolve. cbn [consumerKey consumerSecret].
    rewrite Hk, Hc, Hdk, Hdc. reflexivity.
  - intros Hsrc.
    assert (Hboth : truthy (consumerKey (resolve env params)) = true
                    /\ truthy (consumerSecret (resolve env params)) = true).
    { unfold resolve, js_or. cbn [consumerKey consumerSecret].
      destruct Hsrc as [[Hk Hc]|[Hk Hc]].
      - now rewrite Hk, Hc.
      - destruct (truthy params.["consumerKey"]) eqn:Ek;
          destruct (truthy params.["consumerSecret"]) eqn:Ec;
          repeat split; try assumption; now apply truthy_string. }
    destruct Hboth as [Hk Hc]. split.
    + unfold create_client. now rewrite Hwp, Hwoo, Hk, Hc.
    + intros U s. destruct select_get_products as [body [Hsel Hbody]].
      rewrite (@dispatch_store_method env "get_products" params body);
        try reflexivity; try assumption.
      rewrite Hbody. unfold client_get. rewrite run_await_bind.
      destruct (serve U _ _ s) as [s1 [x|e]]; reflexivity.
Qed.

Lemma store_credentials_required_witness :
  handleWooCommerceRequest Sample.site_only (JStr "get_products") (JObj [])
  = Throw (Error store_credentials_missing)
  /\ create_client (resolve Sample.env (JObj [])) (JStr "get_products")
     = inr (woocommerce_client (resolve Sample.env (JObj []))).
Proof.
  split.
  - refine (proj1 (@store_credentials_required Sample.site_only "get_products"
                     (JObj []) _ eq_refl eq_refl)
              eq_refl eq_refl eq_refl eq_refl).
    left. reflexivity.
  - refine (proj1 (proj1 (proj2 (@store_credentials_required Sample.env
                                   "get_products" (JObj []) _ eq_refl eq_refl))
                     _)).
    + left. reflexivity.
    + right. split; discriminate.
Defined.

(** C4, on the dispatcher of [sse-server.ts].  With a site URL but no consumer
    key and no consumer secret, in the request or in the environment,
    [get_products] does not fail with the missing-store-credentials error as
    it does in [index.ts]: it is sent upstream, authenticated with two empty
    strings. *)
Lemma sse_server_skips_credential_check :
  fst (fst (run Sample.refusing
              (SseServer.handleWooCommerceRequest Sample.site_only
                 (JStr "get_products") (JObj [])) tt))
  = [ Requested
        {| baseURL := "https://b.com/wp-json/wc/v3";
           default_params := [];
           headers := [ ("Content-Type", "application/json") ];
           auth := Some (JStr "", JStr "") |}
        (mkRequest GET "/products?" None None) ]
  /\ SseServer.handleWooCommerceRequest Sample.site_only (JStr "get_products") (JObj [])
     <> Throw (Error store_credentials_missing)
  /\ handleWooCommerceRequest Sample.site_only (JStr "get_products") (JObj [])
     = Throw (Error store_credentials_missing).
Proof.
  split; [reflexivity|]. split; [|reflexivity]. intros H. discriminate H.
Qed.

(** ** The client of each family *)

Lemma sse_cases_use_their_client :
  Forall (fun row : string * Case =>
            forall client params,
              all_calls (fun c _ => c = client) (snd row client params))
    SseServer.cases.
Proof.
  unfold SseServer.cases.
  repeat (apply Forall_cons;
          [ open_case; unfold SseServer.send_and_broadcast;
            walk_calls ltac:(reflexivity) | ]).
  apply Forall_nil.
Qed.

Lemma sse_dispatch_all_calls (P : AxiosInstance -> AxiosRequest -> Prop)
  (env : Env) (method params : JsValue) :
  (forall label body,
      In (label, body) SseServer.cases ->
      all_calls P (body (SseServer.store_client (resolve env params)) params)) ->
  all_calls P (SseServer.handleWooCommerceRequest env method params).
Proof.
  intros H. unfold SseServer.handleWooCommerceRequest.
  apply all_calls_try_catch; [|intros e; exact I].
  apply all_calls_bind; [apply all_calls_lift|]. intros _. cbv zeta.
  destruct (truthy (siteUrl (resolve env params))); [|exact I].
  destruct (select method SseServer.cases) as [body|] eqn:Hs; [|exact I].
  destruct (select_In _ _ Hs) as [label [Hm Hin]].
  eapply H; eauto.
Qed.

Lemma create_client_family (cr : Credentials) (m : string) (client : AxiosInstance) :
  create_client cr (JStr m) = inr client ->
  (In m wpMethods -> client = wordpress_client cr)
  /\ (In m wooMethods -> client = woocommerce_client cr).
Proof.
  unfold create_client. intros H. split; intros Hin.
  - rewrite (proj2 (includes_In wpMethods m) Hin) in H.
    destruct (negb (truthy (username cr)) || negb (truthy (password cr)));
      inversion H; reflexivity.
  - rewrite (@families_disjoint m Hin) in H.
    rewrite (proj2 (includes_In wooMethods m) Hin) in H.
    destruct (negb (truthy (consumerKey cr)) || negb (truthy (consumerSecret cr)));
      inversion H; reflexivity.
Qed.

(** C6, as the code has it.  In the dispatcher of [index.ts] every call of a
    WordPress method goes to [{siteUrl}/wp-json/wp/v2] with the header
    [Authorization: Basic base64(username:password)], a token that decodes
    back to [username:password], and every call of a
    WooCommerce method goes to [{siteUrl}/wp-json/wc/v3] with the query
    parameters [consumer_key] and [consumer_secret] and neither an
    [Authorization] header nor a Basic [auth] option.  In the dispatcher of
    [sse-server.ts] every call goes to [{siteUrl}/wp-json/wc/v3] with HTTP Basic
    authentication, the consumer key as user name and the consumer secret as
    password, and no credential in the query. *)
Theorem clients_by_family (env : Env) (m : string) (params : JsValue) :
  let cr := resolve env params in
  (In m wpMethods ->
   all_calls
     (fun c _ =>
        baseURL c = to_string (siteUrl cr) ++ "/wp-json/wp/v2"
        /\ (exists token,
              In ("Authorization", "Basic " ++ token) (headers c)
              /\ token = base64 (to_string (username cr) ++ ":"
                                 ++ to_string (password cr))
              /\ base64_decode token
                 = Some (to_string (username cr) ++ ":"
                         ++ to_string (password cr)))
        /\ default_params c = [] /\ auth c = None)
     (handleWooCommerceRequest env (JStr m) params))
  /\ (In m wooMethods ->
      all_calls
        (fun c _ =>
           baseURL c = to_string (siteUrl cr) ++ "/wp-json/wc/v3"
           /\ default_params c
              = [ ("consumer_key", consumerKey cr);
                  ("consumer_secret", consumerSecret cr) ]
           /\ (forall v, ~ In ("Authorization", v) (headers c))
           /\ auth c = None)
        (handleWooCommerceRequest env (JStr m) params))
  /\ all_calls
       (fun c _ =>
          baseURL c = to_string (siteUrl cr) ++ "/wp-json/wc/v3"
          /\ auth c = Some (consumerKey cr, consumerSecret cr)
          /\ default_params c = [])
       (SseServer.handleWooCommerceRequest env (JStr m) params).
Proof.
  intros cr. pose proof cases_use_their_client as HF.
  rewrite Forall_forall in HF. repeat split.
  - intros Hin. apply dispatch_all_calls. intros label body client Hm Hrow Hc.
    inversion Hm; subst label.
    apply (proj1 (@create_client_family _ _ _ Hc)) in Hin. subst client.
    eapply all_calls_weaken; [|apply (HF _ Hrow)].
    intros c _ ->. cbn [wordpress_client baseURL headers default_params auth].
    split; [reflexivity|]. split; [|split; reflexivity].
    eexists. split; [now left|]. split; [reflexivity|].
    apply base64_round_trip.
  - intros Hin. apply dispatch_all_calls. intros label body client Hm Hrow Hc.
    inversion Hm; subst label.
    apply (proj2 (@create_client_family _ _ _ Hc)) in Hin. subst client.
    eapply all_calls_weaken; [|apply (HF _ Hrow)].
    intros c _ ->. cbn. repeat split.
    intros v [H|[]]. discriminate H.
  - apply sse_dispatch_all_calls. intros label body Hrow.
    pose proof sse_cases_use_their_client as HS. rewrite Forall_forall in HS.
    eapply all_calls_weaken; [|apply (HS _ Hrow)].
    intros c _ ->. cbn. repeat split.
Qed.

(** [get_posts] and [get_products] against the sample environment: the calls
    that the statement speaks about are made. *)
Lemma clients_by_family_witness :
  (all_calls
     (fun c _ =>
        baseURL c = "https://b.com/wp-json/wp/v2"
        /\ (exists token,
              In ("Authorization", "Basic " ++ token) (headers c)
              /\ token = "YWRtaW46aHVudGVyMg=="
              /\ base64_decode token = Some "admin:hunter2")
        /\ default_params c = [] /\ auth c = None)
     (handleWooCommerceRequest Sample.env (JStr "get_posts") (JObj []))
   /\ fst (fst (run Sample.refusing
                  (handleWooCommerceRequest Sample.env (JStr "get_posts") (JObj []))
                  tt))
      = [ Requested (wordpress_client (resolve Sample.env (JObj [])))
            (mkRequest GET "/posts"
               (Some [ ("per_page", JNum 10); ("page", JNum 1) ]) None) ])
  /\ all_calls
       (fun c _ =>
          baseURL c = "https://b.com/wp-json/wc/v3"
          /\ default_params c
             = [ ("consumer_key", JStr "ck_1"); ("consumer_secret", JStr "cs_1") ]
          /\ (forall v, ~ In ("Authorization", v) (headers c))
          /\ auth c = None)
       (handleWooCommerceRequest Sample.env (JStr "get_products") (JObj [])).
Proof.
  pose proof (@clients_by_family Sample.env "get_posts" (JObj [])) as Hwp.
  pose proof (@clients_by_family Sample.env "get_products" (JObj [])) as Hwoo.
  cbv zeta in Hwp, Hwoo.
  split; [split|].
  - apply (proj1 Hwp). right. left. reflexivity.
  - reflexivity.
  - apply (proj1 (proj2 Hwoo)). left. reflexivity.
Defined.

(** C6 as stated fails on the dispatcher of [sse-server.ts]: the store
    credentials travel as HTTP Basic authentication, and the query carries no
    [consumer_key]. *)
Lemma sse_server_uses_basic_auth :
  fst (fst (run Sample.refusing
              (SseServer.handleWooCommerceRequest Sample.env
                 (JStr "get_products") (JObj [])) tt))
  = [ Requested
        {| baseURL := "https://b.com/wp-json/wc/v3";
           default_params := [];
           headers := [ ("Content-Type", "application/json") ];
           auth := Some (JStr "ck_1", JStr "cs_1") |}
        (mkRequest GET "/products?" None None) ]
  /\ ~ all_calls
         (fun c _ => auth c = None
                     /\ lookup "consumer_key" (default_params c) <> None)
         (SseServer.handleWooCommerceRequest Sample.env (JStr "get_products")
            (JObj [])).
Proof.
  split; [reflexivity|]. intros [[H _] _]. discriminate H.
Qed.

(** ** Queries of the list operations *)

Import Families.

Lemma lookup_set_field_same (k : string) (v : JsValue) (fs : list (string * JsValue)) :
  lookup k (set_field k v fs) = Some v.
Proof.
  induction fs as [|[k' v'] rest IH]; cbn [set_field lookup].
  - now rewrite String.eqb_refl.
  - destruct (k' =? k) eqn:E; cbn [lookup]; rewrite E; auto.
Qed.

Lemma lookup_set_field_other (k k' : string) (v : JsValue)
  (fs : list (string * JsValue)) :
  k' <> k -> lookup k (set_field k' v fs) = lookup k fs.
Proof.
  intros Hne. apply String.eqb_neq in Hne.
  induction fs as [|[k2 v2] rest IH]; cbn [set_field lookup].
  - now rewrite Hne.
  - destruct (k2 =? k') eqn:E; cbn [lookup].
    + apply String.eqb_eq in E. subst k2. now rewrite Hne.
    + destruct (k2 =? k); auto.
Qed.

Lemma lookup_assign_absent (k : string) (extra fs : list (string * JsValue)) :
  lookup k extra = None -> lookup k (assign fs extra) = lookup k fs.
Proof.
  unfold assign. revert fs.
  induction extra as [|[k1 v1] rest IH]; intros fs H; cbn [fold_left fst snd].
  - reflexivity.
  - cbn [lookup] in H. destruct (k1 =? k) eqn:E; [discriminate|].
    rewrite (IH _ H). apply lookup_set_field_other. now apply String.eqb_neq.
Qed.

Lemma lookup_not_in (k : string) (fs : list (string * JsValue)) :
  ~ In k (map fst fs) -> lookup k fs = None.
Proof.
  induction fs as [|[k1 v1] rest IH]; cbn [lookup map fst]; [reflexivity|].
  intros H. destruct (k1 =? k) eqn:E.
  - apply String.eqb_eq in E. subst. exfalso. apply H. now left.
  - apply IH. intros Hin. apply H. now right.
Qed.

Lemma lookup_assign_present (k : string) (v : JsValue)
  (extra fs : list (string * JsValue)) :
  NoDup (map fst extra) -> lookup k extra = Some v ->
  lookup k (assign fs extra) = Some v.
Proof.
  unfold assign. revert fs.
  induction extra as [|[k1 v1] rest IH]; intros fs Hnd H; [discriminate|].
  cbn [fold_left fst snd]. cbn [lookup] in H. cbn [map fst] in Hnd.
  inversion Hnd as [|? ? Hnotin Hrest]; subst.
  destruct (k1 =? k) eqn:E.
  - apply String.eqb_eq in E. subst k1. inversion H; subst v1.
    pose proof (lookup_assign_absent k rest (set_field k v fs)
                  (lookup_not_in _ _ Hnotin)) as Ha.
    unfold assign in Ha. rewrite Ha. apply lookup_set_field_same.
  - now apply IH.
Qed.

Lemma lookup_app (k : string) (a b : list (string * JsValue)) :
  lookup k (a ++ b) = match lookup k a with
                      | Some v => Some v
                      | None => lookup k b
                      end.
Proof.
  induction a as [|[k1 v1] rest IH]; cbn [app lookup]; [reflexivity|].
  now destruct (k1 =? k).
Qed.







(** ** The [force] flag of the deletions *)

Ltac force_leaf :=
  split;
  [ intros Hv;
    first [ discriminate Hv
          | left; split; reflexivity
          | right; split; reflexivity ]
  | intros Hin;
    first [ reflexivity | vm_compute in Hin; discriminate Hin ] ].

Lemma cases_force_rule :
  Forall (fun row : string * Case =>
            forall client params,
              all_calls (fun _ r => force_rule (fst row) params r)
                (snd row client params))
    cases.
Proof. each_case ltac:(open_case; cbn [fst]; walk_calls force_leaf). Qed.

Lemma deletes_disjoint (m : string) :
  In m forced_deletes -> includes soft_deletes (JStr m) = false.
Proof.
  assert (H : forallb (fun name => negb (includes soft_deletes (JStr name)))
                forced_deletes = true) by (vm_compute; reflexivity).
  rewrite forallb_forall in H. intros Hin.
  apply H in Hin. now destruct (includes soft_deletes (JStr m)).
Qed.

Lemma includes_app (a b : list string) (m : JsValue) :
  includes (a ++ b) m = includes a m || includes b m.
Proof. unfold includes. apply existsb_app. Qed.

(** C10, as the code has it.  In every deletion of a shipping zone, shipping
    zone method, tax class, tax rate, coupon, order note, order refund, product
    variation, attribute, attribute term, category, tag, review or post meta,
    the [DELETE] request carries [force = params.force || true]: the value of
    [params.force] when that is truthy, and [true] otherwise.  So an absent
    [force] and [force: false] both give [force=true], as does [force: true];
    a truthy value that is not [true] is passed on as it is.  [delete_product],
    [delete_order] and [delete_customer] carry [force = params.force || false],
    and no other operation sends a [DELETE]. *)
Theorem delete_force_defaults (env : Env) (m : string) (params : JsValue) :
  let force := params.["force"] in
  (In m forced_deletes ->
   all_calls
     (fun _ r => verb r = DELETE
                 /\ query r = Some [ ("force", if truthy force then force
                                               else JBool true) ]
                 /\ (force = JUndefined \/ (exists b, force = JBool b) ->
                     query r = Some [ ("force", JBool true) ]))
     (handleWooCommerceRequest env (JStr m) params))
  /\ (In m soft_deletes ->
      all_calls
        (fun _ r => verb r = DELETE
                    /\ query r = Some [ ("force", if truthy force then force
                                                  else JBool false) ]
                    /\ (force = JUndefined \/ force = JBool false ->
                        query r = Some [ ("force", JBool false) ]))
        (handleWooCommerceRequest env (JStr m) params))
  /\ (~ In m forced_deletes -> ~ In m soft_deletes ->
      all_calls (fun _ r => verb r <> DELETE)
        (handleWooCommerceRequest env (JStr m) params)).
Proof.
  intros force. pose proof cases_force_rule as HF. rewrite Forall_forall in HF.
  repeat split.
  - intros Hin. apply dispatch_all_calls.
    intros label body client Hm Hrow _. inversion Hm; subst label.
    eapply all_calls_weaken; [|apply (HF _ Hrow)].
    cbn [fst]. intros _ r [Hq Hv].
    assert (Hd : verb r = DELETE).
    { apply Hv. rewrite includes_app.
      now rewrite (proj2 (includes_In forced_deletes m) Hin). }
    destruct (Hq Hd) as [[_ Hforce]|[Hsoft _]].
    + repeat split; [assumption|exact Hforce|].
      intros Hb. rewrite Hforce. fold force.
      destruct Hb as [->|[[] ->]]; reflexivity.
    + rewrite (@deletes_disjoint m Hin) in Hsoft. discriminate.
  - intros Hin. apply dispatch_all_calls.
    intros label body client Hm Hrow _. inversion Hm; subst label.
    eapply all_calls_weaken; [|apply (HF _ Hrow)].
    cbn [fst]. intros _ r [Hq Hv].
    assert (Hd : verb r = DELETE).
    { apply Hv. rewrite includes_app.
      rewrite (proj2 (includes_In soft_deletes m) Hin). apply orb_true_r. }
    destruct (Hq Hd) as [[Hforced _]|[_ Hforce]].
    + apply includes_In in Hforced.
      pose proof (@deletes_disjoint m Hforced) as Hno.
      rewrite (proj2 (includes_In soft_deletes m) Hin) in Hno. discriminate.
    + repeat split; [assumption|exact Hforce|].
      intros Hb. rewrite Hforce. fold force.
      destruct Hb as [->| ->]; reflexivity.
  - intros Hnf Hns. apply dispatch_all_calls.
    intros label body client Hm Hrow _. inversion Hm; subst label.
    eapply all_calls_weaken; [|apply (HF _ Hrow)].
    cbn [fst]. intros _ r [Hq _] Hd.
    destruct (Hq Hd) as [[H _]|[H _]]; apply includes_In in H; contradiction.
Qed.

(** Each of the fourteen deletions, on a request that names every id and says
    [force: false]: the [DELETE] is sent with [force=true]. *)
Lemma delete_force_defaults_witness :
  all_calls
    (fun _ r => verb r = DELETE
                /\ query r = Some [ ("force", JBool true) ])
    (handleWooCommerceRequest Sample.env (JStr "delete_coupon") Sample.all_ids)
  /\ Forall
       (fun m =>
          exists client path,
            fst (fst (run Sample.refusing
                        (handleWooCommerceRequest Sample.env (JStr m) Sample.all_ids)
                        tt))
            = [ Requested client
                  (mkRequest DELETE path (Some [ ("force", JBool true) ]) None) ])
       forced_deletes.
Proof.
  split.
  - pose proof (proj1 (@delete_force_defaults Sample.env "delete_coupon"
                         Sample.all_ids)) as H.
    cbv zeta in H.
    eapply all_calls_weaken; [|apply H].
    + intros _ r [Hv [_ Hq]]. split; [exact Hv|].
      apply Hq. right. exists false. reflexivity.
    + do 4 right. left. reflexivity.
  - repeat (apply Forall_cons; [do 2 eexists; reflexivity|]). apply Forall_nil.
Defined.

(** C10 as stated fails: a truthy [force] that is not [true] reaches the
    upstream as it is. *)
Lemma truthy_force_is_passed_on :
  fst (fst (run Sample.refusing
              (handleWooCommerceRequest Sample.env (JStr "delete_coupon")
                 (JObj [ ("couponId", JNum 7); ("force", JStr "no") ])) tt))
  = [ Requested
        (woocommerce_client
           (resolve Sample.env (JObj [ ("couponId", JNum 7); ("force", JStr "no") ])))
        (mkRequest DELETE "/coupons/7" (Some [ ("force", JStr "no") ]) None) ]
  /\ ~ all_calls
         (fun _ r => query r = Some [ ("force", JBool true) ])
         (handleWooCommerceRequest Sample.env (JStr "delete_coupon")
            (JObj [ ("couponId", JNum 7); ("force", JStr "no") ])).
Proof.
  split; [reflexivity|]. intros [H _]. discriminate H.
Qed.

(** ** Upstream failures *)

Lemma is_axios_error_iff (e : JsError) :
  isAxiosError e = true <-> response e <> JUndefined.
Proof.
  unfold isAxiosError. destruct (strict_equals (response e) JUndefined) eqn:E.
  - apply strict_equals_undefined in E. split; [discriminate|congruence].
  - split; [|reflexivity]. intros _ H. rewrite H in E. discriminate.
Qed.

(** A program that stops at a rejected call, run against any upstream: when
    its first call is rejected, that call is the only one of the run. *)
Lemma run_rejected_first (U : Upstream) (A : Type) (h : JsError -> JsError)
  (c : AxiosInstance) (r : AxiosRequest) (k : Settled -> Prog A)
  (s s1 : store U) (e : JsError) :
  fail_stop h (Call c r k) ->
  serve U c r s = (s1, Rejected e) ->
  run U (Call c r k) s = ([Requested c r], s1, inl (h e)).
Proof.
  intros [Hr _] Hs. cbn [run]. rewrite Hs, Hr. reflexivity.
Qed.

(** C9, as the code has it.  At every upstream call of a dispatch, a rejection
    ends the dispatch at once, so that nothing is called again, with the
    failure [normalise] makes of it:
    - a failure that carries no response is thrown on unchanged, with the raw
      transport message;
    - a failure that carries a response whose body has a truthy [message]
      becomes an error whose message is ["API error: "] followed by that
      message;
    - a failure that carries a response without such a field becomes an error
      whose message is ["API error: "] followed by the raw transport
      message. *)
Theorem upstream_failure_is_normalised (env : Env) (method params : JsValue) :
  fail_stop normalise (handleWooCommerceRequest env method params)
  /\ (forall e, response e = JUndefined -> normalise e = e)
  /\ (forall e msg,
        response e <> JUndefined ->
        opt_member (opt_member (response e) "data") "message" = msg ->
        truthy msg = true ->
        normalise e = Error ("API error: " ++ to_string msg))
  /\ (forall e,
        response e <> JUndefined ->
        truthy (opt_member (opt_member (response e) "data") "message") = false ->
        normalise e = Error ("API error: " ++ message e)).
Proof.
  split; [apply dispatch_fail_stop|]. repeat split.
  - intros e He. unfold normalise, isAxiosError. rewrite He. reflexivity.
  - intros e msg He Hm Ht. unfold normalise.
    rewrite (proj2 (is_axios_error_iff e) He). unfold api_error.
    rewrite Hm. now rewrite (js_or_truthy _ _ Ht).
  - intros e He Ht. unfold normalise.
    rewrite (proj2 (is_axios_error_iff e) He). unfold api_error.
    now rewrite (js_or_falsy _ _ Ht).
Qed.

(** The sample 404, whose body says [Invalid ID.], and a connection that was
    refused before any response. *)
Lemma upstream_failure_is_normalised_witness :
  normalise Sample.not_found = Error "API error: Invalid ID."
  /\ normalise (Error "connect ECONNREFUSED 127.0.0.1:443")
     = Error "connect ECONNREFUSED 127.0.0.1:443"
  /\ normalise (mkError "Request failed with status code 502"
                  (JObj [ ("status", JNum 502); ("data", JStr "Bad Gateway") ]))
     = Error "API error: Request failed with status code 502".
Proof.
  pose proof (proj2 (@upstream_failure_is_normalised Sample.env
                       (JStr "get_products") (JObj []))) as [H1 [H2 H3]].
  split; [|split].
  - apply (H2 Sample.not_found (JStr "Invalid ID.")).
    + discriminate.
    + reflexivity.
    + reflexivity.
  - apply H1. reflexivity.
  - apply (H3 (mkError "Request failed with status code 502"
                 (JObj [ ("status", JNum 502); ("data", JStr "Bad Gateway") ]))).
    + discriminate.
    + reflexivity.
Defined.

(** C9 as stated fails: the message of the dispatch error is not the [message]
    field of the upstream body, it is that field after ["API error: "]. *)
Lemma upstream_message_is_prefixed :
  run Sample.refusing
    (handleWooCommerceRequest Sample.env (JStr "get_products") (JObj [])) tt
  = ([ Requested (woocommerce_client (resolve Sample.env (JObj [])))
         (mkRequest GET "/products"
            (Some [ ("per_page", JNum 10); ("page", JNum 1) ]) None) ],
     tt, inl (Error "API error: Invalid ID."))
  /\ opt_member (opt_member (response Sample.not_found) "data") "message"
     = JStr "Invalid ID."
  /\ "API error: Invalid ID." <> "Invalid ID.".
Proof.
  repeat split. discriminate.
Qed.

(** ** The JSON-RPC envelope *)

Lemma check_version_ok (request : JsValue) :
  member request "jsonrpc" = inr (JStr "2.0") -> check_version request = inr tt.
Proof. unfold check_version. now intros ->. Qed.


(** Running [try { result = await p; respond(ok(result)) } catch (error)
    { respond(failed(error)) }]. *)
Lemma run_respond (U : Upstream) (A B : Type) (p : Prog A)
  (ok : A -> B) (failed : JsError -> B) (s : store U) :
  run U (try_catch (bind p (fun result => Ret (ok result)))
           (fun error => Ret (failed error))) s
  = let '(tr, s', res) := run U p s in
    (tr, s', inr (match res with
                  | inl e => failed e
                  | inr result => ok result
                  end)).
Proof.
  revert s. induction p as [a|e|c r k IH|ch kd pl k IH]; intros s; cbn.
  - reflexivity.
  - reflexivity.
  - destruct (serve U c r s) as [s1 out]. rewrite IH.
    now destruct (run U (k out) s1) as [[tr s2] res].
  - rewrite IH. now destruct (run U k s) as [[tr s1] res].
Qed.



(** ** Parameter checks happen before any call *)

Import Validation.

(** Splits on the checks of a row, in their order. *)
Ltac split_guards params gs :=
  lazymatch gs with
  | (Present ?f, _) :: ?rest =>
      destruct (truthy params.[f]); [ split_guards params rest | ]
  | (Defined ?f, _) :: ?rest =>
      destruct (strict_equals params.[f] JUndefined); [ | split_guards params rest ]
  | _ => idtac
  end.

Ltac check_row :=
  let client := fresh "client" in
  let params := fresh "params" in
  intros client params; cbn [snd fst];
  lazymatch goal with
  | |- context [guards_of ?label] =>
      let gs := eval vm_compute in (guards_of label) in
      change (guards_of label) with gs;
      unfold upsert_product_meta, upsert_order_meta, upsert_customer_meta,
        remove_product_meta, remove_order_meta, remove_customer_meta;
      cbv beta iota delta [first_failure holds];
      split_guards params gs;
      cbv beta iota delta [negb];
      first [ reflexivity | eexists; eexists; reflexivity ]
  end.

(** Each [case] is opened by the checks of its row: when one fails the body
    is the [throw] of its message, and when all pass the body starts with a
    call through the client. *)
Lemma cases_validate :
  Forall (fun row : string * Case =>
            forall client params,
              match first_failure params (guards_of (fst row)) with
              | Some msg => snd row client params = Throw (Error msg)
              | None => exists r k, snd row client params = Call client r k
              end)
    cases.
Proof. each_case check_row. Qed.

Lemma normalise_plain (msg : string) : normalise (Error msg) = Error msg.
Proof. reflexivity. Qed.

(** A method that has a client has a [case]. *)
Lemma client_has_case (cr : Credentials) (method : JsValue) (client : AxiosInstance) :
  create_client cr method = inr client ->
  exists label body, method = JStr label /\ In (label, body) cases
                     /\ select method cases = Some body.
Proof.
  intros Hc.
  assert (Hm : includes (wpMethods ++ wooMethods) method = true).
  { unfold create_client in Hc. unfold includes in *. rewrite existsb_app.
    destruct (existsb _ wpMethods); [reflexivity|].
    destruct (existsb _ wooMethods); [reflexivity|discriminate]. }
  unfold includes in Hm. apply existsb_exists in Hm. destruct Hm as [m [Hin Heq]].
  apply strict_equals_string_l in Heq. subst method.
  pose proof (proj1 cases_cover_methods) as Hall.
  rewrite forallb_forall in Hall. specialize (Hall m Hin).
  destruct (select (JStr m) cases) as [body|] eqn:Hs; [|discriminate].
  destruct (select_In _ _ Hs) as [label [Hl Hin']]. inversion Hl; subst label.
  now exists m, body.
Qed.

Lemma failed_check_no_call (env : Env) (m : string) (params : JsValue) (msg : string) :
  first_failure params (guards_of m) = Some msg ->
  all_calls (fun _ _ => False) (handleWooCommerceRequest env (JStr m) params).
Proof.
  intros Hfail. pose proof cases_validate as HV. rewrite Forall_forall in HV.
  apply dispatch_all_calls. intros label body client Hm Hin _.
  inversion Hm; subst label. specialize (HV _ Hin client params).
  cbn [fst snd] in HV. rewrite Hfail in HV. rewrite HV. exact I.
Qed.

Lemma first_failure_of_failed_guard (params : JsValue) (gs : list (Guard * string))
  (g : Guard) (msg : string) :
  In (g, msg) gs -> holds params g = false ->
  exists msg', first_failure params gs = Some msg'.
Proof.
  intros Hin Hg. induction gs as [|[g1 m1] rest IH]; [contradiction|].
  cbn [first_failure]. destruct (holds params g1) eqn:E; [|now eexists].
  destruct Hin as [Heq|Hin]; [|now apply IH].
  inversion Heq; subst. congruence.
Qed.

(** X1.  A request that fails a parameter check of its method never reaches
    the upstream: whatever the credentials, the dispatch makes no call; and
    when the site URL and the credentials of the method's family resolve, it
    fails with the message of the first check that fails, unprefixed. *)
Theorem invalid_request_makes_no_call
  (env : Env) (m : string) (params : JsValue) (msg : string) :
  first_failure params (guards_of m) = Some msg ->
  all_calls (fun _ _ => False) (handleWooCommerceRequest env (JStr m) params)
  /\ (forall client,
         nullish params = false ->
         truthy (siteUrl (resolve env params)) = true ->
         create_client (resolve env params) (JStr m) = inr client ->
         handleWooCommerceRequest env (JStr m) params = Throw (Error msg)).
Proof.
  intros Hfail. pose proof cases_validate as HV. rewrite Forall_forall in HV.
  split.
  - exact (failed_check_no_call env m params Hfail).
  - intros client Hp Hs Hc. unfold handleWooCommerceRequest.
    rewrite (member_present _ _ Hp). cbn [lift bind]. cbv zeta.
    rewrite Hs, Hc. cbn [lift bind].
    destruct (@client_has_case _ _ _ Hc) as [label [body [Hl [Hin Hsel]]]].
    inversion Hl; subst label. rewrite Hsel.
    specialize (HV _ Hin client params). cbn [fst snd] in HV.
    rewrite Hfail in HV. rewrite HV. reflexivity.
Qed.

Lemma invalid_request_makes_no_call_witness :
  first_failure (JObj [ ("productData", JObj []) ]) (guards_of "update_product")
  = Some "Product ID is required for updating a product"
  /\ all_calls (fun _ _ => False)
       (handleWooCommerceRequest Sample.env (JStr "update_product")
          (JObj [ ("productData", JObj []) ]))
  /\ handleWooCommerceRequest Sample.env (JStr "update_product")
       (JObj [ ("productData", JObj []) ])
     = Throw (Error "Product ID is required for updating a product").
Proof.
  split; [reflexivity|].
  pose proof (@invalid_request_makes_no_call Sample.env "update_product"
                (JObj [ ("productData", JObj []) ])
                "Product ID is required for updating a product" eq_refl) as [H1 H2].
  split; [exact H1|].
  apply (H2 (woocommerce_client (resolve Sample.env (JObj [ ("productData", JObj []) ]))));
    reflexivity.
Defined.



(** ** What [tools/list] announces and what the dispatcher does *)

Import Shape.

Lemma incl_by_check (a b : list string) :
  forallb (fun x => existsb (String.eqb x) b) a = true -> incl a b.
Proof.
  intros H x Hin. rewrite forallb_forall in H. specialize (H x Hin).
  apply existsb_exists in H. destruct H as [y [Hy Heq]].
  apply String.eqb_eq in Heq. now subst.
Qed.

(** X3.  The tools that [tools/list] announces are the methods the
    dispatcher knows: a name is listed exactly when it is a content method or
    a store method, that is, exactly when the [switch] has a [case] for it. *)
Theorem listed_tools_are_the_methods (m : string) :
  (In m (tool_names Capabilities.handleListTools)
   <-> In m wpMethods \/ In m wooMethods)
  /\ (In m (tool_names Capabilities.handleListTools)
      <-> exists body, select (JStr m) cases = Some body).
Proof.
  assert (H1 : incl (tool_names Capabilities.handleListTools) (wpMethods ++ wooMethods)).
  { apply incl_by_check. vm_compute. reflexivity. }
  assert (H2 : incl (wpMethods ++ wooMethods) (tool_names Capabilities.handleListTools)).
  { apply incl_by_check. vm_compute. reflexivity. }
  assert (H3 : In m (tool_names Capabilities.handleListTools)
               <-> In m wpMethods \/ In m wooMethods).
  { rewrite <- in_app_iff. split; [apply H1 | apply H2]. }
  split; [exact H3|]. rewrite H3, <- in_app_iff. split.
  - intros Hin. pose proof (proj1 cases_cover_methods) as Hall.
    rewrite forallb_forall in Hall. specialize (Hall m Hin).
    destruct (select (JStr m) cases) as [body|]; [now exists body | discriminate].
  - intros [body Hs]. destruct (select_In _ _ Hs) as [label [Hl Hin]].
    inversion Hl; subst label.
    pose proof (proj1 (proj2 cases_cover_methods)) as Hall.
    rewrite forallb_forall in Hall.
    specialize (Hall m (in_map fst _ _ Hin)). now apply includes_In.
Qed.

Lemma required_by_schema_pairs (tools : list JsValue) (name f : string) :
  In f (required_by_schema (JObj [ ("tools", JArr tools) ]) name) ->
  In (name, f) (required_pairs tools).
Proof.
  unfold required_by_schema, schema_of. cbn [prop lookup String.eqb Ascii.eqb Bool.eqb].
  destruct (find _ tools) as [tool|] eqn:Hf; [|contradiction].
  apply find_some in Hf. destruct Hf as [Hin Hname].
  apply strict_equals_string in Hname. intros Hreq.
  unfold required_pairs. apply in_flat_map. exists tool. split; [assumption|].
  rewrite Hname. cbn [to_string]. now apply in_map.
Qed.

(** X4.  A parameter that the input schema of a tool declares [required] is
    checked by the dispatcher before any call: a request for that tool in
    which the parameter is falsy (absent, [null], [0], [""] or [false]) makes
    no upstream call. *)
Theorem schema_required_is_enforced
  (env : Env) (name f : string) (params : JsValue) :
  In f (required_by_schema Capabilities.handleListTools name) ->
  truthy params.[f] = false ->
  all_calls (fun _ _ => False) (handleWooCommerceRequest env (JStr name) params).
Proof.
  intros Hreq Hfalsy.
  apply required_by_schema_pairs in Hreq.
  assert (Hall : forallb (fun p => existsb (fun g => match fst g with
                                                    | Present f' => f' =? snd p
                                                    | Defined _ => false
                                                    end)
                                      (guards_of (fst p)))
                   (required_pairs
                      (map Capabilities.describe
                         (own_entries (Capabilities.MCP_CAPABILITIES).["tools"])))
                 = true) by (vm_compute; reflexivity).
  rewrite forallb_forall in Hall. specialize (Hall _ Hreq). cbn [fst snd] in Hall.
  apply existsb_exists in Hall. destruct Hall as [[g msg] [Hin Hg]].
  cbn [fst] in Hg. destruct g as [f'|f']; [|discriminate].
  apply String.eqb_eq in Hg. subst f'.
  destruct (@first_failure_of_failed_guard params _ _ _ Hin Hfalsy) as [msg' Hfail].
  exact (failed_check_no_call env name params Hfail).
Qed.

Lemma schema_required_is_enforced_witness :
  In "orderData" (required_by_schema Capabilities.handleListTools "update_order")
  /\ all_calls (fun _ _ => False)
       (handleWooCommerceRequest Sample.env (JStr "update_order")
          (JObj [ ("orderId", JNum 7); ("orderData", JStr "") ])).
Proof.
  assert (H : In "orderData"
                (required_by_schema Capabilities.handleListTools "update_order")).
  { vm_compute. right. left. reflexivity. }
  split; [exact H|].
  apply (@schema_required_is_enforced Sample.env "update_order" "orderData"
           (JObj [ ("orderId", JNum 7); ("orderData", JStr "") ]) H).
  reflexivity.
Defined.

(** *** Declared parameters that change nothing *)

Lemma prop_set_field_other (k k' : string) (v : JsValue) (fs : list (string * JsValue)) :
  k' <> k -> (JObj (set_field k' v fs)).[k] = (JObj fs).[k].
Proof. intros H. cbn [prop]. now rewrite (lookup_set_field_other v fs H). Qed.

Lemma unused_of_In (name k : string) :
  In (name, k) unused_parameters -> In k (unused_of name).
Proof.
  intros H. unfold unused_of. apply in_map_iff. exists (name, k).
  split; [reflexivity|]. apply filter_In. split; [assumption|].
  cbn [fst]. apply String.eqb_refl.
Qed.

Ltac frame_row :=
  let k := fresh "k" in
  let Hin := fresh "Hin" in
  intros k Hin client fs v; cbn [fst snd] in *;
  lazymatch type of Hin with
  | In _ (unused_of ?label) =>
      let ks := eval vm_compute in (unused_of label) in
      change (unused_of label) with ks in Hin
  end;
  cbn [In] in Hin;
  repeat (destruct Hin as [Hin|Hin]; [subst k|]);
  [ try (unfold paging, with_filters;
         rewrite ?prop_set_field_other by discriminate; reflexivity) ..
  | contradiction ].

Lemma cases_ignore_unused :
  Forall (fun row : string * Case =>
            forall k, In k (unused_of (fst row)) ->
            forall client fs v,
              snd row client (JObj (set_field k v fs)) = snd row client (JObj fs))
    cases.
Proof. each_case frame_row. Qed.

(** X5.  The search fields that the schemas of [get_products], [get_orders]
    and [get_customers] declare at the top level of the parameters ([search],
    [status], [category], [sku], ...), and the [reassign] of [delete_customer],
    are declared by [tools/list] and read by nothing: setting one of them to
    any value in a request leaves the dispatch as it is, call for call.  The
    list operations take their search fields from [params.filters] only. *)
Theorem declared_parameters_without_effect
  (env : Env) (name k : string) (fs : list (string * JsValue)) (v : JsValue) :
  In (name, k) unused_parameters ->
  In k (declared_by_schema Capabilities.handleListTools name)
  /\ handleWooCommerceRequest env (JStr name) (JObj (set_field k v fs))
     = handleWooCommerceRequest env (JStr name) (JObj fs).
Proof.
  intros Hin. split.
  - assert (Hall : forallb (fun p => existsb (String.eqb (snd p))
                                       (declared_by_schema
                                          Capabilities.handleListTools (fst p)))
                     unused_parameters = true) by (vm_compute; reflexivity).
    rewrite forallb_forall in Hall. specialize (Hall _ Hin). cbn [fst snd] in Hall.
    apply existsb_exists in Hall. destruct Hall as [x [Hx Heq]].
    apply String.eqb_eq in Heq. now subst.
  - assert (Hk : forallb (fun p => negb (existsb (String.eqb (snd p))
                                           [ "siteUrl"; "username"; "password";
                                             "consumerKey"; "consumerSecret" ]))
                   unused_parameters = true) by (vm_compute; reflexivity).
    rewrite forallb_forall in Hk. specialize (Hk _ Hin). cbn [snd] in Hk.
    apply negb_true_iff in Hk.
    assert (Hne : forall c, In c [ "siteUrl"; "username"; "password";
                                   "consumerKey"; "consumerSecret" ] -> k <> c).
    { intros c Hc Heq. subst c. apply not_true_iff_false in Hk. apply Hk.
      apply existsb_exists. exists k. split; [assumption | apply String.eqb_refl]. }
    unfold handleWooCommerceRequest, member, resolve. cbn [nullish lift bind].
    cbv zeta. cbn [siteUrl].
    rewrite !prop_set_field_other by (apply Hne; cbn; tauto).
    f_equal.
    destruct (truthy _); [|reflexivity].
    destruct (create_client _ _) as [e|client]; [reflexivity|]. cbn [lift bind].
    destruct (select (JStr name) cases) as [body|] eqn:Hs; [|reflexivity].
    destruct (select_In _ _ Hs) as [label [Hl Hin']]. inversion Hl; subst label.
    pose proof cases_ignore_unused as HF. rewrite Forall_forall in HF.
    apply (HF _ Hin' k (unused_of_In Hin)).
Qed.

Lemma declared_parameters_without_effect_witness :
  handleWooCommerceRequest Sample.env (JStr "get_products")
    (JObj (set_field "search" (JStr "mug") [ ("perPage", JNum 5) ]))
  = handleWooCommerceRequest Sample.env (JStr "get_products")
      (JObj [ ("perPage", JNum 5) ]).
Proof.
  apply (@declared_parameters_without_effect Sample.env "get_products" "search"
           [ ("perPage", JNum 5) ] (JStr "mug")).
  cbn. tauto.
Defined.

(** ** How many calls a dispatch makes, and of what kind *)

Ltac read_row :=
  let Hread := fresh "Hread" in
  intros Hread; vm_compute in Hread;
  first [ discriminate Hread
        | open_case; walk_calls ltac:(split; reflexivity) ].

Lemma cases_reads_get :
  Forall (fun row : string * Case =>
            is_read (fst row) = true ->
            forall client params,
              all_calls (fun _ r => verb r = GET /\ body r = None)
                (snd row client params))
    cases.
Proof. each_case read_row. Qed.

(** X6.  A method whose name starts with [get_] only reads: every call it
    can make, whatever the parameters and whatever the upstream answers, is a
    [GET] without a body. *)
Theorem reads_only_get (env : Env) (m : string) (params : JsValue) :
  is_read m = true ->
  all_calls (fun _ r => verb r = GET /\ body r = None)
    (handleWooCommerceRequest env (JStr m) params).
Proof.
  intros Hread. apply dispatch_all_calls. intros label body client Hm Hin _.
  inversion Hm; subst label.
  pose proof cases_reads_get as HF. rewrite Forall_forall in HF.
  apply (HF _ Hin Hread).
Qed.

Lemma reads_only_get_witness :
  all_calls (fun _ r => verb r = GET /\ body r = None)
    (handleWooCommerceRequest Sample.env (JStr "get_order_meta")
       (JObj [ ("orderId", JNum 2); ("metaKey", JStr "k") ])).
Proof.
  apply (@reads_only_get Sample.env "get_order_meta"
           (JObj [ ("orderId", JNum 2); ("metaKey", JStr "k") ])).
  reflexivity.
Defined.

(** *** At most two calls *)

Section Bounds.

Context {A B : Type}.

Lemma at_most_lift (r : Result A) (n : nat) : at_most (lift r) n.
Proof. destruct r; exact I. Qed.

Lemma at_most_bind_lift (r : Result A) (f : A -> Prog B) (n : nat) :
  (forall a, at_most (f a) n) -> at_most (bind (lift r) f) n.
Proof. intros H. destruct r as [e|a]; [exact I | apply H]. Qed.

Lemma at_most_bind_await (c : AxiosInstance) (r : AxiosRequest)
  (f : AxiosResponse -> Prog B) (n : nat) :
  (forall x, at_most (f x) n) -> at_most (bind (await c r) f) (S n).
Proof. intros H [x|e]; [apply H | exact I]. Qed.

Lemma at_most_try_catch (p : Prog A) (g : JsError -> JsError) (n : nat) :
  at_most p n -> at_most (try_catch p (fun e => Throw (g e))) n.
Proof.
  revert n. induction p as [a|e|c r k IH|ch kd pl k IH]; intros n H; cbn in *.
  - exact I.
  - exact I.
  - destruct n as [|m]; [contradiction|]. intros s. apply IH, H.
  - apply IH, H.
Qed.

Lemma at_most_run (U : Upstream) (p : Prog A) (n : nat) (s : store U) :
  at_most p n -> (length (requests (fst (fst (run U p s)))) <= n)%nat.
Proof.
  revert n s. induction p as [a|e|c r k IH|ch kd pl k IH]; intros n s H; cbn in *.
  - lia.
  - lia.
  - destruct n as [|m]; [contradiction|].
    destruct (serve U c r s) as [s1 out]. specialize (IH out m s1 (H out)).
    destruct (run U (k out) s1) as [[tr s2] res]. cbn in *. lia.
  - specialize (IH n s H). destruct (run U k s) as [[tr s1] res]. cbn in *. exact IH.
Qed.

End Bounds.

Ltac walk_bound :=
  repeat first
    [ exact I
    | apply at_most_lift
    | apply at_most_bind_await; intro; cbv beta zeta
    | apply at_most_bind_lift; intro; cbv beta zeta
    | match goal with
      | |- at_most (if ?b then _ else _) _ => destruct b
      end ].

Ltac bound_row :=
  intros; cbn [snd fst];
  lazymatch goal with
  | |- at_most _ (if ?b then _ else _) =>
      let v := eval vm_compute in b in change b with v; cbv iota
  end;
  unfold upsert_product_meta, upsert_order_meta, upsert_customer_meta,
    remove_product_meta, remove_order_meta, remove_customer_meta,
    read_meta, write_meta, remove_meta,
    client_get, client_post, client_put, client_delete;
  cbv zeta; walk_bound.

Lemma cases_call_bound :
  Forall (fun row : string * Case =>
            forall client params,
              at_most (snd row client params)
                (if includes read_modify_write (JStr (fst row)) then 2 else 1))
    cases.
Proof. each_case bound_row. Qed.

(** X7.  A dispatch makes at most one upstream call, and at most two when
    it creates, updates or deletes the meta-data of a product, an order or a
    customer (the read and the write-back); this for every method, every
    parameters and every upstream. *)
Theorem dispatch_call_bound
  (U : Upstream) (env : Env) (method params : JsValue) (s : store U) :
  (length (requests
             (fst (fst (run U (handleWooCommerceRequest env method params) s))))
   <= if includes read_modify_write method then 2 else 1)%nat.
Proof.
  apply at_most_run. unfold handleWooCommerceRequest.
  apply at_most_try_catch.
  apply at_most_bind_lift. intros _. cbv zeta.
  destruct (truthy (siteUrl (resolve env params))); [|exact I].
  apply at_most_bind_lift. intros client.
  destruct (select method cases) as [body|] eqn:Hs; [|exact I].
  destruct (select_In _ _ Hs) as [label [Hm Hin]]. subst method.
  pose proof cases_call_bound as HF. rewrite Forall_forall in HF.
  apply (HF _ Hin).
Qed.

(** *** What a failure carries *)

Lemma normalise_no_response (e : JsError) : response (normalise e) = JUndefined.
Proof.
  unfold normalise, isAxiosError.
  destruct (strict_equals (response e) JUndefined) eqn:E; cbn [negb].
  - now apply strict_equals_undefined in E.
  - reflexivity.
Qed.

Lemma run_try_catch_image (U : Upstream) (A : Type) (g : JsError -> JsError)
  (p : Prog A) (s s' : store U) (tr : list Event) (e : JsError) :
  run U (try_catch p (fun error => Throw (g error))) s = (tr, s', inl e) ->
  exists e0, e = g e0.
Proof.
  revert s tr. induction p as [a|e0|c r k IH|ch kd pl k IH]; intros s tr; cbn.
  - discriminate.
  - intros H. inversion H. now exists e0.
  - destruct (serve U c r s) as [s1 out].
    destruct (run U (try_catch (k out) _) s1) as [[tr1 s2] res] eqn:E.
    intros H. inversion H; subst. now apply (IH out s1 tr1).
  - destruct (run U (try_catch k _) s) as [[tr1 s2] res] eqn:E.
    intros H. inversion H; subst. now apply (IH s tr1).
Qed.

(** X8.  The failure of a dispatch never carries the upstream response: on
    both dispatchers, whenever a run ends in an error, that error has no
    [response] property (the status, the headers and the body the upstream
    sent stay behind; only a message goes to the caller), and normalising it
    again changes nothing. *)
Theorem failure_carries_no_response
  (U : Upstream) (env : Env) (method params : JsValue)
  (s s' : store U) (tr : list Event) (e : JsError) :
  run U (handleWooCommerceRequest env method params) s = (tr, s', inl e)
  \/ run U (SseServer.handleWooCommerceRequest env method params) s = (tr, s', inl e) ->
  response e = JUndefined /\ normalise e = e.
Proof.
  intros H.
  assert (He : exists e0, e = normalise e0).
  { destruct H as [H|H]; exact (run_try_catch_image _ _ _ _ H). }
  destruct He as [e0 ->].
  pose proof (normalise_no_response e0) as Hr. split; [exact Hr|].
  unfold normalise at 1. unfold isAxiosError. rewrite Hr. reflexivity.
Qed.

Lemma failure_carries_no_response_witness :
  response (api_error Sample.not_found) = JUndefined
  /\ normalise (api_error Sample.not_found) = api_error Sample.not_found.
Proof.
  apply (@failure_carries_no_response Sample.refusing Sample.env
           (JStr "get_products") (JObj []) tt tt
           [ Requested (woocommerce_client (resolve Sample.env (JObj [])))
               (mkRequest GET "/products"
                  (Some [ ("per_page", JNum 10); ("page", JNum 1) ]) None) ]
           (api_error Sample.not_found)).
  left. reflexivity.
Defined.

(** ** Meta-data of products, orders and customers *)



Section MetaRuns.

Variable U : Upstream.
Variable client : AxiosInstance.
Variables path what : string.
Variable params : JsValue.
Variables s0 s1 : store U.
Variable entity : JsValue.
Variable existing : list JsValue.

Hypothesis Hget :
  serve U client (mkRequest GET path None None) s0
  = (s1, Resolved (mkResponse entity)).
Hypothesis Hentity : nullish entity = false.
Hypothesis Hmeta : js_or entity.["meta_data"] (JArr []) = JArr existing.
Hypothesis Hentries : Forall (fun entry => nullish entry = false) existing.





End MetaRuns.








(** ** Writing, reading and deleting a key, one after the other *)

Lemma set_field_twice (k : string) (v : JsValue) (fs : list (string * JsValue)) :
  set_field k v (set_field k v fs) = set_field k v fs.
Proof.
  induction fs as [|[k' v'] rest IH]; cbn [set_field].
  - now rewrite String.eqb_refl.
  - destruct (k' =? k) eqn:E; cbn [set_field]; rewrite E; [reflexivity|].
    now rewrite IH.
Qed.

Lemma key_after_set_value (v : JsValue) (fs : list (string * JsValue)) :
  (JObj (set_field "value" v fs)).["key"] = (JObj fs).["key"].
Proof. apply prop_set_field_other. discriminate. Qed.

Lemma value_after_set_value (v : JsValue) (fs : list (string * JsValue)) :
  (JObj (set_field "value" v fs)).["value"] = v.
Proof. cbn [prop]. now rewrite lookup_set_field_same. Qed.

Lemma upsert_cons_other (k : string) (v entry : JsValue) (rest : list JsValue) :
  strict_equals entry.["key"] (JStr k) = false ->
  upsert k v (entry :: rest) = entry :: upsert k v rest.
Proof. intros E. destruct entry; try reflexivity. cbn [upsert]. now rewrite E. Qed.

Lemma upsert_cons_same (k : string) (v entry : JsValue) (rest : list JsValue) :
  strict_equals entry.["key"] (JStr k) = true ->
  exists fs, entry = JObj fs
             /\ upsert k v (entry :: rest) = JObj (set_field "value" v fs) :: rest.
Proof.
  intros E. destruct entry; try discriminate E. eexists. split; [reflexivity|].
  cbn [upsert]. now rewrite E.
Qed.

Lemma upsert_present (k : string) (v : JsValue) (entries : list JsValue) :
  Forall (fun entry => nullish entry = false) entries ->
  Forall (fun entry => nullish entry = false) (upsert k v entries).
Proof.
  induction 1 as [|entry rest Hn Hrest IH]; [repeat constructor|].
  destruct (strict_equals entry.["key"] (JStr k)) eqn:E.
  - destruct (@upsert_cons_same k v _ rest E) as [fs [-> ->]].
    constructor; [reflexivity | assumption].
  - rewrite (@upsert_cons_other k v _ rest E). now constructor.
Qed.

(** X12.  The three operations on the meta-data of an entity fit together.
    For a sequence [entries] without [null] holes, after the entry of key [k]
    was given the value [v]:
    - reading the key finds an entry first whose key is [k] and whose value is
      [v];
    - deleting the key leaves what deleting it from [entries] leaves, so a key
      that was new is removed without a trace;
    - giving the same value again changes nothing;
    - the sequence has grown by one entry exactly when the key was new. *)
Theorem meta_operations_compose (k : string) (v : JsValue) (entries : list JsValue) :
  Forall (fun entry => nullish entry = false) entries ->
  (exists fs rest,
      filter_by_key true (JStr k) (upsert k v entries) = inr (JObj fs :: rest)
      /\ (JObj fs).["key"] = JStr k /\ (JObj fs).["value"] = v)
  /\ filter_by_key false (JStr k) (upsert k v entries)
     = filter_by_key false (JStr k) entries
  /\ upsert k v (upsert k v entries) = upsert k v entries
  /\ length (upsert k v entries)
     = match findIndex (JStr k) entries with
       | inr None => S (length entries)
       | _ => length entries
       end.
Proof.
  intros Hall. pose proof (upsert_present k v Hall) as Hup.
  rewrite !(filter_by_key_total _ _ Hup), !(filter_by_key_total _ _ Hall).
  clear Hup. induction Hall as [|entry rest Hn Hall IH].
  - cbn. rewrite String.eqb_refl. cbn. repeat split; try reflexivity.
    exists [ ("key", JStr k); ("value", v) ], []. repeat split.
  - destruct IH as [[fs [tail [Hread [Hk Hv]]]] [Hdel [Hidem Hlen]]].
    cbn [findIndex]. unfold key_matches. rewrite (member_present _ _ Hn).
    destruct (strict_equals entry.["key"] (JStr k)) eqn:E.
    + destruct (@upsert_cons_same k v _ rest E) as [fs0 [-> Hsame]]. rewrite Hsame.
      assert (E' : strict_equals (JObj (set_field "value" v fs0)).["key"] (JStr k)
                   = true) by now rewrite key_after_set_value.
      split; [|split; [|split]].
      * cbn [filter]. rewrite E'. cbn [Bool.eqb].
        eexists _, _. split; [reflexivity|]. split.
        -- rewrite key_after_set_value. now apply strict_equals_string in E.
        -- apply value_after_set_value.
      * cbn [filter]. rewrite E', E. reflexivity.
      * destruct (@upsert_cons_same k v _ rest E') as [fs1 [Hfs1 ->]].
        inversion Hfs1; subst fs1. now rewrite set_field_twice.
      * reflexivity.
    + rewrite (@upsert_cons_other k v _ rest E).
      split; [|split; [|split]].
      * cbn [filter]. rewrite E. cbn [Bool.eqb]. now exists fs, tail.
      * cbn [filter]. rewrite E. cbn [Bool.eqb]. inversion Hdel as [Hdel'].
        now rewrite Hdel'.
      * rewrite (@upsert_cons_other k v _ _ E). now rewrite Hidem.
      * cbn [length]. rewrite Hlen.
        destruct (findIndex (JStr k) rest) as [e|[i|]]; reflexivity.
Qed.

Lemma meta_operations_compose_witness :
  filter_by_key false (JStr "k")
    (upsert "k" (JStr "v") [ JObj [ ("key", JStr "x"); ("value", JNum 1) ] ])
  = inr [ JObj [ ("key", JStr "x"); ("value", JNum 1) ] ].
Proof.
  refine (eq_trans
            (proj1 (proj2 (@meta_operations_compose "k" (JStr "v")
                             [ JObj [ ("key", JStr "x"); ("value", JNum 1) ] ] _)))
            eq_refl).
  repeat constructor.
Defined.

(** ** The entry points around the dispatchers *)

Lemma not_protocol_method (request : JsValue) (name : string) :
  request.["method"] <> JStr name ->
  strict_equals request.["method"] (JStr name) = false.
Proof.
  intros H. destruct (strict_equals request.["method"] (JStr name)) eqn:E;
    [|reflexivity].
  apply strict_equals_string in E. contradiction.
Qed.

(** X13.  Each entry point hands the request to its dispatcher once and adds
    nothing of its own: the calls made and the final state of the upstream are
    those of the dispatch, no entry point ever rejects, and the answer is made
    of the outcome of the dispatch alone.  On [/message] and on the stdio
    transport a result [v] is answered as [result: v] under the id of the
    request; on [/api/woocommerce], [/api/poll/:resource] and in [streamData]
    it is answered with status 200 and [{success: true, data: v}] (a
    [data_stream] event), and a failure with status 500 and [{success: false,
    error: message}] (an [error] event). *)
Theorem entry_points_wrap_dispatch (U : Upstream) (env : Env) (s : store U) :
  (forall request,
      member request "jsonrpc" = inr (JStr "2.0") ->
      request.["method"] <> JStr "initialize" ->
      request.["method"] <> JStr "tools/list" ->
      run U (Capabilities.message env request) s
      = let '(tr, s', res) :=
          run U (handleWooCommerceRequest env request.["method"] request.["params"]) s in
        (tr, s',
         inr {| reply_id := request.["id"];
                reply := match res with
                         | inr v => Success v
                         | inl e => Failure (-32000) (message e) None
                         end |}))
  /\ (forall JSON_parse line request,
         JSON_parse line = inr request ->
         member request "jsonrpc" = inr (JStr "2.0") ->
         run U (SseServer.on_line JSON_parse env line) s
         = let '(tr, s', res) :=
             run U (SseServer.handleWooCommerceRequest env request.["method"]
                      request.["params"]) s in
           (tr, s',
            inr {| reply_id := request.["id"];
                   reply := match res with
                            | inr v => Success v
                            | inl e => Failure (-32000) (message e) None
                            end |}))
  /\ (forall req_body,
         nullish req_body = false ->
         run U (SseHttp.api_woocommerce env req_body) s
         = let '(tr, s', res) :=
             run U (SseServer.handleWooCommerceRequest env req_body.["method"]
                      (js_or req_body.["params"] (JObj []))) s in
           (tr, s',
            inr match res with
                | inr v => SseHttp.succeeded v
                | inl e => SseHttp.failed e
                end))
  /\ (forall resource lastUpdate name params,
         SseHttp.poll_request resource lastUpdate = inr (name, params) ->
         run U (SseHttp.api_poll env resource lastUpdate) s
         = let '(tr, s', res) :=
             run U (SseServer.handleWooCommerceRequest env (JStr name) params) s in
           (tr, s',
            inr match res with
                | inr v => SseHttp.succeeded v
                | inl e => SseHttp.failed e
                end))
  /\ (forall channel,
         run U (SseHttp.streamData env channel) s
         = let '(tr, s', res) :=
             run U (SseServer.handleWooCommerceRequest env
                      (JStr (fst (SseHttp.stream_request channel)))
                      (snd (SseHttp.stream_request channel))) s in
           (tr, s',
            inr match res with
                | inr v => SseHttp.DataStream channel
                             (fst (SseHttp.stream_request channel)) v
                | inl e => SseHttp.StreamError channel (message e)
                end)).
Proof.
  split; [|split; [|split; [|split]]].
  - intros request Hv Hi Ht. unfold Capabilities.message, post_message.
    rewrite (check_version_ok _ Hv), (not_protocol_method _ Hi),
      (not_protocol_method _ Ht), run_respond.
    destruct (run U _ s) as [[tr s'] [e|v]]; reflexivity.
  - intros parse line request Hparse Hv.
    unfold SseServer.on_line, SseServer.read_request.
    rewrite Hparse, (check_version_ok _ Hv), run_respond.
    destruct (run U _ s) as [[tr s'] [e|v]]; reflexivity.
  - intros req_body Hb. unfold SseHttp.api_woocommerce, SseHttp.destructure.
    rewrite Hb. cbn [lift bind fst snd]. rewrite run_respond.
    destruct (run U _ s) as [[tr s'] [e|v]]; reflexivity.
  - intros resource lastUpdate name params Hreq. unfold SseHttp.api_poll.
    rewrite Hreq. cbn [lift bind fst snd]. rewrite run_respond.
    destruct (run U _ s) as [[tr s'] [e|v]]; reflexivity.
  - intros channel. unfold SseHttp.streamData. cbv zeta. rewrite run_respond.
    destruct (run U _ s) as [[tr s'] [e|v]]; reflexivity.
Qed.

Lemma entry_points_wrap_dispatch_witness :
  run Sample.refusing
    (SseHttp.api_woocommerce Sample.env (JObj [ ("method", JStr "get_system_status") ]))
    tt
  = ([ Requested (SseServer.store_client (resolve Sample.env (JObj [])))
         (mkRequest GET "/system_status" None None) ],
     tt,
     inr {| SseHttp.status := 500;
            SseHttp.json := JObj [ ("success", JBool false);
                                   ("error", JStr "API error: Invalid ID.") ] |}).
Proof.
  apply (proj1 (proj2 (proj2 (@entry_points_wrap_dispatch
                                Sample.refusing Sample.env tt)))
           (JObj [ ("method", JStr "get_system_status") ])).
  reflexivity.
Defined.

(** X14.  A request without [params].  On [/message] and on the stdio
    transport the dispatcher is given [undefined] (or [null]) and fails on its
    first property access: no call is made and the answer is the error
    [-32000] with the message of the [TypeError].  [/api/woocommerce] puts
    [{}] in the place of a missing or falsy [params], so there the same
    request is dispatched with the defaults of the environment. *)
Theorem missing_params_by_transport (U : Upstream) (env : Env) (s : store U) :
  (forall request,
      member request "jsonrpc" = inr (JStr "2.0") ->
      request.["method"] <> JStr "initialize" ->
      request.["method"] <> JStr "tools/list" ->
      nullish request.["params"] = true ->
      run U (Capabilities.message env request) s
      = ([], s,
         inr {| reply_id := request.["id"];
                reply := Failure (-32000)
                           ("Cannot read properties of "
                            ++ type_name request.["params"]
                            ++ " (reading 'siteUrl')") None |}))
  /\ (forall JSON_parse line request,
         JSON_parse line = inr request ->
         member request "jsonrpc" = inr (JStr "2.0") ->
         nullish request.["params"] = true ->
         run U (SseServer.on_line JSON_parse env line) s
         = ([], s,
            inr {| reply_id := request.["id"];
                   reply := Failure (-32000)
                              ("Cannot read properties of "
                               ++ type_name request.["params"]
                               ++ " (reading 'siteUrl')") None |}))
  /\ (forall req_body,
         nullish req_body = false ->
         truthy req_body.["params"] = false ->
         SseHttp.api_woocommerce env req_body
         = SseHttp.api_woocommerce env
             (JObj [ ("method", req_body.["method"]); ("params", JObj []) ])).
Proof.
  split; [|split].
  - intros request Hv Hi Ht Hn. unfold Capabilities.message, post_message.
    rewrite (check_version_ok _ Hv), (not_protocol_method _ Hi),
      (not_protocol_method _ Ht), run_respond.
    unfold handleWooCommerceRequest, member. rewrite Hn. reflexivity.
  - intros parse line request Hparse Hv Hn.
    unfold SseServer.on_line, SseServer.read_request.
    rewrite Hparse, (check_version_ok _ Hv), run_respond.
    unfold SseServer.handleWooCommerceRequest, member. rewrite Hn. reflexivity.
  - intros req_body Hb Hp. unfold SseHttp.api_woocommerce, SseHttp.destructure.
    rewrite Hb. cbn [nullish lift bind fst snd prop lookup String.eqb Ascii.eqb Bool.eqb].
    rewrite (@js_or_falsy _ (JObj []) Hp). reflexivity.
Qed.

Lemma missing_params_by_transport_witness :
  run Sample.refusing
    (Capabilities.message Sample.env
       (JObj [ ("jsonrpc", JStr "2.0"); ("id", JNum 3);
               ("method", JStr "get_products") ])) tt
  = ([], tt,
     inr {| reply_id := JNum 3;
            reply := Failure (-32000)
                       "Cannot read properties of undefined (reading 'siteUrl')"
                       None |}).
Proof.
  apply (proj1 (@missing_params_by_transport Sample.refusing Sample.env tt)
           (JObj [ ("jsonrpc", JStr "2.0"); ("id", JNum 3);
                   ("method", JStr "get_products") ]));
    try reflexivity; discriminate.
Defined.

(** *** Polling and streaming *)

Lemma default_site_url (env : Env) (params : JsValue) :
  DEFAULT_SITE_URL env <> "" ->
  params.["siteUrl"] = JUndefined ->
  truthy (siteUrl (resolve env params)) = true.
Proof.
  intros Hd Hp. cbn [resolve siteUrl]. rewrite Hp. cbn [js_or truthy].
  now apply truthy_string.
Qed.

(** The two list operations that the polling endpoint and [streamData] use,
    in the dispatcher of [sse-server.ts]. *)
Lemma sse_run_list (U : Upstream) (env : Env) (name collection : string)
  (params : JsValue) (s : store U) :
  (name, collection) = ("get_orders", "/orders?")
  \/ (name, collection) = ("get_products", "/products?") ->
  nullish params = false ->
  truthy (siteUrl (resolve env params)) = true ->
  run U (SseServer.handleWooCommerceRequest env (JStr name) params) s
  = let client := SseServer.store_client (resolve env params) in
    let req :=
      mkRequest GET
        (collection
         ++ search_params_to_string
              (SseServer.page_params params ++ SseServer.filter_params params))
        None None in
    let '(s1, out) := serve U client req s in
    ([Requested client req], s1,
     match out with
     | Resolved r => inr (data r)
     | Rejected e => inl (normalise e)
     end).
Proof.
  intros Hname Hp Hs. unfold SseServer.handleWooCommerceRequest.
  rewrite (member_present _ _ Hp). cbn [lift bind]. cbv zeta. rewrite Hs.
  destruct Hname as [Hname|Hname]; injection Hname as -> ->.
  all: match goal with
       | |- context [select ?m ?c] =>
           let b := eval hnf in (select m c) in change (select m c) with b
       end;
    cbv beta iota; unfold client_get; rewrite run_await_bind;
    destruct (serve U _ _ s) as [s1 [x|e]]; reflexivity.
Qed.

(** X15.  The polling endpoint.  For the resources [orders] and [products],
    with a site URL in the environment, one [GET] is sent, to
    [/orders?per_page=10&page=1] or [/products?per_page=10&page=1], followed by
    [&modified_after=] and the form-encoded [since] when the query has a truthy
    [since]; its answer comes back under [data].  Any other resource is
    answered with status 500 and [Unknown resource: ...], without a call. *)
Theorem poll_sends_one_query
  (U : Upstream) (env : Env) (resource : string) (lastUpdate : JsValue)
  (s : store U) :
  (DEFAULT_SITE_URL env <> "" ->
   resource = "orders" \/ resource = "products" ->
   let client := SseServer.store_client (resolve env (SseHttp.poll_params lastUpdate)) in
   let req :=
     mkRequest GET
       ("/" ++ resource ++ "?per_page=10&page=1"
        ++ (if truthy lastUpdate
            then "&modified_after=" ++ form_encode (to_string lastUpdate)
            else ""))
       None None in
   run U (SseHttp.api_poll env resource lastUpdate) s
   = let '(s1, out) := serve U client req s in
     ([Requested client req], s1,
      inr match out with
          | Resolved r => SseHttp.succeeded (data r)
          | Rejected e => SseHttp.failed (normalise e)
          end))
  /\ (resource <> "orders" -> resource <> "products" ->
      run U (SseHttp.api_poll env resource lastUpdate) s
      = ([], s, inr (SseHttp.failed (Error ("Unknown resource: " ++ resource))))).
Proof.
  split.
  - intros Hd Hr client req.
    assert (Hs : truthy (siteUrl (resolve env (SseHttp.poll_params lastUpdate))) = true)
      by (apply default_site_url; [assumption | reflexivity]).
    unfold SseHttp.api_poll.
    destruct Hr as [-> | ->]; cbn [SseHttp.poll_request String.eqb Ascii.eqb Bool.eqb];
      cbn [lift bind fst snd]; rewrite run_respond.
    + rewrite (@sse_run_list U env "get_orders" "/orders?"
                 (SseHttp.poll_params lastUpdate) s (or_introl eq_refl) eq_refl Hs).
      cbv zeta. fold client.
      replace (("/orders?"
                ++ search_params_to_string
                     (SseServer.page_params (SseHttp.poll_params lastUpdate)
                      ++ SseServer.filter_params (SseHttp.poll_params lastUpdate)))%string)
        with (url req).
      2:{ unfold req. cbn [url]. unfold SseServer.page_params, SseServer.filter_params,
            SseHttp.poll_params.
          destruct (truthy lastUpdate) eqn:E.
          - cbn [prop lookup String.eqb Ascii.eqb Bool.eqb truthy Z.eqb negb
                   own_entries flat_map fst snd app].
            rewrite (truthy_not_nullish _ E). reflexivity.
          - reflexivity. }
      change (mkRequest GET (url req) None None) with req.
      destruct (serve U client req s) as [s1 [r|e]]; reflexivity.
    + rewrite (@sse_run_list U env "get_products" "/products?"
                 (SseHttp.poll_params lastUpdate) s (or_intror eq_refl) eq_refl Hs).
      cbv zeta. fold client.
      replace (("/products?"
                ++ search_params_to_string
                     (SseServer.page_params (SseHttp.poll_params lastUpdate)
                      ++ SseServer.filter_params (SseHttp.poll_params lastUpdate)))%string)
        with (url req).
      2:{ unfold req. cbn [url]. unfold SseServer.page_params, SseServer.filter_params,
            SseHttp.poll_params.
          destruct (truthy lastUpdate) eqn:E.
          - cbn [prop lookup String.eqb Ascii.eqb Bool.eqb truthy Z.eqb negb
                   own_entries flat_map fst snd app].
            rewrite (truthy_not_nullish _ E). reflexivity.
          - reflexivity. }
      change (mkRequest GET (url req) None None) with req.
      destruct (serve U client req s) as [s1 [r|e]]; reflexivity.
  - intros Ho Hp. unfold SseHttp.api_poll, SseHttp.poll_request.
    apply String.eqb_neq in Ho, Hp. rewrite Ho, Hp. reflexivity.
Qed.

Lemma poll_sends_one_query_witness :
  run Sample.refusing
    (SseHttp.api_poll Sample.env "orders" (JStr "2024-01-01T00:00:00")) tt
  = ([ Requested
         (SseServer.store_client
            (resolve Sample.env (SseHttp.poll_params (JStr "2024-01-01T00:00:00"))))
         (mkRequest GET
            "/orders?per_page=10&page=1&modified_after=2024-01-01T00%3A00%3A00"
            None None) ],
     tt,
     inr (SseHttp.failed (api_error Sample.not_found)))
  /\ run Sample.refusing (SseHttp.api_poll Sample.env "coupons" JUndefined) tt
     = ([], tt, inr (SseHttp.failed (Error "Unknown resource: coupons"))).
Proof.
  destruct (@poll_sends_one_query Sample.refusing Sample.env "orders"
              (JStr "2024-01-01T00:00:00") tt) as [H1 _].
  destruct (@poll_sends_one_query Sample.refusing Sample.env "coupons"
              JUndefined tt) as [_ H2].
  split.
  - apply H1; [discriminate | now left].
  - apply H2; discriminate.
Defined.

(** X16.  What a subscriber of [/events/:channel] is streamed.  With a site
    URL in the environment, [streamData] sends one [GET]: five orders on the
    channel [orders], five products on the channels [products] and
    [woocommerce], and three products on every other channel, whatever its
    name; the answer is streamed as a [data_stream] event and a failure as an
    [error] event. *)
Theorem stream_sends_one_query
  (U : Upstream) (env : Env) (channel : string) (s : store U) :
  DEFAULT_SITE_URL env <> "" ->
  let client := SseServer.store_client (resolve env (JObj [])) in
  let method :=
    if channel =? "orders" then "get_orders" else "get_products" in
  let req :=
    mkRequest GET
      (if channel =? "orders" then "/orders?per_page=5&page=1"
       else if (channel =? "products") || (channel =? "woocommerce")
            then "/products?per_page=5&page=1"
            else "/products?per_page=3&page=1")
      None None in
  run U (SseHttp.streamData env channel) s
  = let '(s1, out) := serve U client req s in
    ([Requested client req], s1,
     inr match out with
         | Resolved r => SseHttp.DataStream channel method (data r)
         | Rejected e => SseHttp.StreamError channel (message (normalise e))
         end).
Proof.
  intros Hd client method req. unfold SseHttp.streamData. cbv zeta.
  rewrite run_respond. unfold SseHttp.stream_request, method, req.
  destruct ((channel =? "products") || (channel =? "woocommerce")) eqn:Ep.
  - assert (Ho : (channel =? "orders") = false).
    { apply orb_true_iff in Ep. destruct Ep as [E|E]; apply String.eqb_eq in E;
        subst; reflexivity. }
    rewrite Ho. cbn [fst snd].
    rewrite (@sse_run_list U env "get_products" "/products?"
               (JObj [ ("perPage", JNum 5); ("page", JNum 1) ]) s
               (or_intror eq_refl) eq_refl
               (@default_site_url env (JObj [ ("perPage", JNum 5); ("page", JNum 1) ])
                  Hd eq_refl)).
    cbv zeta.
    change (SseServer.store_client
              (resolve env (JObj [ ("perPage", JNum 5); ("page", JNum 1) ])))
      with client.
    change ("/products?"
            ++ search_params_to_string
                 (SseServer.page_params (JObj [ ("perPage", JNum 5); ("page", JNum 1) ])
                  ++ SseServer.filter_params
                       (JObj [ ("perPage", JNum 5); ("page", JNum 1) ])))%string
      with "/products?per_page=5&page=1".
    destruct (serve U client _ s) as [s1 [r|e]]; reflexivity.
  - destruct (channel =? "orders") eqn:Eo; cbn [fst snd].
    + rewrite (@sse_run_list U env "get_orders" "/orders?"
                 (JObj [ ("perPage", JNum 5); ("page", JNum 1) ]) s
                 (or_introl eq_refl) eq_refl
                 (@default_site_url env (JObj [ ("perPage", JNum 5); ("page", JNum 1) ])
                    Hd eq_refl)).
      cbv zeta.
      change (SseServer.store_client
                (resolve env (JObj [ ("perPage", JNum 5); ("page", JNum 1) ])))
        with client.
      change ("/orders?"
              ++ search_params_to_string
                   (SseServer.page_params (JObj [ ("perPage", JNum 5); ("page", JNum 1) ])
                    ++ SseServer.filter_params
                         (JObj [ ("perPage", JNum 5); ("page", JNum 1) ])))%string
        with "/orders?per_page=5&page=1".
      destruct (serve U client _ s) as [s1 [r|e]]; reflexivity.
    + rewrite (@sse_run_list U env "get_products" "/products?"
                 (JObj [ ("perPage", JNum 3); ("page", JNum 1) ]) s
                 (or_intror eq_refl) eq_refl
                 (@default_site_url env (JObj [ ("perPage", JNum 3); ("page", JNum 1) ])
                    Hd eq_refl)).
      cbv zeta.
      change (SseServer.store_client
                (resolve env (JObj [ ("perPage", JNum 3); ("page", JNum 1) ])))
        with client.
      change ("/products?"
              ++ search_params_to_string
                   (SseServer.page_params (JObj [ ("perPage", JNum 3); ("page", JNum 1) ])
                    ++ SseServer.filter_params
                         (JObj [ ("perPage", JNum 3); ("page", JNum 1) ])))%string
        with "/products?per_page=3&page=1".
      destruct (serve U client _ s) as [s1 [r|e]]; reflexivity.
Qed.

Lemma stream_sends_one_query_witness :
  run Sample.refusing (SseHttp.streamData Sample.env "coupons") tt
  = ([ Requested (SseServer.store_client (resolve Sample.env (JObj [])))
         (mkRequest GET "/products?per_page=3&page=1" None None) ],
     tt,
     inr (SseHttp.StreamError "coupons" "API error: Invalid ID.")).
Proof.
  apply (@stream_sends_one_query Sample.refusing Sample.env "coupons" tt).
  discriminate.
Defined.

(** ** The registry of SSE connections *)

Module RegistryFacts.

Import SseHttp.
Local Open Scope list_scope.

Lemma get_set_same (channel : string) (conns : list Response) (reg : Registry) :
  get (set channel conns reg) channel = Some conns.
Proof.
  induction reg as [|[name old] rest IH]; cbn [set get].
  - now rewrite String.eqb_refl.
  - destruct (name =? channel) eqn:E; cbn [get]; rewrite E; [reflexivity | exact IH].
Qed.

Lemma get_set_other (channel other : string) (conns : list Response) (reg : Registry) :
  other <> channel -> get (set channel conns reg) other = get reg other.
Proof.
  intros Hne. induction reg as [|[name old] rest IH]; cbn [set get].
  - destruct (channel =? other) eqn:E; [|reflexivity].
    apply String.eqb_eq in E. congruence.
  - destruct (name =? channel) eqn:E; cbn [get].
    + apply String.eqb_eq in E. subst name.
      destruct (channel =? other) eqn:E2; [|reflexivity].
      apply String.eqb_eq in E2. congruence.
    + destruct (name =? other); [reflexivity | exact IH].
Qed.

Lemma set_same (channel : string) (conns : list Response) (reg : Registry) :
  get reg channel = Some conns -> set channel conns reg = reg.
Proof.
  induction reg as [|[name old] rest IH]; cbn [set get]; [discriminate|].
  destruct (name =? channel) eqn:E.
  - intros H. inversion H. reflexivity.
  - intros H. now rewrite (IH H).
Qed.

Lemma indexOf_last (res : Response) (conns : list Response) :
  ~ In res conns -> indexOf res (conns ++ [res]) = Some (length conns).
Proof.
  induction conns as [|c rest IH]; intros Hnot; cbn [app indexOf length].
  - now rewrite Nat.eqb_refl.
  - destruct (Nat.eqb c res) eqn:E.
    + apply Nat.eqb_eq in E. subst c. exfalso. apply Hnot. now left.
    + rewrite IH; [reflexivity|]. intros Hin. apply Hnot. now right.
Qed.

Lemma indexOf_absent (res : Response) (conns : list Response) :
  ~ In res conns -> indexOf res conns = None.
Proof.
  induction conns as [|c rest IH]; intros Hnot; cbn [indexOf]; [reflexivity|].
  destruct (Nat.eqb c res) eqn:E.
  - apply Nat.eqb_eq in E. subst c. exfalso. apply Hnot. now left.
  - rewrite IH; [reflexivity|]. intros Hin. apply Hnot. now right.
Qed.

Lemma splice_middle (pre rest : list Response) (res : Response) :
  splice (length pre) (pre ++ res :: rest) = pre ++ rest.
Proof.
  unfold splice. induction pre as [|c pre IH]; simpl in *.
  - reflexivity.
  - f_equal. exact IH.
Qed.

Section Sweep.

Variable throws : Response -> bool.

Lemma forEach_past_end (steps index : nat) (conns : list Response) :
  (length conns <= index)%nat -> forEach throws steps index conns = ([], conns).
Proof.
  revert index. induction steps as [|n IH]; intros index Hle; cbn [forEach];
    [reflexivity|].
  rewrite (proj2 (nth_error_None conns index) Hle). apply IH. lia.
Qed.

Lemma forEach_sweep_from (steps : nat) :
  forall pre rest : list Response,
    (length rest <= steps)%nat ->
    forEach throws steps (length pre) (pre ++ rest)
    = let '(written, kept) := sweep throws rest in (written, pre ++ kept).
Proof.
  induction steps as [|n IH]; intros pre rest Hle.
  - destruct rest; [|cbn in Hle; lia]. reflexivity.
  - cbn [forEach]. destruct rest as [|res rest1].
    + rewrite app_nil_r, (proj2 (nth_error_None pre (length pre)) (le_n _)).
      rewrite forEach_past_end by lia. cbn [sweep]. now rewrite app_nil_r.
    + rewrite nth_error_app2, Nat.sub_diag by lia. cbn [nth_error sweep].
      cbn [length] in Hle.
      destruct (throws res).
      * rewrite splice_middle. destruct rest1 as [|next rest2].
        -- rewrite app_nil_r, forEach_past_end by lia. reflexivity.
        -- cbn [length] in Hle.
           replace (pre ++ next :: rest2) with ((pre ++ [next]) ++ rest2)
             by (now rewrite <- app_assoc).
           replace (S (length pre)) with (length (pre ++ [next]))
             by (rewrite length_app; cbn; lia).
           rewrite IH by lia.
           destruct (sweep throws rest2) as [written kept].
           now rewrite <- app_assoc.
      * replace (pre ++ res :: rest1) with ((pre ++ [res]) ++ rest1)
          by (now rewrite <- app_assoc).
        replace (S (length pre)) with (length (pre ++ [res]))
          by (rewrite length_app; cbn; lia).
        rewrite IH by lia.
        destruct (sweep throws rest1) as [written kept].
        now rewrite <- app_assoc.
Qed.

Lemma sweep_all_live (conns : list Response) :
  (forall res, In res conns -> throws res = false) ->
  sweep throws conns = (conns, conns).
Proof.
  induction conns as [|res rest IH]; intros Hlive; [reflexivity|].
  cbn [sweep]. rewrite (Hlive res (or_introl eq_refl)).
  rewrite IH; [reflexivity|]. intros r Hr. apply Hlive. now right.
Qed.

End Sweep.

End RegistryFacts.

(** X17.  What a broadcast does to the subscribers of a channel, whichever
    of their writes throw.  The loop over the array removes a response whose
    write throws while it is walking that array, so the response that follows
    a removed one moves into its place and is passed over: it is not written
    to, and it is not removed either, even when it is as dead as its
    predecessor.  The responses written to and the array left behind are those
    of [sweep]; a channel nobody subscribed to takes no write. *)
Theorem broadcast_is_sweep
  (throws : SseHttp.Response -> bool) (channel : string) (reg : SseHttp.Registry) :
  SseHttp.broadcastSSE throws channel reg
  = match SseHttp.get reg channel with
    | Some conns =>
        let '(written, kept) := SseHttp.sweep throws conns in
        (written, SseHttp.set channel kept reg)
    | None => ([], reg)
    end.
Proof.
  unfold SseHttp.broadcastSSE. destruct (SseHttp.get reg channel) as [conns|];
    [|reflexivity].
  pose proof (@RegistryFacts.forEach_sweep_from throws (length conns) [] conns
                (le_n _)) as H.
  cbn [length app] in H. rewrite H.
  now destruct (SseHttp.sweep throws conns) as [written kept].
Qed.

(** X18.  When no write throws, a broadcast writes to every subscriber of
    the channel, in the order in which they connected, and leaves the registry
    as it was. *)
Theorem broadcast_reaches_all
  (throws : SseHttp.Response -> bool) (channel : string) (reg : SseHttp.Registry)
  (conns : list SseHttp.Response) :
  SseHttp.get reg channel = Some conns ->
  (forall res, In res conns -> throws res = false) ->
  SseHttp.broadcastSSE throws channel reg = (conns, reg).
Proof.
  intros Hget Hlive. unfold SseHttp.broadcastSSE. rewrite Hget.
  pose proof (@RegistryFacts.forEach_sweep_from throws (length conns) [] conns
                (le_n _)) as H.
  cbn [length app] in H. rewrite H, (RegistryFacts.sweep_all_live throws conns Hlive).
  now rewrite (RegistryFacts.set_same _ _ Hget).
Qed.

Lemma broadcast_reaches_all_witness :
  SseHttp.broadcastSSE (fun _ => false) "orders"
    [ ("products", [ 1%nat ]); ("orders", [ 2%nat; 3%nat ]) ]
  = ([ 2%nat; 3%nat ], [ ("products", [ 1%nat ]); ("orders", [ 2%nat; 3%nat ]) ]).
Proof.
  apply (@broadcast_reaches_all (fun _ => false) "orders"
           [ ("products", [ 1%nat ]); ("orders", [ 2%nat; 3%nat ]) ]
           [ 2%nat; 3%nat ]).
  - reflexivity.
  - reflexivity.
Defined.

(** X19.  A subscriber that connects to a channel and then closes leaves the
    subscribers of every channel as they were, with one difference: a channel
    that had no entry keeps the empty entry made for it (entries are never
    removed from the registry).  Closing a response that is not registered
    changes nothing. *)
Theorem connect_then_close
  (channel : string) (res : SseHttp.Response) (reg : SseHttp.Registry) :
  (forall conns, SseHttp.get reg channel = Some conns -> ~ In res conns) ->
  SseHttp.get (SseHttp.close channel res (SseHttp.connect channel res reg)) channel
  = Some (match SseHttp.get reg channel with
          | Some conns => conns
          | None => []
          end)
  /\ (forall other,
         other <> channel ->
         SseHttp.get (SseHttp.close channel res (SseHttp.connect channel res reg)) other
         = SseHttp.get reg other)
  /\ SseHttp.close channel res reg = reg.
Proof.
  intros Hfresh.
  assert (Hclose : SseHttp.close channel res reg = reg).
  { unfold SseHttp.close. destruct (SseHttp.get reg channel) as [conns|] eqn:Hg;
      [|reflexivity].
    now rewrite (@RegistryFacts.indexOf_absent _ _ (Hfresh conns eq_refl)). }
  unfold SseHttp.connect, SseHttp.has.
  destruct (SseHttp.get reg channel) as [conns|] eqn:Hg.
  - rewrite Hg. unfold SseHttp.close. rewrite RegistryFacts.get_set_same.
    rewrite (@RegistryFacts.indexOf_last _ _ (Hfresh conns eq_refl)).
    pose proof (RegistryFacts.splice_middle conns [] res) as Hsp. rewrite Hsp, app_nil_r.
    split; [|split; [|exact Hclose]].
    + apply RegistryFacts.get_set_same.
    + intros other Hne. now rewrite !RegistryFacts.get_set_other.
  - rewrite RegistryFacts.get_set_same. unfold SseHttp.close.
    rewrite RegistryFacts.get_set_same. cbn [app SseHttp.indexOf].
    rewrite Nat.eqb_refl.
    change (SseHttp.splice 0 [res]) with (@nil SseHttp.Response).
    split; [|split; [|exact Hclose]].
    + apply RegistryFacts.get_set_same.
    + intros other Hne. rewrite !RegistryFacts.get_set_other by assumption.
      reflexivity.
Qed.

Lemma connect_then_close_witness :
  SseHttp.get (SseHttp.close "orders" 7%nat (SseHttp.connect "orders" 7%nat [])) "orders"
  = Some [].
Proof.
  refine (proj1 (@connect_then_close "orders" 7%nat [] _)).
  intros conns H. discriminate H.
Defined.

(** ** The query string of [sse-server.ts] reads back as it was written *)

Ltac each_byte c :=
  destruct c as [b0 b1 b2 b3 b4 b5 b6 b7];
  destruct b0, b1, b2, b3, b4, b5, b6, b7.

Lemma form_decode_encode_step (c : ascii) (rest : string) :
  form_decode (form_encode (String c rest))
  = String c (form_decode (form_encode rest)).
Proof. each_byte c; reflexivity. Qed.

Lemma form_decode_encode (s : string) : form_decode (form_encode s) = s.
Proof.
  induction s as [|c rest IH]; [reflexivity|].
  now rewrite form_decode_encode_step, IH.
Qed.

Lemma free_of_app (sep : ascii) (a b : string) :
  free_of sep (a ++ b) = free_of sep a && free_of sep b.
Proof.
  induction a as [|c rest IH]; cbn [append free_of]; [reflexivity|].
  now rewrite IH, andb_assoc.
Qed.

Lemma form_encode_step_free (sep c : ascii) (rest : string) :
  sep = "&"%char \/ sep = "="%char ->
  free_of sep (form_encode (String c rest)) = free_of sep (form_encode rest).
Proof. intros [-> | ->]; each_byte c; reflexivity. Qed.

Lemma form_encode_free (sep : ascii) (s : string) :
  sep = "&"%char \/ sep = "="%char -> free_of sep (form_encode s) = true.
Proof.
  intros Hsep. induction s as [|c rest IH]; [reflexivity|].
  now rewrite (form_encode_step_free c rest Hsep).
Qed.

Lemma append_assoc' (a b c : string) : ((a ++ b) ++ c = a ++ (b ++ c))%string.
Proof. induction a as [|x a IH]; cbn [append]; [reflexivity | now rewrite IH]. Qed.

Lemma append_empty_r (a : string) : (a ++ "" = a)%string.
Proof. induction a as [|x a IH]; cbn [append]; [reflexivity | now rewrite IH]. Qed.

Lemma pieces_free (sep : ascii) (s current rest : string) :
  free_of sep s = true ->
  pieces sep current (s ++ String sep rest)
  = (current ++ s)%string :: pieces sep EmptyString rest.
Proof.
  revert current. induction s as [|c s IH]; intros current Hfree.
  - cbn [append pieces]. rewrite Ascii.eqb_refl. now rewrite append_empty_r.
  - cbn [free_of] in Hfree. apply andb_true_iff in Hfree. destruct Hfree as [Hc Hs].
    apply negb_true_iff in Hc. cbn [append pieces]. rewrite Hc, (IH _ Hs).
    now rewrite append_assoc'.
Qed.

Lemma pieces_last (sep : ascii) (s current : string) :
  free_of sep s = true -> pieces sep current s = [ (current ++ s)%string ].
Proof.
  revert current. induction s as [|c s IH]; intros current Hfree.
  - cbn [pieces]. now rewrite append_empty_r.
  - cbn [free_of] in Hfree. apply andb_true_iff in Hfree. destruct Hfree as [Hc Hs].
    apply negb_true_iff in Hc. cbn [pieces]. rewrite Hc, (IH _ Hs).
    now rewrite append_assoc'.
Qed.

Lemma name_value_free (k name v : string) :
  free_of "="%char k = true ->
  name_value name (k ++ String "="%char v) = ((name ++ k)%string, v).
Proof.
  revert name. induction k as [|c k IH]; intros name Hfree.
  - cbn [append name_value]. cbn. now rewrite append_empty_r.
  - cbn [free_of] in Hfree. apply andb_true_iff in Hfree. destruct Hfree as [Hc Hk].
    apply negb_true_iff in Hc. cbn [append name_value]. rewrite Hc, (IH _ Hk).
    now rewrite append_assoc'.
Qed.

Lemma pair_not_empty (k v : string) : ((k ++ "=" ++ v) =? "")%string = false.
Proof. destruct k; reflexivity. Qed.

Lemma parse_pair (k v : string) :
  (if (form_encode k ++ "=" ++ form_encode v =? "")%string then []
   else [ (form_decode
             (fst (name_value EmptyString (form_encode k ++ "=" ++ form_encode v))),
           form_decode
             (snd (name_value EmptyString (form_encode k ++ "=" ++ form_encode v)))) ])
  = [ (k, v) ].
Proof.
  rewrite pair_not_empty.
  change ("=" ++ form_encode v)%string with (String "="%char (form_encode v)).
  rewrite name_value_free by (apply form_encode_free; now right).
  cbn [fst snd append]. now rewrite !form_decode_encode.
Qed.

Lemma parse_query_search_params (ps : list (string * string)) :
  parse_query (search_params_to_string ps) = ps.
Proof.
  unfold parse_query. induction ps as [|[k v] rest IH]; [reflexivity|].
  cbn [search_params_to_string]. cbv zeta.
  assert (Hfree : free_of "&"%char (form_encode k ++ "=" ++ form_encode v) = true).
  { rewrite free_of_app. rewrite form_encode_free by now left.
    change ("=" ++ form_encode v)%string with (String "="%char (form_encode v)).
    cbn [free_of andb]. rewrite form_encode_free by now left. reflexivity. }
  destruct rest as [|[k1 v1] rest1].
  - rewrite pieces_last by exact Hfree.
    change (EmptyString ++ (form_encode k ++ "=" ++ form_encode v))%string
      with (form_encode k ++ "=" ++ form_encode v)%string.
    cbn [flat_map]. rewrite parse_pair. reflexivity.
  - change ((form_encode k ++ "=" ++ form_encode v) ++ "&"
            ++ search_params_to_string ((k1, v1) :: rest1))%string
      with ((form_encode k ++ "=" ++ form_encode v)
            ++ String "&"%char (search_params_to_string ((k1, v1) :: rest1)))%string.
    rewrite pieces_free by exact Hfree.
    change (EmptyString ++ (form_encode k ++ "=" ++ form_encode v))%string
      with (form_encode k ++ "=" ++ form_encode v)%string.
    cbn [flat_map]. rewrite parse_pair, IH. reflexivity.
Qed.

(** X20.  The query string that [get_orders] and [get_products] of
    [sse-server.ts] put in the URL reads back, under the rules of form
    decoding, as the very pairs that were appended, in their order: the
    pagination fields that are truthy, then the fields of [filters] that are
    neither [null] nor [undefined], each with its value as a string.  A name or
    a value with [&], [=], [%], [+], a space or any other byte in it neither
    splits a pair nor merges two, so a filter value cannot add a parameter to
    the upstream request. *)
Theorem query_string_round_trip
  (U : Upstream) (env : Env) (name collection : string) (params : JsValue)
  (s : store U) :
  (name, collection) = ("get_orders", "/orders?")
  \/ (name, collection) = ("get_products", "/products?") ->
  nullish params = false ->
  truthy (siteUrl (resolve env params)) = true ->
  exists qs,
    fst (fst (run U (SseServer.handleWooCommerceRequest env (JStr name) params) s))
    = [ Requested (SseServer.store_client (resolve env params))
          (mkRequest GET (collection ++ qs) None None) ]
    /\ parse_query qs
       = (SseServer.page_params params ++ SseServer.filter_params params)%list.
Proof.
  intros Hname Hp Hs.
  exists (search_params_to_string
            (SseServer.page_params params ++ SseServer.filter_params params)).
  split; [|apply parse_query_search_params].
  rewrite (@sse_run_list U env name collection params s Hname Hp Hs). cbv zeta.
  now destruct (serve U _ _ s) as [s1 out].
Qed.

Lemma query_string_round_trip_witness :
  exists qs,
    fst (fst (run Sample.refusing
                (SseServer.handleWooCommerceRequest Sample.env (JStr "get_orders")
                   (JObj [ ("page", JNum 2);
                           ("filters", JObj [ ("search", JStr "a&page=9") ]) ]))
                tt))
    = [ Requested
          (SseServer.store_client
             (resolve Sample.env
                (JObj [ ("page", JNum 2);
                        ("filters", JObj [ ("search", JStr "a&page=9") ]) ])))
          (mkRequest GET ("/orders?" ++ qs) None None) ]
    /\ parse_query qs = [ ("page", "2"); ("search", "a&page=9") ].
Proof.
  apply (@query_string_round_trip Sample.refusing Sample.env "get_orders" "/orders?"
           (JObj [ ("page", JNum 2);
                   ("filters", JObj [ ("search", JStr "a&page=9") ]) ]) tt).
  - now left.
  - reflexivity.
  - reflexivity.
Defined.

(** ** Events pushed by the dispatcher of [sse-server.ts] *)







(** ** Credentials of the content methods *)

(** X22.  A content method needs the WordPress user and password, and only
    those: once the site URL resolves, the dispatch fails with the
    missing-credentials message of the content family, before any call, when
    the user or the password resolves to nothing; and when both resolve the
    client is the Basic-authenticated one, whether or not a consumer key and a
    consumer secret are there. *)
Theorem content_credentials_required (env : Env) (m : string) (params : JsValue) :
  In m wpMethods ->
  nullish params = false ->
  truthy (siteUrl (resolve env params)) = true ->
  (truthy (username (resolve env params)) = false
   \/ truthy (password (resolve env params)) = false ->
   handleWooCommerceRequest env (JStr m) params
   = Throw (Error content_credentials_missing))
  /\ (truthy (username (resolve env params)) = true ->
      truthy (password (resolve env params)) = true ->
      create_client (resolve env params) (JStr m)
      = inr (wordpress_client (resolve env params))).
Proof.
  intros Hin Hp Hs. apply includes_In in Hin. split.
  - intros Hmiss. unfold handleWooCommerceRequest.
    rewrite (member_present _ _ Hp). cbn [lift bind]. cbv zeta. rewrite Hs.
    unfold create_client. rewrite Hin.
    destruct Hmiss as [H|H]; rewrite H; cbn [negb orb]; [reflexivity|].
    rewrite orb_true_r. reflexivity.
  - intros Hu Hw. unfold create_client. now rewrite Hin, Hu, Hw.
Qed.

Lemma content_credentials_required_witness :
  handleWooCommerceRequest Sample.site_only (JStr "get_posts")
    (JObj [ ("consumerKey", JStr "ck"); ("consumerSecret", JStr "cs") ])
  = Throw (Error content_credentials_missing).
Proof.
  apply (proj1 (@content_credentials_required Sample.site_only "get_posts"
                  (JObj [ ("consumerKey", JStr "ck"); ("consumerSecret", JStr "cs") ])
                  (or_intror (or_introl eq_refl)) eq_refl eq_refl)).
  left. reflexivity.
Defined.

(** ** Reports over a period *)

Lemma with_filters_period_query (rest : list (string * JsValue)) (params : JsValue) :
  NoDup (map fst (own_entries params.["filters"])) ->
  period_query params (with_filters (period params ++ rest) params).
Proof.
  intros Hnd. unfold period_query, with_filters. cbv zeta.
  split; [|split; [|split]].
  - intros H. rewrite (lookup_assign_absent _ _ _ H), lookup_app. reflexivity.
  - intros H. rewrite (lookup_assign_absent _ _ _ H), lookup_app. reflexivity.
  - intros H. rewrite (lookup_assign_absent _ _ _ H), lookup_app. reflexivity.
  - intros k v H. now apply lookup_assign_present.
Qed.

Ltac period_query_leaf :=
  eexists; split; [reflexivity|];
  first [ apply (@with_filters_period_query [] _); assumption
        | apply with_filters_period_query; assumption ].

Lemma cases_period_queries :
  Forall (fun row : string * Case =>
            includes periodic_reports (JStr (fst row)) = true ->
            forall client params,
              NoDup (map fst (own_entries params.["filters"])) ->
              all_calls (fun _ r => exists q, query r = Some q /\ period_query params q)
                (snd row client params))
    cases.
Proof.
  each_case ltac:(intros Hin;
                  first [ vm_compute in Hin; discriminate Hin
                        | clear Hin; open_case; walk_calls period_query_leaf ]).
Qed.

(** X23.  The sales, products, orders, coupons and taxes reports are asked
    for a period: every call carries [period], [date_min] and [date_max], which
    are [params.period], [params.dateMin] and [params.dateMax] when those are
    truthy and ["month"], [""] and [""] otherwise, so the two dates are sent
    even when the request gives none; a field of [filters] with one of these
    names wins, and every field of [filters] is sent. *)
Theorem reports_carry_period (env : Env) (m : string) (params : JsValue) :
  In m periodic_reports ->
  NoDup (map fst (own_entries params.["filters"])) ->
  all_calls (fun _ r => exists q, query r = Some q /\ period_query params q)
    (handleWooCommerceRequest env (JStr m) params).
Proof.
  intros Hin Hnd. apply dispatch_all_calls.
  intros label body client Hm Hrow _. inversion Hm; subst label.
  pose proof cases_period_queries as HF. rewrite Forall_forall in HF.
  apply (HF _ Hrow); [|assumption].
  cbn [fst]. now apply includes_In.
Qed.

Lemma reports_carry_period_witness :
  all_calls (fun _ r =>
               exists q, query r = Some q
                         /\ period_query (JObj [ ("dateMin", JStr "2024-01-01") ]) q)
    (handleWooCommerceRequest Sample.env (JStr "get_sales_report")
       (JObj [ ("dateMin", JStr "2024-01-01") ])).
Proof.
  apply (@reports_carry_period Sample.env "get_sales_report"
           (JObj [ ("dateMin", JStr "2024-01-01") ])).
  - left. reflexivity.
  - constructor.
Defined.

(** ** Updating a post *)

Ltac fields_leaf :=
  split; [reflexivity|]; eexists; split; [reflexivity|];
  let f := fresh "f" in
  intros f;
  repeat match goal with
         | |- context [if truthy ?x then [_] else []] => destruct (truthy x) eqn:?
         end;
  cbn [app lookup existsb];
  repeat match goal with
         | |- context [(?a =? ?b)%string] =>
             is_var b; rewrite (String.eqb_sym a b);
             destruct (String.eqb_spec b a); [subst b|]
         end;
  repeat match goal with
         | |- context [(?b =? ?a)%string] =>
             is_var b; destruct (String.eqb_spec b a); [subst b|]
         end;
  cbn [orb];
  repeat match goal with
         | H : truthy _ = _ |- _ => rewrite H
         end;
  reflexivity.

Lemma update_post_case :
  Forall (fun row : string * Case =>
            fst row = "update_post" ->
            forall client params,
              all_calls
                (fun _ r =>
                   verb r = POST
                   /\ exists fields,
                        body r = Some (JObj fields)
                        /\ forall f,
                             lookup f fields
                             = if existsb (String.eqb f) [ "title"; "content"; "status" ]
                               then if truthy params.[f] then Some params.[f] else None
                               else None)
                (snd row client params))
    cases.
Proof.
  each_case ltac:(intros Hl; cbn [fst] in Hl;
                  first [ discriminate Hl
                        | clear Hl; open_case; walk_calls fields_leaf ]).
Qed.

(** X24.  [update_post] is sent as a [POST] to [/posts/{postId}], and its
    body has, of [title], [content] and [status], the fields for which the
    request has a truthy value, with that value, and nothing else: a field
    given as [""] is left out, so a title or a content cannot be emptied. *)
Theorem update_post_sends_truthy_fields (env : Env) (params : JsValue) :
  all_calls
    (fun _ r =>
       verb r = POST
       /\ exists fields,
            body r = Some (JObj fields)
            /\ forall f,
                 lookup f fields
                 = if existsb (String.eqb f) [ "title"; "content"; "status" ]
                   then if truthy params.[f] then Some params.[f] else None
                   else None)
    (handleWooCommerceRequest env (JStr "update_post") params).
Proof.
  apply dispatch_all_calls.
  intros label body client Hm Hrow _. inversion Hm; subst label.
  pose proof update_post_case as HF. rewrite Forall_forall in HF.
  exact (HF _ Hrow eq_refl client params).
Qed.

(** ** The two dispatchers side by side *)

Lemma select_unknown (method : JsValue) (rows : list (string * Case)) :
  (forall label, In label (map fst rows) -> method <> JStr label) ->
  select method rows = None.
Proof.
  induction rows as [|[label body] rest IH]; intros H; cbn [select]; [reflexivity|].
  destruct (strict_equals (JStr label) method) eqn:E.
  - apply strict_equals_string_l in E. exfalso. apply (H label); [now left | exact E].
  - apply IH. intros l Hl. apply H. now right.
Qed.

(** X25.  The dispatcher of [sse-server.ts] knows ten methods, all of them
    store methods of [index.ts]; for any other method, the 109 other tools that
    [tools/list] of [index.ts] announces included, once the site URL resolves
    it fails with [Unknown method: ...] without a call, whatever the
    parameters. *)
Theorem sse_server_knows_ten_methods (env : Env) (m : string) (params : JsValue) :
  (In m sse_methods <-> exists body, select (JStr m) SseServer.cases = Some body)
  /\ (In m sse_methods -> In m wooMethods)
  /\ (~ In m sse_methods ->
      nullish params = false ->
      truthy (siteUrl (resolve env params)) = true ->
      SseServer.handleWooCommerceRequest env (JStr m) params
      = Throw (Error ("Unknown method: " ++ m))).
Proof.
  assert (Hnone : ~ In m sse_methods -> select (JStr m) SseServer.cases = None).
  { intros Hnot. apply select_unknown. intros label Hl Heq. inversion Heq; subst label.
    exact (Hnot Hl). }
  split; [|split].
  - split.
    + intros Hin. cbn [sse_methods In] in Hin.
      repeat (destruct Hin as [<- | Hin]; [eexists; reflexivity|]). contradiction.
    + intros [body Hs]. destruct (select_In _ _ Hs) as [label [Hl Hin]].
      inversion Hl; subst label. exact (in_map fst _ _ Hin).
  - apply incl_by_check. vm_compute. reflexivity.
  - intros Hnot Hp Hs. unfold SseServer.handleWooCommerceRequest.
    rewrite (member_present _ _ Hp). cbn [lift bind]. cbv zeta.
    rewrite Hs, (Hnone Hnot). reflexivity.
Qed.

Lemma sse_server_knows_ten_methods_witness :
  SseServer.handleWooCommerceRequest Sample.env (JStr "delete_product")
    (JObj [ ("productId", JNum 5) ])
  = Throw (Error "Unknown method: delete_product").
Proof.
  refine (proj2 (proj2 (@sse_server_knows_ten_methods Sample.env "delete_product"
                          (JObj [ ("productId", JNum 5) ]))) _ eq_refl eq_refl).
  cbn. intros H.
  repeat (destruct H as [H|H]; [discriminate H|]). exact H.
Defined.

Ltac pass_guards H :=
  cbv beta iota delta [first_failure holds] in H;
  repeat match type of H with
         | (if truthy ?x then _ else _) = None =>
             let E := fresh "E" in
             destruct (truthy x) eqn:E; [|discriminate H]
         end.

(** X26.  On the seven methods that both dispatchers have and that are not
    list operations, the two send the same first request: for a request that
    passes the checks of [index.ts] and resolves the site URL and the store
    credentials, the verb, the path and the body are the same, and only the
    client differs (credentials in the query string for [index.ts], HTTP Basic
    for [sse-server.ts]). *)
Theorem dispatchers_send_the_same_request
  (env : Env) (m : string) (params : JsValue) :
  In m sse_single_methods ->
  truthy (siteUrl (resolve env params)) = true ->
  truthy (consumerKey (resolve env params)) = true ->
  truthy (consumerSecret (resolve env params)) = true ->
  nullish params = false ->
  first_failure params (guards_of m) = None ->
  exists r k1 k2,
    handleWooCommerceRequest env (JStr m) params
    = Call (woocommerce_client (resolve env params)) r k1
    /\ SseServer.handleWooCommerceRequest env (JStr m) params
       = Call (SseServer.store_client (resolve env params)) r k2.
Proof.
  intros Hin Hs Hk Hc Hp Hok.
  unfold handleWooCommerceRequest, SseServer.handleWooCommerceRequest.
  rewrite (member_present _ _ Hp). cbn [lift bind]. cbv zeta. rewrite Hs.
  cbn [sse_single_methods In] in Hin.
  repeat (destruct Hin as [<- | Hin]; [|]); [ .. | contradiction ].
  all: match type of Hok with
       | first_failure _ (guards_of ?label) = None =>
           let gs := eval vm_compute in (guards_of label) in
           change (guards_of label) with gs in Hok
       end;
    pass_guards Hok;
    match goal with
    | |- context [create_client ?cr ?method] =>
        let c := eval cbv beta iota delta [create_client] in (create_client cr method) in
        change (create_client cr method) with c
    end;
    match goal with
    | |- context [includes wpMethods ?method] =>
        change (includes wpMethods method) with false;
        change (includes wooMethods method) with true
    end;
    rewrite Hk, Hc; cbn [negb orb lift bind];
    repeat match goal with
           | |- context [select ?method ?rows] =>
               let b := eval hnf in (select method rows) in
               change (select method rows) with b
           end;
    cbv beta iota;
    repeat match goal with
           | E : truthy _ = true |- _ => rewrite E; clear E
           end;
    eexists _, _, _; split; reflexivity.
Qed.

Lemma dispatchers_send_the_same_request_witness :
  exists r k1 k2,
    handleWooCommerceRequest Sample.env (JStr "update_order")
      (JObj [ ("orderId", JNum 7); ("orderData", JObj [ ("status", JStr "completed") ]) ])
    = Call (woocommerce_client
              (resolve Sample.env
                 (JObj [ ("orderId", JNum 7);
                         ("orderData", JObj [ ("status", JStr "completed") ]) ])))
        r k1
    /\ SseServer.handleWooCommerceRequest Sample.env (JStr "update_order")
         (JObj [ ("orderId", JNum 7); ("orderData", JObj [ ("status", JStr "completed") ]) ])
       = Call (SseServer.store_client
                 (resolve Sample.env
                    (JObj [ ("orderId", JNum 7);
                            ("orderData", JObj [ ("status", JStr "completed") ]) ])))
           r k2.
Proof.
  apply (@dispatchers_send_the_same_request Sample.env "update_order"
           (JObj [ ("orderId", JNum 7);
                   ("orderData", JObj [ ("status", JStr "completed") ]) ]));
    try reflexivity.
  cbn. tauto.
Defined.
